(** * hakoniwa: the AWS Lambda transport, the dispatcher entry point and the
      HTTP timestamp helper

    A shallow embedding of [hakoniwa/impl_lambda.py], [hakoniwa/web.py],
    [hakoniwa/httputils.py] and the lazy property of [hakoniwa/utils.py].  Python objects that are mutated in place
    (the request's future, the response's chunk list and event) live in an
    explicit store that every method threads; a raised exception is a value
    of [exception] and the store survives it, as it does in Python. *)

From Stdlib Require Import ZArith NArith List String Ascii Bool Lia.
From Stdlib Require Import Permutation.
From Stdlib Require Import Strings.Byte.
From Stdlib Require Import DecimalString.
From Stdlib Require Import SpecFloat.
Import ListNotations.

Set Implicit Arguments.
Local Open Scope string_scope.
Local Open Scope list_scope.

(** ** Python values *)

(** [bytes]: a sequence of octets. *)
Definition bytes := list byte.

(** [str]: a sequence of Unicode code points.  Bodies are kept as code points
    because they go through the UTF-8 codec; header names, header values and
    HTTP tokens are kept as [string], which holds a text as its UTF-8
    octets. *)
Definition str := list N.

(** The exceptions the modelled code can raise. *)
Inductive exception : Type :=
| HttpError (status_code : Z) (message : option string)
| AssertionError (message : string)
| KeyError (key : string)
| TypeError (message : string)
| ValueError (message : string)
| AttributeError (message : string)
| OverflowError (message : string)
| OSError (errno : Z) (strerror : string)
| UnicodeEncodeError
| UnicodeDecodeError
| BinasciiError (message : string).

Inductive result (A : Type) : Type :=
| Ok (a : A)
| Raise (e : exception).
Arguments Ok {A} a.
Arguments Raise {A} e.

Definition rbind {A B} (r : result A) (k : A -> result B) : result B :=
  match r with
  | Ok a => k a
  | Raise e => Raise e
  end.

Declare Scope py_scope.
Delimit Scope py_scope with py.
Notation "x <- r ;; k" := (rbind r (fun x => k))
  (at level 61, r at next level, right associativity) : py_scope.

(** Methods on a mutable object: the object's state is threaded, and is kept
    when the method raises. *)
Definition stateful (S A : Type) : Type := S -> result A * S.

(** ** asyncio primitives, as far as the code uses them *)

Module Asyncio.

(** [asyncio.Future]: pending, or done with a result.  The code never
    cancels the future nor sets an exception on it. *)
Inductive Future (A : Type) : Type :=
| Pending
| Done (result : A).
Arguments Pending {A}.
Arguments Done {A} result.

Definition done {A} (f : Future A) : bool :=
  match f with
  | Pending => false
  | Done _ => true
  end.

(** [asyncio.Event]: a flag; [set] is idempotent. *)
Definition Event := bool.
Definition Event_new : Event := false.
Definition set (_ : Event) : Event := true.
Definition is_set (e : Event) : bool := e.

End Asyncio.

(** ** The UTF-8 codec behind [bytes.decode()] and [str.encode()]

    Strict mode: overlong forms, surrogates and code points above U+10FFFF
    are rejected by the decoder, surrogates by the encoder. *)

Module Utf8.

Local Open Scope N_scope.

Definition byte_of_N (n : N) : byte :=
  match Byte.of_N n with
  | Some b => b
  | None => x00
  end.

Definition between (lo hi : N) (b : byte) : bool :=
  (lo <=? Byte.to_N b) && (Byte.to_N b <=? hi).

Definition cont (b : byte) : N := Byte.to_N b - 0x80.

Fixpoint decode (data : bytes) : option str :=
  match data with
  | [] => Some []
  | b0 :: r0 =>
    let n0 := Byte.to_N b0 in
    if n0 <? 0x80 then option_map (cons n0) (decode r0)
    else if n0 <? 0xC2 then None
    else if n0 <? 0xE0 then
      match r0 with
      | b1 :: r1 =>
        if between 0x80 0xBF b1
        then option_map (cons ((n0 - 0xC0) * 64 + cont b1)) (decode r1)
        else None
      | [] => None
      end
    else if n0 <? 0xF0 then
      match r0 with
      | b1 :: b2 :: r2 =>
        if between (if n0 =? 0xE0 then 0xA0 else 0x80)
                   (if n0 =? 0xED then 0x9F else 0xBF) b1
           && between 0x80 0xBF b2
        then option_map
               (cons ((n0 - 0xE0) * 4096 + cont b1 * 64 + cont b2))
               (decode r2)
        else None
      | _ => None
      end
    else if n0 <? 0xF5 then
      match r0 with
      | b1 :: b2 :: b3 :: r3 =>
        if between (if n0 =? 0xF0 then 0x90 else 0x80)
                   (if n0 =? 0xF4 then 0x8F else 0xBF) b1
           && between 0x80 0xBF b2 && between 0x80 0xBF b3
        then option_map
               (cons ((n0 - 0xF0) * 262144 + cont b1 * 4096
                      + cont b2 * 64 + cont b3))
               (decode r3)
        else None
      | _ => None
      end
    else None
  end.

Definition encode_code_point (c : N) : option bytes :=
  if c <? 0x80 then Some [byte_of_N c]
  else if c <? 0x800 then
    Some [byte_of_N (0xC0 + c / 64); byte_of_N (0x80 + c mod 64)]
  else if c <? 0x10000 then
    if (0xD800 <=? c) && (c <=? 0xDFFF) then None
    else Some [byte_of_N (0xE0 + c / 4096);
               byte_of_N (0x80 + (c / 64) mod 64);
               byte_of_N (0x80 + c mod 64)]
  else if c <? 0x110000 then
    Some [byte_of_N (0xF0 + c / 262144);
          byte_of_N (0x80 + (c / 4096) mod 64);
          byte_of_N (0x80 + (c / 64) mod 64);
          byte_of_N (0x80 + c mod 64)]
  else None.

Fixpoint encode (s : str) : option bytes :=
  match s with
  | [] => Some []
  | c :: r =>
    match encode_code_point c, encode r with
    | Some a, Some b => Some (a ++ b)
    | _, _ => None
    end
  end.

End Utf8.

(** [bytes.decode()]: raises [UnicodeDecodeError] on malformed input. *)
Definition bytes_decode (data : bytes) : result str :=
  match Utf8.decode data with
  | Some s => Ok s
  | None => Raise UnicodeDecodeError
  end.

(** [str.encode()]: raises [UnicodeEncodeError] on a lone surrogate. *)
Definition str_encode (s : str) : result bytes :=
  match Utf8.encode s with
  | Some b => Ok b
  | None => Raise UnicodeEncodeError
  end.

(** ** Case mapping

    A [string] holds a text as its UTF-8 octets.

    [upper] is [str.upper()]: every code point is replaced by its full
    upper-case mapping, of one to three code points, whatever its
    neighbours are.  [upper_mapping] lists the code points that do not
    map to themselves, with their mappings, as the Unicode database of
    CPython 3.11 has them (version 14.0.0).

    [lower] is [str.lower()] on the header names and tokens the code
    compares with ASCII literals: it maps the ASCII letters and keeps
    every other octet. *)

Module Text.

Definition lower_ascii (c : ascii) : ascii :=
  let n := N_of_ascii c in
  if ((65 <=? n) && (n <=? 90))%N then ascii_of_N (n + 32) else c.

Fixpoint lower (s : string) : string :=
  match s with
  | EmptyString => EmptyString
  | String c r => String (lower_ascii c) (lower r)
  end.

Definition upper_mapping : list (N * list N) :=
  [(0x61, [0x41]); (0x62, [0x42]); (0x63, [0x43]); (0x64, [0x44]);
   (0x65, [0x45]); (0x66, [0x46]); (0x67, [0x47]); (0x68, [0x48]);
   (0x69, [0x49]); (0x6A, [0x4A]); (0x6B, [0x4B]); (0x6C, [0x4C]);
   (0x6D, [0x4D]); (0x6E, [0x4E]); (0x6F, [0x4F]); (0x70, [0x50]);
   (0x71, [0x51]); (0x72, [0x52]); (0x73, [0x53]); (0x74, [0x54]);
   (0x75, [0x55]); (0x76, [0x56]); (0x77, [0x57]); (0x78, [0x58]);
   (0x79, [0x59]); (0x7A, [0x5A]); (0xB5, [0x39C]); (0xDF, [0x53; 0x53]);
   (0xE0, [0xC0]); (0xE1, [0xC1]); (0xE2, [0xC2]); (0xE3, [0xC3]);
   (0xE4, [0xC4]); (0xE5, [0xC5]); (0xE6, [0xC6]); (0xE7, [0xC7]);
   (0xE8, [0xC8]); (0xE9, [0xC9]); (0xEA, [0xCA]); (0xEB, [0xCB]);
   (0xEC, [0xCC]); (0xED, [0xCD]); (0xEE, [0xCE]); (0xEF, [0xCF]);
   (0xF0, [0xD0]); (0xF1, [0xD1]); (0xF2, [0xD2]); (0xF3, [0xD3]);
   (0xF4, [0xD4]); (0xF5, [0xD5]); (0xF6, [0xD6]); (0xF8, [0xD8]);
   (0xF9, [0xD9]); (0xFA, [0xDA]); (0xFB, [0xDB]); (0xFC, [0xDC]);
   (0xFD, [0xDD]); (0xFE, [0xDE]); (0xFF, [0x178]); (0x101, [0x100]);
   (0x103, [0x102]); (0x105, [0x104]); (0x107, [0x106]); (0x109, [0x108]);
   (0x10B, [0x10A]); (0x10D, [0x10C]); (0x10F, [0x10E]); (0x111, [0x110]);
   (0x113, [0x112]); (0x115, [0x114]); (0x117, [0x116]); (0x119, [0x118]);
   (0x11B, [0x11A]); (0x11D, [0x11C]); (0x11F, [0x11E]); (0x121, [0x120]);
   (0x123, [0x122]); (0x125, [0x124]); (0x127, [0x126]); (0x129, [0x128]);
   (0x12B, [0x12A]); (0x12D, [0x12C]); (0x12F, [0x12E]); (0x131, [0x49]);
   (0x133, [0x132]); (0x135, [0x134]); (0x137, [0x136]); (0x13A, [0x139]);
   (0x13C, [0x13B]); (0x13E, [0x13D]); (0x140, [0x13F]); (0x142, [0x141]);
   (0x144, [0x143]); (0x146, [0x145]); (0x148, [0x147]);
   (0x149, [0x2BC; 0x4E]); (0x14B, [0x14A]); (0x14D, [0x14C]);
   (0x14F, [0x14E]); (0x151, [0x150]); (0x153, [0x152]); (0x155, [0x154]);
   (0x157, [0x156]); (0x159, [0x158]); (0x15B, [0x15A]); (0x15D, [0x15C]);
   (0x15F, [0x15E]); (0x161, [0x160]); (0x163, [0x162]); (0x165, [0x164]);
   (0x167, [0x166]); (0x169, [0x168]); (0x16B, [0x16A]); (0x16D, [0x16C]);
   (0x16F, [0x16E]); (0x171, [0x170]); (0x173, [0x172]); (0x175, [0x174]);
   (0x177, [0x176]); (0x17A, [0x179]); (0x17C, [0x17B]); (0x17E, [0x17D]);
   (0x17F, [0x53]); (0x180, [0x243]); (0x183, [0x182]); (0x185, [0x184]);
   (0x188, [0x187]); (0x18C, [0x18B]); (0x192, [0x191]); (0x195, [0x1F6]);
   (0x199, [0x198]); (0x19A, [0x23D]); (0x19E, [0x220]); (0x1A1, [0x1A0]);
   (0x1A3, [0x1A2]); (0x1A5, [0x1A4]); (0x1A8, [0x1A7]); (0x1AD, [0x1AC]);
   (0x1B0, [0x1AF]); (0x1B4, [0x1B3]); (0x1B6, [0x1B5]); (0x1B9, [0x1B8]);
   (0x1BD, [0x1BC]); (0x1BF, [0x1F7]); (0x1C5, [0x1C4]); (0x1C6, [0x1C4]);
   (0x1C8, [0x1C7]); (0x1C9, [0x1C7]); (0x1CB, [0x1CA]); (0x1CC, [0x1CA]);
   (0x1CE, [0x1CD]); (0x1D0, [0x1CF]); (0x1D2, [0x1D1]); (0x1D4, [0x1D3]);
   (0x1D6, [0x1D5]); (0x1D8, [0x1D7]); (0x1DA, [0x1D9]); (0x1DC, [0x1DB]);
   (0x1DD, [0x18E]); (0x1DF, [0x1DE]); (0x1E1, [0x1E0]); (0x1E3, [0x1E2]);
   (0x1E5, [0x1E4]); (0x1E7, [0x1E6]); (0x1E9, [0x1E8]); (0x1EB, [0x1EA]);
   (0x1ED, [0x1EC]); (0x1EF, [0x1EE]); (0x1F0, [0x4A; 0x30C]);
   (0x1F2, [0x1F1]); (0x1F3, [0x1F1]); (0x1F5, [0x1F4]); (0x1F9, [0x1F8]);
   (0x1FB, [0x1FA]); (0x1FD, [0x1FC]); (0x1FF, [0x1FE]); (0x201, [0x200]);
   (0x203, [0x202]); (0x205, [0x204]); (0x207, [0x206]); (0x209, [0x208]);
   (0x20B, [0x20A]); (0x20D, [0x20C]); (0x20F, [0x20E]); (0x211, [0x210]);
   (0x213, [0x212]); (0x215, [0x214]); (0x217, [0x216]); (0x219, [0x218]);
   (0x21B, [0x21A]); (0x21D, [0x21C]); (0x21F, [0x21E]); (0x223, [0x222]);
   (0x225, [0x224]); (0x227, [0x226]); (0x229, [0x228]); (0x22B, [0x22A]);
   (0x22D, [0x22C]); (0x22F, [0x22E]); (0x231, [0x230]); (0x233, [0x232]);
   (0x23C, [0x23B]); (0x23F, [0x2C7E]); (0x240, [0x2C7F]); (0x242, [0x241]);
   (0x247, [0x246]); (0x249, [0x248]); (0x24B, [0x24A]); (0x24D, [0x24C]);
   (0x24F, [0x24E]); (0x250, [0x2C6F]); (0x251, [0x2C6D]); (0x252, [0x2C70]);
   (0x253, [0x181]); (0x254, [0x186]); (0x256, [0x189]); (0x257, [0x18A]);
   (0x259, [0x18F]); (0x25B, [0x190]); (0x25C, [0xA7AB]); (0x260, [0x193]);
   (0x261, [0xA7AC]); (0x263, [0x194]); (0x265, [0xA78D]); (0x266, [0xA7AA]);
   (0x268, [0x197]); (0x269, [0x196]); (0x26A, [0xA7AE]); (0x26B, [0x2C62]);
   (0x26C, [0xA7AD]); (0x26F, [0x19C]); (0x271, [0x2C6E]); (0x272, [0x19D]);
   (0x275, [0x19F]); (0x27D, [0x2C64]); (0x280, [0x1A6]); (0x282, [0xA7C5]);
   (0x283, [0x1A9]); (0x287, [0xA7B1]); (0x288, [0x1AE]); (0x289, [0x244]);
   (0x28A, [0x1B1]); (0x28B, [0x1B2]); (0x28C, [0x245]); (0x292, [0x1B7]);
   (0x29D, [0xA7B2]); (0x29E, [0xA7B0]); (0x345, [0x399]); (0x371, [0x370]);
   (0x373, [0x372]); (0x377, [0x376]); (0x37B, [0x3FD]); (0x37C, [0x3FE]);
   (0x37D, [0x3FF]); (0x390, [0x399; 0x308; 0x301]); (0x3AC, [0x386]);
   (0x3AD, [0x388]); (0x3AE, [0x389]); (0x3AF, [0x38A]);
   (0x3B0, [0x3A5; 0x308; 0x301]); (0x3B1, [0x391]); (0x3B2, [0x392]);
   (0x3B3, [0x393]); (0x3B4, [0x394]); (0x3B5, [0x395]); (0x3B6, [0x396]);
   (0x3B7, [0x397]); (0x3B8, [0x398]); (0x3B9, [0x399]); (0x3BA, [0x39A]);
   (0x3BB, [0x39B]); (0x3BC, [0x39C]); (0x3BD, [0x39D]); (0x3BE, [0x39E]);
   (0x3BF, [0x39F]); (0x3C0, [0x3A0]); (0x3C1, [0x3A1]); (0x3C2, [0x3A3]);
   (0x3C3, [0x3A3]); (0x3C4, [0x3A4]); (0x3C5, [0x3A5]); (0x3C6, [0x3A6]);
   (0x3C7, [0x3A7]); (0x3C8, [0x3A8]); (0x3C9, [0x3A9]); (0x3CA, [0x3AA]);
   (0x3CB, [0x3AB]); (0x3CC, [0x38C]); (0x3CD, [0x38E]); (0x3CE, [0x38F]);
   (0x3D0, [0x392]); (0x3D1, [0x398]); (0x3D5, [0x3A6]); (0x3D6, [0x3A0]);
   (0x3D7, [0x3CF]); (0x3D9, [0x3D8]); (0x3DB, [0x3DA]); (0x3DD, [0x3DC]);
   (0x3DF, [0x3DE]); (0x3E1, [0x3E0]); (0x3E3, [0x3E2]); (0x3E5, [0x3E4]);
   (0x3E7, [0x3E6]); (0x3E9, [0x3E8]); (0x3EB, [0x3EA]); (0x3ED, [0x3EC]);
   (0x3EF, [0x3EE]); (0x3F0, [0x39A]); (0x3F1, [0x3A1]); (0x3F2, [0x3F9]);
   (0x3F3, [0x37F]); (0x3F5, [0x395]); (0x3F8, [0x3F7]); (0x3FB, [0x3FA]);
   (0x430, [0x410]); (0x431, [0x411]); (0x432, [0x412]); (0x433, [0x413]);
   (0x434, [0x414]); (0x435, [0x415]); (0x436, [0x416]); (0x437, [0x417]);
   (0x438, [0x418]); (0x439, [0x419]); (0x43A, [0x41A]); (0x43B, [0x41B]);
   (0x43C, [0x41C]); (0x43D, [0x41D]); (0x43E, [0x41E]); (0x43F, [0x41F]);
   (0x440, [0x420]); (0x441, [0x421]); (0x442, [0x422]); (0x443, [0x423]);
   (0x444, [0x424]); (0x445, [0x425]); (0x446, [0x426]); (0x447, [0x427]);
   (0x448, [0x428]); (0x449, [0x429]); (0x44A, [0x42A]); (0x44B, [0x42B]);
   (0x44C, [0x42C]); (0x44D, [0x42D]); (0x44E, [0x42E]); (0x44F, [0x42F]);
   (0x450, [0x400]); (0x451, [0x401]); (0x452, [0x402]); (0x453, [0x403]);
   (0x454, [0x404]); (0x455, [0x405]); (0x456, [0x406]); (0x457, [0x407]);
   (0x458, [0x408]); (0x459, [0x409]); (0x45A, [0x40A]); (0x45B, [0x40B]);
   (0x45C, [0x40C]); (0x45D, [0x40D]); (0x45E, [0x40E]); (0x45F, [0x40F]);
   (0x461, [0x460]); (0x463, [0x462]); (0x465, [0x464]); (0x467, [0x466]);
   (0x469, [0x468]); (0x46B, [0x46A]); (0x46D, [0x46C]); (0x46F, [0x46E]);
   (0x471, [0x470]); (0x473, [0x472]); (0x475, [0x474]); (0x477, [0x476]);
   (0x479, [0x478]); (0x47B, [0x47A]); (0x47D, [0x47C]); (0x47F, [0x47E]);
   (0x481, [0x480]); (0x48B, [0x48A]); (0x48D, [0x48C]); (0x48F, [0x48E]);
   (0x491, [0x490]); (0x493, [0x492]); (0x495, [0x494]); (0x497, [0x496]);
   (0x499, [0x498]); (0x49B, [0x49A]); (0x49D, [0x49C]); (0x49F, [0x49E]);
   (0x4A1, [0x4A0]); (0x4A3, [0x4A2]); (0x4A5, [0x4A4]); (0x4A7, [0x4A6]);
   (0x4A9, [0x4A8]); (0x4AB, [0x4AA]); (0x4AD, [0x4AC]); (0x4AF, [0x4AE]);
   (0x4B1, [0x4B0]); (0x4B3, [0x4B2]); (0x4B5, [0x4B4]); (0x4B7, [0x4B6]);
   (0x4B9, [0x4B8]); (0x4BB, [0x4BA]); (0x4BD, [0x4BC]); (0x4BF, [0x4BE]);
   (0x4C2, [0x4C1]); (0x4C4, [0x4C3]); (0x4C6, [0x4C5]); (0x4C8, [0x4C7]);
   (0x4CA, [0x4C9]); (0x4CC, [0x4CB]); (0x4CE, [0x4CD]); (0x4CF, [0x4C0]);
   (0x4D1, [0x4D0]); (0x4D3, [0x4D2]); (0x4D5, [0x4D4]); (0x4D7, [0x4D6]);
   (0x4D9, [0x4D8]); (0x4DB, [0x4DA]); (0x4DD, [0x4DC]); (0x4DF, [0x4DE]);
   (0x4E1, [0x4E0]); (0x4E3, [0x4E2]); (0x4E5, [0x4E4]); (0x4E7, [0x4E6]);
   (0x4E9, [0x4E8]); (0x4EB, [0x4EA]); (0x4ED, [0x4EC]); (0x4EF, [0x4EE]);
   (0x4F1, [0x4F0]); (0x4F3, [0x4F2]); (0x4F5, [0x4F4]); (0x4F7, [0x4F6]);
   (0x4F9, [0x4F8]); (0x4FB, [0x4FA]); (0x4FD, [0x4FC]); (0x4FF, [0x4FE]);
   (0x501, [0x500]); (0x503, [0x502]); (0x505, [0x504]); (0x507, [0x506]);
   (0x509, [0x508]); (0x50B, [0x50A]); (0x50D, [0x50C]); (0x50F, [0x50E]);
   (0x511, [0x510]); (0x513, [0x512]); (0x515, [0x514]); (0x517, [0x516]);
   (0x519, [0x518]); (0x51B, [0x51A]); (0x51D, [0x51C]); (0x51F, [0x51E]);
   (0x521, [0x520]); (0x523, [0x522]); (0x525, [0x524]); (0x527, [0x526]);
   (0x529, [0x528]); (0x52B, [0x52A]); (0x52D, [0x52C]); (0x52F, [0x52E]);
   (0x561, [0x531]); (0x562, [0x532]); (0x563, [0x533]); (0x564, [0x534]);
   (0x565, [0x535]); (0x566, [0x536]); (0x567, [0x537]); (0x568, [0x538]);
   (0x569, [0x539]); (0x56A, [0x53A]); (0x56B, [0x53B]); (0x56C, [0x53C]);
   (0x56D, [0x53D]); (0x56E, [0x53E]); (0x56F, [0x53F]); (0x570, [0x540]);
   (0x571, [0x541]); (0x572, [0x542]); (0x573, [0x543]); (0x574, [0x544]);
   (0x575, [0x545]); (0x576, [0x546]); (0x577, [0x547]); (0x578, [0x548]);
   (0x579, [0x549]); (0x57A, [0x54A]); (0x57B, [0x54B]); (0x57C, [0x54C]);
   (0x57D, [0x54D]); (0x57E, [0x54E]); (0x57F, [0x54F]); (0x580, [0x550]);
   (0x581, [0x551]); (0x582, [0x552]); (0x583, [0x553]); (0x584, [0x554]);
   (0x585, [0x555]); (0x586, [0x556]); (0x587, [0x535; 0x552]);
   (0x10D0, [0x1C90]); (0x10D1, [0x1C91]); (0x10D2, [0x1C92]);
   (0x10D3, [0x1C93]); (0x10D4, [0x1C94]); (0x10D5, [0x1C95]);
   (0x10D6, [0x1C96]); (0x10D7, [0x1C97]); (0x10D8, [0x1C98]);
   (0x10D9, [0x1C99]); (0x10DA, [0x1C9A]); (0x10DB, [0x1C9B]);
   (0x10DC, [0x1C9C]); (0x10DD, [0x1C9D]); (0x10DE, [0x1C9E]);
   (0x10DF, [0x1C9F]); (0x10E0, [0x1CA0]); (0x10E1, [0x1CA1]);
   (0x10E2, [0x1CA2]); (0x10E3, [0x1CA3]); (0x10E4, [0x1CA4]);
   (0x10E5, [0x1CA5]); (0x10E6, [0x1CA6]); (0x10E7, [0x1CA7]);
   (0x10E8, [0x1CA8]); (0x10E9, [0x1CA9]); (0x10EA, [0x1CAA]);
   (0x10EB, [0x1CAB]); (0x10EC, [0x1CAC]); (0x10ED, [0x1CAD]);
   (0x10EE, [0x1CAE]); (0x10EF, [0x1CAF]); (0x10F0, [0x1CB0]);
   (0x10F1, [0x1CB1]); (0x10F2, [0x1CB2]); (0x10F3, [0x1CB3]);
   (0x10F4, [0x1CB4]); (0x10F5, [0x1CB5]); (0x10F6, [0x1CB6]);
   (0x10F7, [0x1CB7]); (0x10F8, [0x1CB8]); (0x10F9, [0x1CB9]);
   (0x10FA, [0x1CBA]); (0x10FD, [0x1CBD]); (0x10FE, [0x1CBE]);
   (0x10FF, [0x1CBF]); (0x13F8, [0x13F0]); (0x13F9, [0x13F1]);
   (0x13FA, [0x13F2]); (0x13FB, [0x13F3]); (0x13FC, [0x13F4]);
   (0x13FD, [0x13F5]); (0x1C80, [0x412]); (0x1C81, [0x414]);
   (0x1C82, [0x41E]); (0x1C83, [0x421]); (0x1C84, [0x422]); (0x1C85, [0x422]);
   (0x1C86, [0x42A]); (0x1C87, [0x462]); (0x1C88, [0xA64A]);
   (0x1D79, [0xA77D]); (0x1D7D, [0x2C63]); (0x1D8E, [0xA7C6]);
   (0x1E01, [0x1E00]); (0x1E03, [0x1E02]); (0x1E05, [0x1E04]);
   (0x1E07, [0x1E06]); (0x1E09, [0x1E08]); (0x1E0B, [0x1E0A]);
   (0x1E0D, [0x1E0C]); (0x1E0F, [0x1E0E]); (0x1E11, [0x1E10]);
   (0x1E13, [0x1E12]); (0x1E15, [0x1E14]); (0x1E17, [0x1E16]);
   (0x1E19, [0x1E18]); (0x1E1B, [0x1E1A]); (0x1E1D, [0x1E1C]);
   (0x1E1F, [0x1E1E]); (0x1E21, [0x1E20]); (0x1E23, [0x1E22]);
   (0x1E25, [0x1E24]); (0x1E27, [0x1E26]); (0x1E29, [0x1E28]);
   (0x1E2B, [0x1E2A]); (0x1E2D, [0x1E2C]); (0x1E2F, [0x1E2E]);
   (0x1E31, [0x1E30]); (0x1E33, [0x1E32]); (0x1E35, [0x1E34]);
   (0x1E37, [0x1E36]); (0x1E39, [0x1E38]); (0x1E3B, [0x1E3A]);
   (0x1E3D, [0x1E3C]); (0x1E3F, [0x1E3E]); (0x1E41, [0x1E40]);
   (0x1E43, [0x1E42]); (0x1E45, [0x1E44]); (0x1E47, [0x1E46]);
   (0x1E49, [0x1E48]); (0x1E4B, [0x1E4A]); (0x1E4D, [0x1E4C]);
   (0x1E4F, [0x1E4E]); (0x1E51, [0x1E50]); (0x1E53, [0x1E52]);
   (0x1E55, [0x1E54]); (0x1E57, [0x1E56]); (0x1E59, [0x1E58]);
   (0x1E5B, [0x1E5A]); (0x1E5D, [0x1E5C]); (0x1E5F, [0x1E5E]);
   (0x1E61, [0x1E60]); (0x1E63, [0x1E62]); (0x1E65, [0x1E64]);
   (0x1E67, [0x1E66]); (0x1E69, [0x1E68]); (0x1E6B, [0x1E6A]);
   (0x1E6D, [0x1E6C]); (0x1E6F, [0x1E6E]); (0x1E71, [0x1E70]);
   (0x1E73, [0x1E72]); (0x1E75, [0x1E74]); (0x1E77, [0x1E76]);
   (0x1E79, [0x1E78]); (0x1E7B, [0x1E7A]); (0x1E7D, [0x1E7C]);
   (0x1E7F, [0x1E7E]); (0x1E81, [0x1E80]); (0x1E83, [0x1E82]);
   (0x1E85, [0x1E84]); (0x1E87, [0x1E86]); (0x1E89, [0x1E88]);
   (0x1E8B, [0x1E8A]); (0x1E8D, [0x1E8C]); (0x1E8F, [0x1E8E]);
   (0x1E91, [0x1E90]); (0x1E93, [0x1E92]); (0x1E95, [0x1E94]);
   (0x1E96, [0x48; 0x331]); (0x1E97, [0x54; 0x308]); (0x1E98, [0x57; 0x30A]);
   (0x1E99, [0x59; 0x30A]); (0x1E9A, [0x41; 0x2BE]); (0x1E9B, [0x1E60]);
   (0x1EA1, [0x1EA0]); (0x1EA3, [0x1EA2]); (0x1EA5, [0x1EA4]);
   (0x1EA7, [0x1EA6]); (0x1EA9, [0x1EA8]); (0x1EAB, [0x1EAA]);
   (0x1EAD, [0x1EAC]); (0x1EAF, [0x1EAE]); (0x1EB1, [0x1EB0]);
   (0x1EB3, [0x1EB2]); (0x1EB5, [0x1EB4]); (0x1EB7, [0x1EB6]);
   (0x1EB9, [0x1EB8]); (0x1EBB, [0x1EBA]); (0x1EBD, [0x1EBC]);
   (0x1EBF, [0x1EBE]); (0x1EC1, [0x1EC0]); (0x1EC3, [0x1EC2]);
   (0x1EC5, [0x1EC4]); (0x1EC7, [0x1EC6]); (0x1EC9, [0x1EC8]);
   (0x1ECB, [0x1ECA]); (0x1ECD, [0x1ECC]); (0x1ECF, [0x1ECE]);
   (0x1ED1, [0x1ED0]); (0x1ED3, [0x1ED2]); (0x1ED5, [0x1ED4]);
   (0x1ED7, [0x1ED6]); (0x1ED9, [0x1ED8]); (0x1EDB, [0x1EDA]);
   (0x1EDD, [0x1EDC]); (0x1EDF, [0x1EDE]); (0x1EE1, [0x1EE0]);
   (0x1EE3, [0x1EE2]); (0x1EE5, [0x1EE4]); (0x1EE7, [0x1EE6]);
   (0x1EE9, [0x1EE8]); (0x1EEB, [0x1EEA]); (0x1EED, [0x1EEC]);
   (0x1EEF, [0x1EEE]); (0x1EF1, [0x1EF0]); (0x1EF3, [0x1EF2]);
   (0x1EF5, [0x1EF4]); (0x1EF7, [0x1EF6]); (0x1EF9, [0x1EF8]);
   (0x1EFB, [0x1EFA]); (0x1EFD, [0x1EFC]); (0x1EFF, [0x1EFE]);
   (0x1F00, [0x1F08]); (0x1F01, [0x1F09]); (0x1F02, [0x1F0A]);
   (0x1F03, [0x1F0B]); (0x1F04, [0x1F0C]); (0x1F05, [0x1F0D]);
   (0x1F06, [0x1F0E]); (0x1F07, [0x1F0F]); (0x1F10, [0x1F18]);
   (0x1F11, [0x1F19]); (0x1F12, [0x1F1A]); (0x1F13, [0x1F1B]);
   (0x1F14, [0x1F1C]); (0x1F15, [0x1F1D]); (0x1F20, [0x1F28]);
   (0x1F21, [0x1F29]); (0x1F22, [0x1F2A]); (0x1F23, [0x1F2B]);
   (0x1F24, [0x1F2C]); (0x1F25, [0x1F2D]); (0x1F26, [0x1F2E]);
   (0x1F27, [0x1F2F]); (0x1F30, [0x1F38]); (0x1F31, [0x1F39]);
   (0x1F32, [0x1F3A]); (0x1F33, [0x1F3B]); (0x1F34, [0x1F3C]);
   (0x1F35, [0x1F3D]); (0x1F36, [0x1F3E]); (0x1F37, [0x1F3F]);
   (0x1F40, [0x1F48]); (0x1F41, [0x1F49]); (0x1F42, [0x1F4A]);
   (0x1F43, [0x1F4B]); (0x1F44, [0x1F4C]); (0x1F45, [0x1F4D]);
   (0x1F50, [0x3A5; 0x313]); (0x1F51, [0x1F59]);
   (0x1F52, [0x3A5; 0x313; 0x300]); (0x1F53, [0x1F5B]);
   (0x1F54, [0x3A5; 0x313; 0x301]); (0x1F55, [0x1F5D]);
   (0x1F56, [0x3A5; 0x313; 0x342]); (0x1F57, [0x1F5F]); (0x1F60, [0x1F68]);
   (0x1F61, [0x1F69]); (0x1F62, [0x1F6A]); (0x1F63, [0x1F6B]);
   (0x1F64, [0x1F6C]); (0x1F65, [0x1F6D]); (0x1F66, [0x1F6E]);
   (0x1F67, [0x1F6F]); (0x1F70, [0x1FBA]); (0x1F71, [0x1FBB]);
   (0x1F72, [0x1FC8]); (0x1F73, [0x1FC9]); (0x1F74, [0x1FCA]);
   (0x1F75, [0x1FCB]); (0x1F76, [0x1FDA]); (0x1F77, [0x1FDB]);
   (0x1F78, [0x1FF8]); (0x1F79, [0x1FF9]); (0x1F7A, [0x1FEA]);
   (0x1F7B, [0x1FEB]); (0x1F7C, [0x1FFA]); (0x1F7D, [0x1FFB]);
   (0x1F80, [0x1F08; 0x399]); (0x1F81, [0x1F09; 0x399]);
   (0x1F82, [0x1F0A; 0x399]); (0x1F83, [0x1F0B; 0x399]);
   (0x1F84, [0x1F0C; 0x399]); (0x1F85, [0x1F0D; 0x399]);
   (0x1F86, [0x1F0E; 0x399]); (0x1F87, [0x1F0F; 0x399]);
   (0x1F88, [0x1F08; 0x399]); (0x1F89, [0x1F09; 0x399]);
   (0x1F8A, [0x1F0A; 0x399]); (0x1F8B, [0x1F0B; 0x399]);
   (0x1F8C, [0x1F0C; 0x399]); (0x1F8D, [0x1F0D; 0x399]);
   (0x1F8E, [0x1F0E; 0x399]); (0x1F8F, [0x1F0F; 0x399]);
   (0x1F90, [0x1F28; 0x399]); (0x1F91, [0x1F29; 0x399]);
   (0x1F92, [0x1F2A; 0x399]); (0x1F93, [0x1F2B; 0x399]);
   (0x1F94, [0x1F2C; 0x399]); (0x1F95, [0x1F2D; 0x399]);
   (0x1F96, [0x1F2E; 0x399]); (0x1F97, [0x1F2F; 0x399]);
   (0x1F98, [0x1F28; 0x399]); (0x1F99, [0x1F29; 0x399]);
   (0x1F9A, [0x1F2A; 0x399]); (0x1F9B, [0x1F2B; 0x399]);
   (0x1F9C, [0x1F2C; 0x399]); (0x1F9D, [0x1F2D; 0x399]);
   (0x1F9E, [0x1F2E; 0x399]); (0x1F9F, [0x1F2F; 0x399]);
   (0x1FA0, [0x1F68; 0x399]); (0x1FA1, [0x1F69; 0x399]);
   (0x1FA2, [0x1F6A; 0x399]); (0x1FA3, [0x1F6B; 0x399]);
   (0x1FA4, [0x1F6C; 0x399]); (0x1FA5, [0x1F6D; 0x399]);
   (0x1FA6, [0x1F6E; 0x399]); (0x1FA7, [0x1F6F; 0x399]);
   (0x1FA8, [0x1F68; 0x399]); (0x1FA9, [0x1F69; 0x399]);
   (0x1FAA, [0x1F6A; 0x399]); (0x1FAB, [0x1F6B; 0x399]);
   (0x1FAC, [0x1F6C; 0x399]); (0x1FAD, [0x1F6D; 0x399]);
   (0x1FAE, [0x1F6E; 0x399]); (0x1FAF, [0x1F6F; 0x399]); (0x1FB0, [0x1FB8]);
   (0x1FB1, [0x1FB9]); (0x1FB2, [0x1FBA; 0x399]); (0x1FB3, [0x391; 0x399]);
   (0x1FB4, [0x386; 0x399]); (0x1FB6, [0x391; 0x342]);
   (0x1FB7, [0x391; 0x342; 0x399]); (0x1FBC, [0x391; 0x399]);
   (0x1FBE, [0x399]); (0x1FC2, [0x1FCA; 0x399]); (0x1FC3, [0x397; 0x399]);
   (0x1FC4, [0x389; 0x399]); (0x1FC6, [0x397; 0x342]);
   (0x1FC7, [0x397; 0x342; 0x399]); (0x1FCC, [0x397; 0x399]);
   (0x1FD0, [0x1FD8]); (0x1FD1, [0x1FD9]); (0x1FD2, [0x399; 0x308; 0x300]);
   (0x1FD3, [0x399; 0x308; 0x301]); (0x1FD6, [0x399; 0x342]);
   (0x1FD7, [0x399; 0x308; 0x342]); (0x1FE0, [0x1FE8]); (0x1FE1, [0x1FE9]);
   (0x1FE2, [0x3A5; 0x308; 0x300]); (0x1FE3, [0x3A5; 0x308; 0x301]);
   (0x1FE4, [0x3A1; 0x313]); (0x1FE5, [0x1FEC]); (0x1FE6, [0x3A5; 0x342]);
   (0x1FE7, [0x3A5; 0x308; 0x342]); (0x1FF2, [0x1FFA; 0x399]);
   (0x1FF3, [0x3A9; 0x399]); (0x1FF4, [0x38F; 0x399]);
   (0x1FF6, [0x3A9; 0x342]); (0x1FF7, [0x3A9; 0x342; 0x399]);
   (0x1FFC, [0x3A9; 0x399]); (0x214E, [0x2132]); (0x2170, [0x2160]);
   (0x2171, [0x2161]); (0x2172, [0x2162]); (0x2173, [0x2163]);
   (0x2174, [0x2164]); (0x2175, [0x2165]); (0x2176, [0x2166]);
   (0x2177, [0x2167]); (0x2178, [0x2168]); (0x2179, [0x2169]);
   (0x217A, [0x216A]); (0x217B, [0x216B]); (0x217C, [0x216C]);
   (0x217D, [0x216D]); (0x217E, [0x216E]); (0x217F, [0x216F]);
   (0x2184, [0x2183]); (0x24D0, [0x24B6]); (0x24D1, [0x24B7]);
   (0x24D2, [0x24B8]); (0x24D3, [0x24B9]); (0x24D4, [0x24BA]);
   (0x24D5, [0x24BB]); (0x24D6, [0x24BC]); (0x24D7, [0x24BD]);
   (0x24D8, [0x24BE]); (0x24D9, [0x24BF]); (0x24DA, [0x24C0]);
   (0x24DB, [0x24C1]); (0x24DC, [0x24C2]); (0x24DD, [0x24C3]);
   (0x24DE, [0x24C4]); (0x24DF, [0x24C5]); (0x24E0, [0x24C6]);
   (0x24E1, [0x24C7]); (0x24E2, [0x24C8]); (0x24E3, [0x24C9]);
   (0x24E4, [0x24CA]); (0x24E5, [0x24CB]); (0x24E6, [0x24CC]);
   (0x24E7, [0x24CD]); (0x24E8, [0x24CE]); (0x24E9, [0x24CF]);
   (0x2C30, [0x2C00]); (0x2C31, [0x2C01]); (0x2C32, [0x2C02]);
   (0x2C33, [0x2C03]); (0x2C34, [0x2C04]); (0x2C35, [0x2C05]);
   (0x2C36, [0x2C06]); (0x2C37, [0x2C07]); (0x2C38, [0x2C08]);
   (0x2C39, [0x2C09]); (0x2C3A, [0x2C0A]); (0x2C3B, [0x2C0B]);
   (0x2C3C, [0x2C0C]); (0x2C3D, [0x2C0D]); (0x2C3E, [0x2C0E]);
   (0x2C3F, [0x2C0F]); (0x2C40, [0x2C10]); (0x2C41, [0x2C11]);
   (0x2C42, [0x2C12]); (0x2C43, [0x2C13]); (0x2C44, [0x2C14]);
   (0x2C45, [0x2C15]); (0x2C46, [0x2C16]); (0x2C47, [0x2C17]);
   (0x2C48, [0x2C18]); (0x2C49, [0x2C19]); (0x2C4A, [0x2C1A]);
   (0x2C4B, [0x2C1B]); (0x2C4C, [0x2C1C]); (0x2C4D, [0x2C1D]);
   (0x2C4E, [0x2C1E]); (0x2C4F, [0x2C1F]); (0x2C50, [0x2C20]);
   (0x2C51, [0x2C21]); (0x2C52, [0x2C22]); (0x2C53, [0x2C23]);
   (0x2C54, [0x2C24]); (0x2C55, [0x2C25]); (0x2C56, [0x2C26]);
   (0x2C57, [0x2C27]); (0x2C58, [0x2C28]); (0x2C59, [0x2C29]);
   (0x2C5A, [0x2C2A]); (0x2C5B, [0x2C2B]); (0x2C5C, [0x2C2C]);
   (0x2C5D, [0x2C2D]); (0x2C5E, [0x2C2E]); (0x2C5F, [0x2C2F]);
   (0x2C61, [0x2C60]); (0x2C65, [0x23A]); (0x2C66, [0x23E]);
   (0x2C68, [0x2C67]); (0x2C6A, [0x2C69]); (0x2C6C, [0x2C6B]);
   (0x2C73, [0x2C72]); (0x2C76, [0x2C75]); (0x2C81, [0x2C80]);
   (0x2C83, [0x2C82]); (0x2C85, [0x2C84]); (0x2C87, [0x2C86]);
   (0x2C89, [0x2C88]); (0x2C8B, [0x2C8A]); (0x2C8D, [0x2C8C]);
   (0x2C8F, [0x2C8E]); (0x2C91, [0x2C90]); (0x2C93, [0x2C92]);
   (0x2C95, [0x2C94]); (0x2C97, [0x2C96]); (0x2C99, [0x2C98]);
   (0x2C9B, [0x2C9A]); (0x2C9D, [0x2C9C]); (0x2C9F, [0x2C9E]);
   (0x2CA1, [0x2CA0]); (0x2CA3, [0x2CA2]); (0x2CA5, [0x2CA4]);
   (0x2CA7, [0x2CA6]); (0x2CA9, [0x2CA8]); (0x2CAB, [0x2CAA]);
   (0x2CAD, [0x2CAC]); (0x2CAF, [0x2CAE]); (0x2CB1, [0x2CB0]);
   (0x2CB3, [0x2CB2]); (0x2CB5, [0x2CB4]); (0x2CB7, [0x2CB6]);
   (0x2CB9, [0x2CB8]); (0x2CBB, [0x2CBA]); (0x2CBD, [0x2CBC]);
   (0x2CBF, [0x2CBE]); (0x2CC1, [0x2CC0]); (0x2CC3, [0x2CC2]);
   (0x2CC5, [0x2CC4]); (0x2CC7, [0x2CC6]); (0x2CC9, [0x2CC8]);
   (0x2CCB, [0x2CCA]); (0x2CCD, [0x2CCC]); (0x2CCF, [0x2CCE]);
   (0x2CD1, [0x2CD0]); (0x2CD3, [0x2CD2]); (0x2CD5, [0x2CD4]);
   (0x2CD7, [0x2CD6]); (0x2CD9, [0x2CD8]); (0x2CDB, [0x2CDA]);
   (0x2CDD, [0x2CDC]); (0x2CDF, [0x2CDE]); (0x2CE1, [0x2CE0]);
   (0x2CE3, [0x2CE2]); (0x2CEC, [0x2CEB]); (0x2CEE, [0x2CED]);
   (0x2CF3, [0x2CF2]); (0x2D00, [0x10A0]); (0x2D01, [0x10A1]);
   (0x2D02, [0x10A2]); (0x2D03, [0x10A3]); (0x2D04, [0x10A4]);
   (0x2D05, [0x10A5]); (0x2D06, [0x10A6]); (0x2D07, [0x10A7]);
   (0x2D08, [0x10A8]); (0x2D09, [0x10A9]); (0x2D0A, [0x10AA]);
   (0x2D0B, [0x10AB]); (0x2D0C, [0x10AC]); (0x2D0D, [0x10AD]);
   (0x2D0E, [0x10AE]); (0x2D0F, [0x10AF]); (0x2D10, [0x10B0]);
   (0x2D11, [0x10B1]); (0x2D12, [0x10B2]); (0x2D13, [0x10B3]);
   (0x2D14, [0x10B4]); (0x2D15, [0x10B5]); (0x2D16, [0x10B6]);
   (0x2D17, [0x10B7]); (0x2D18, [0x10B8]); (0x2D19, [0x10B9]);
   (0x2D1A, [0x10BA]); (0x2D1B, [0x10BB]); (0x2D1C, [0x10BC]);
   (0x2D1D, [0x10BD]); (0x2D1E, [0x10BE]); (0x2D1F, [0x10BF]);
   (0x2D20, [0x10C0]); (0x2D21, [0x10C1]); (0x2D22, [0x10C2]);
   (0x2D23, [0x10C3]); (0x2D24, [0x10C4]); (0x2D25, [0x10C5]);
   (0x2D27, [0x10C7]); (0x2D2D, [0x10CD]); (0xA641, [0xA640]);
   (0xA643, [0xA642]); (0xA645, [0xA644]); (0xA647, [0xA646]);
   (0xA649, [0xA648]); (0xA64B, [0xA64A]); (0xA64D, [0xA64C]);
   (0xA64F, [0xA64E]); (0xA651, [0xA650]); (0xA653, [0xA652]);
   (0xA655, [0xA654]); (0xA657, [0xA656]); (0xA659, [0xA658]);
   (0xA65B, [0xA65A]); (0xA65D, [0xA65C]); (0xA65F, [0xA65E]);
   (0xA661, [0xA660]); (0xA663, [0xA662]); (0xA665, [0xA664]);
   (0xA667, [0xA666]); (0xA669, [0xA668]); (0xA66B, [0xA66A]);
   (0xA66D, [0xA66C]); (0xA681, [0xA680]); (0xA683, [0xA682]);
   (0xA685, [0xA684]); (0xA687, [0xA686]); (0xA689, [0xA688]);
   (0xA68B, [0xA68A]); (0xA68D, [0xA68C]); (0xA68F, [0xA68E]);
   (0xA691, [0xA690]); (0xA693, [0xA692]); (0xA695, [0xA694]);
   (0xA697, [0xA696]); (0xA699, [0xA698]); (0xA69B, [0xA69A]);
   (0xA723, [0xA722]); (0xA725, [0xA724]); (0xA727, [0xA726]);
   (0xA729, [0xA728]); (0xA72B, [0xA72A]); (0xA72D, [0xA72C]);
   (0xA72F, [0xA72E]); (0xA733, [0xA732]); (0xA735, [0xA734]);
   (0xA737, [0xA736]); (0xA739, [0xA738]); (0xA73B, [0xA73A]);
   (0xA73D, [0xA73C]); (0xA73F, [0xA73E]); (0xA741, [0xA740]);
   (0xA743, [0xA742]); (0xA745, [0xA744]); (0xA747, [0xA746]);
   (0xA749, [0xA748]); (0xA74B, [0xA74A]); (0xA74D, [0xA74C]);
   (0xA74F, [0xA74E]); (0xA751, [0xA750]); (0xA753, [0xA752]);
   (0xA755, [0xA754]); (0xA757, [0xA756]); (0xA759, [0xA758]);
   (0xA75B, [0xA75A]); (0xA75D, [0xA75C]); (0xA75F, [0xA75E]);
   (0xA761, [0xA760]); (0xA763, [0xA762]); (0xA765, [0xA764]);
   (0xA767, [0xA766]); (0xA769, [0xA768]); (0xA76B, [0xA76A]);
   (0xA76D, [0xA76C]); (0xA76F, [0xA76E]); (0xA77A, [0xA779]);
   (0xA77C, [0xA77B]); (0xA77F, [0xA77E]); (0xA781, [0xA780]);
   (0xA783, [0xA782]); (0xA785, [0xA784]); (0xA787, [0xA786]);
   (0xA78C, [0xA78B]); (0xA791, [0xA790]); (0xA793, [0xA792]);
   (0xA794, [0xA7C4]); (0xA797, [0xA796]); (0xA799, [0xA798]);
   (0xA79B, [0xA79A]); (0xA79D, [0xA79C]); (0xA79F, [0xA79E]);
   (0xA7A1, [0xA7A0]); (0xA7A3, [0xA7A2]); (0xA7A5, [0xA7A4]);
   (0xA7A7, [0xA7A6]); (0xA7A9, [0xA7A8]); (0xA7B5, [0xA7B4]);
   (0xA7B7, [0xA7B6]); (0xA7B9, [0xA7B8]); (0xA7BB, [0xA7BA]);
   (0xA7BD, [0xA7BC]); (0xA7BF, [0xA7BE]); (0xA7C1, [0xA7C0]);
   (0xA7C3, [0xA7C2]); (0xA7C8, [0xA7C7]); (0xA7CA, [0xA7C9]);
   (0xA7D1, [0xA7D0]); (0xA7D7, [0xA7D6]); (0xA7D9, [0xA7D8]);
   (0xA7F6, [0xA7F5]); (0xAB53, [0xA7B3]); (0xAB70, [0x13A0]);
   (0xAB71, [0x13A1]); (0xAB72, [0x13A2]); (0xAB73, [0x13A3]);
   (0xAB74, [0x13A4]); (0xAB75, [0x13A5]); (0xAB76, [0x13A6]);
   (0xAB77, [0x13A7]); (0xAB78, [0x13A8]); (0xAB79, [0x13A9]);
   (0xAB7A, [0x13AA]); (0xAB7B, [0x13AB]); (0xAB7C, [0x13AC]);
   (0xAB7D, [0x13AD]); (0xAB7E, [0x13AE]); (0xAB7F, [0x13AF]);
   (0xAB80, [0x13B0]); (0xAB81, [0x13B1]); (0xAB82, [0x13B2]);
   (0xAB83, [0x13B3]); (0xAB84, [0x13B4]); (0xAB85, [0x13B5]);
   (0xAB86, [0x13B6]); (0xAB87, [0x13B7]); (0xAB88, [0x13B8]);
   (0xAB89, [0x13B9]); (0xAB8A, [0x13BA]); (0xAB8B, [0x13BB]);
   (0xAB8C, [0x13BC]); (0xAB8D, [0x13BD]); (0xAB8E, [0x13BE]);
   (0xAB8F, [0x13BF]); (0xAB90, [0x13C0]); (0xAB91, [0x13C1]);
   (0xAB92, [0x13C2]); (0xAB93, [0x13C3]); (0xAB94, [0x13C4]);
   (0xAB95, [0x13C5]); (0xAB96, [0x13C6]); (0xAB97, [0x13C7]);
   (0xAB98, [0x13C8]); (0xAB99, [0x13C9]); (0xAB9A, [0x13CA]);
   (0xAB9B, [0x13CB]); (0xAB9C, [0x13CC]); (0xAB9D, [0x13CD]);
   (0xAB9E, [0x13CE]); (0xAB9F, [0x13CF]); (0xABA0, [0x13D0]);
   (0xABA1, [0x13D1]); (0xABA2, [0x13D2]); (0xABA3, [0x13D3]);
   (0xABA4, [0x13D4]); (0xABA5, [0x13D5]); (0xABA6, [0x13D6]);
   (0xABA7, [0x13D7]); (0xABA8, [0x13D8]); (0xABA9, [0x13D9]);
   (0xABAA, [0x13DA]); (0xABAB, [0x13DB]); (0xABAC, [0x13DC]);
   (0xABAD, [0x13DD]); (0xABAE, [0x13DE]); (0xABAF, [0x13DF]);
   (0xABB0, [0x13E0]); (0xABB1, [0x13E1]); (0xABB2, [0x13E2]);
   (0xABB3, [0x13E3]); (0xABB4, [0x13E4]); (0xABB5, [0x13E5]);
   (0xABB6, [0x13E6]); (0xABB7, [0x13E7]); (0xABB8, [0x13E8]);
   (0xABB9, [0x13E9]); (0xABBA, [0x13EA]); (0xABBB, [0x13EB]);
   (0xABBC, [0x13EC]); (0xABBD, [0x13ED]); (0xABBE, [0x13EE]);
   (0xABBF, [0x13EF]); (0xFB00, [0x46; 0x46]); (0xFB01, [0x46; 0x49]);
   (0xFB02, [0x46; 0x4C]); (0xFB03, [0x46; 0x46; 0x49]);
   (0xFB04, [0x46; 0x46; 0x4C]); (0xFB05, [0x53; 0x54]);
   (0xFB06, [0x53; 0x54]); (0xFB13, [0x544; 0x546]); (0xFB14, [0x544; 0x535]);
   (0xFB15, [0x544; 0x53B]); (0xFB16, [0x54E; 0x546]);
   (0xFB17, [0x544; 0x53D]); (0xFF41, [0xFF21]); (0xFF42, [0xFF22]);
   (0xFF43, [0xFF23]); (0xFF44, [0xFF24]); (0xFF45, [0xFF25]);
   (0xFF46, [0xFF26]); (0xFF47, [0xFF27]); (0xFF48, [0xFF28]);
   (0xFF49, [0xFF29]); (0xFF4A, [0xFF2A]); (0xFF4B, [0xFF2B]);
   (0xFF4C, [0xFF2C]); (0xFF4D, [0xFF2D]); (0xFF4E, [0xFF2E]);
   (0xFF4F, [0xFF2F]); (0xFF50, [0xFF30]); (0xFF51, [0xFF31]);
   (0xFF52, [0xFF32]); (0xFF53, [0xFF33]); (0xFF54, [0xFF34]);
   (0xFF55, [0xFF35]); (0xFF56, [0xFF36]); (0xFF57, [0xFF37]);
   (0xFF58, [0xFF38]); (0xFF59, [0xFF39]); (0xFF5A, [0xFF3A]);
   (0x10428, [0x10400]); (0x10429, [0x10401]); (0x1042A, [0x10402]);
   (0x1042B, [0x10403]); (0x1042C, [0x10404]); (0x1042D, [0x10405]);
   (0x1042E, [0x10406]); (0x1042F, [0x10407]); (0x10430, [0x10408]);
   (0x10431, [0x10409]); (0x10432, [0x1040A]); (0x10433, [0x1040B]);
   (0x10434, [0x1040C]); (0x10435, [0x1040D]); (0x10436, [0x1040E]);
   (0x10437, [0x1040F]); (0x10438, [0x10410]); (0x10439, [0x10411]);
   (0x1043A, [0x10412]); (0x1043B, [0x10413]); (0x1043C, [0x10414]);
   (0x1043D, [0x10415]); (0x1043E, [0x10416]); (0x1043F, [0x10417]);
   (0x10440, [0x10418]); (0x10441, [0x10419]); (0x10442, [0x1041A]);
   (0x10443, [0x1041B]); (0x10444, [0x1041C]); (0x10445, [0x1041D]);
   (0x10446, [0x1041E]); (0x10447, [0x1041F]); (0x10448, [0x10420]);
   (0x10449, [0x10421]); (0x1044A, [0x10422]); (0x1044B, [0x10423]);
   (0x1044C, [0x10424]); (0x1044D, [0x10425]); (0x1044E, [0x10426]);
   (0x1044F, [0x10427]); (0x104D8, [0x104B0]); (0x104D9, [0x104B1]);
   (0x104DA, [0x104B2]); (0x104DB, [0x104B3]); (0x104DC, [0x104B4]);
   (0x104DD, [0x104B5]); (0x104DE, [0x104B6]); (0x104DF, [0x104B7]);
   (0x104E0, [0x104B8]); (0x104E1, [0x104B9]); (0x104E2, [0x104BA]);
   (0x104E3, [0x104BB]); (0x104E4, [0x104BC]); (0x104E5, [0x104BD]);
   (0x104E6, [0x104BE]); (0x104E7, [0x104BF]); (0x104E8, [0x104C0]);
   (0x104E9, [0x104C1]); (0x104EA, [0x104C2]); (0x104EB, [0x104C3]);
   (0x104EC, [0x104C4]); (0x104ED, [0x104C5]); (0x104EE, [0x104C6]);
   (0x104EF, [0x104C7]); (0x104F0, [0x104C8]); (0x104F1, [0x104C9]);
   (0x104F2, [0x104CA]); (0x104F3, [0x104CB]); (0x104F4, [0x104CC]);
   (0x104F5, [0x104CD]); (0x104F6, [0x104CE]); (0x104F7, [0x104CF]);
   (0x104F8, [0x104D0]); (0x104F9, [0x104D1]); (0x104FA, [0x104D2]);
   (0x104FB, [0x104D3]); (0x10597, [0x10570]); (0x10598, [0x10571]);
   (0x10599, [0x10572]); (0x1059A, [0x10573]); (0x1059B, [0x10574]);
   (0x1059C, [0x10575]); (0x1059D, [0x10576]); (0x1059E, [0x10577]);
   (0x1059F, [0x10578]); (0x105A0, [0x10579]); (0x105A1, [0x1057A]);
   (0x105A3, [0x1057C]); (0x105A4, [0x1057D]); (0x105A5, [0x1057E]);
   (0x105A6, [0x1057F]); (0x105A7, [0x10580]); (0x105A8, [0x10581]);
   (0x105A9, [0x10582]); (0x105AA, [0x10583]); (0x105AB, [0x10584]);
   (0x105AC, [0x10585]); (0x105AD, [0x10586]); (0x105AE, [0x10587]);
   (0x105AF, [0x10588]); (0x105B0, [0x10589]); (0x105B1, [0x1058A]);
   (0x105B3, [0x1058C]); (0x105B4, [0x1058D]); (0x105B5, [0x1058E]);
   (0x105B6, [0x1058F]); (0x105B7, [0x10590]); (0x105B8, [0x10591]);
   (0x105B9, [0x10592]); (0x105BB, [0x10594]); (0x105BC, [0x10595]);
   (0x10CC0, [0x10C80]); (0x10CC1, [0x10C81]); (0x10CC2, [0x10C82]);
   (0x10CC3, [0x10C83]); (0x10CC4, [0x10C84]); (0x10CC5, [0x10C85]);
   (0x10CC6, [0x10C86]); (0x10CC7, [0x10C87]); (0x10CC8, [0x10C88]);
   (0x10CC9, [0x10C89]); (0x10CCA, [0x10C8A]); (0x10CCB, [0x10C8B]);
   (0x10CCC, [0x10C8C]); (0x10CCD, [0x10C8D]); (0x10CCE, [0x10C8E]);
   (0x10CCF, [0x10C8F]); (0x10CD0, [0x10C90]); (0x10CD1, [0x10C91]);
   (0x10CD2, [0x10C92]); (0x10CD3, [0x10C93]); (0x10CD4, [0x10C94]);
   (0x10CD5, [0x10C95]); (0x10CD6, [0x10C96]); (0x10CD7, [0x10C97]);
   (0x10CD8, [0x10C98]); (0x10CD9, [0x10C99]); (0x10CDA, [0x10C9A]);
   (0x10CDB, [0x10C9B]); (0x10CDC, [0x10C9C]); (0x10CDD, [0x10C9D]);
   (0x10CDE, [0x10C9E]); (0x10CDF, [0x10C9F]); (0x10CE0, [0x10CA0]);
   (0x10CE1, [0x10CA1]); (0x10CE2, [0x10CA2]); (0x10CE3, [0x10CA3]);
   (0x10CE4, [0x10CA4]); (0x10CE5, [0x10CA5]); (0x10CE6, [0x10CA6]);
   (0x10CE7, [0x10CA7]); (0x10CE8, [0x10CA8]); (0x10CE9, [0x10CA9]);
   (0x10CEA, [0x10CAA]); (0x10CEB, [0x10CAB]); (0x10CEC, [0x10CAC]);
   (0x10CED, [0x10CAD]); (0x10CEE, [0x10CAE]); (0x10CEF, [0x10CAF]);
   (0x10CF0, [0x10CB0]); (0x10CF1, [0x10CB1]); (0x10CF2, [0x10CB2]);
   (0x118C0, [0x118A0]); (0x118C1, [0x118A1]); (0x118C2, [0x118A2]);
   (0x118C3, [0x118A3]); (0x118C4, [0x118A4]); (0x118C5, [0x118A5]);
   (0x118C6, [0x118A6]); (0x118C7, [0x118A7]); (0x118C8, [0x118A8]);
   (0x118C9, [0x118A9]); (0x118CA, [0x118AA]); (0x118CB, [0x118AB]);
   (0x118CC, [0x118AC]); (0x118CD, [0x118AD]); (0x118CE, [0x118AE]);
   (0x118CF, [0x118AF]); (0x118D0, [0x118B0]); (0x118D1, [0x118B1]);
   (0x118D2, [0x118B2]); (0x118D3, [0x118B3]); (0x118D4, [0x118B4]);
   (0x118D5, [0x118B5]); (0x118D6, [0x118B6]); (0x118D7, [0x118B7]);
   (0x118D8, [0x118B8]); (0x118D9, [0x118B9]); (0x118DA, [0x118BA]);
   (0x118DB, [0x118BB]); (0x118DC, [0x118BC]); (0x118DD, [0x118BD]);
   (0x118DE, [0x118BE]); (0x118DF, [0x118BF]); (0x16E60, [0x16E40]);
   (0x16E61, [0x16E41]); (0x16E62, [0x16E42]); (0x16E63, [0x16E43]);
   (0x16E64, [0x16E44]); (0x16E65, [0x16E45]); (0x16E66, [0x16E46]);
   (0x16E67, [0x16E47]); (0x16E68, [0x16E48]); (0x16E69, [0x16E49]);
   (0x16E6A, [0x16E4A]); (0x16E6B, [0x16E4B]); (0x16E6C, [0x16E4C]);
   (0x16E6D, [0x16E4D]); (0x16E6E, [0x16E4E]); (0x16E6F, [0x16E4F]);
   (0x16E70, [0x16E50]); (0x16E71, [0x16E51]); (0x16E72, [0x16E52]);
   (0x16E73, [0x16E53]); (0x16E74, [0x16E54]); (0x16E75, [0x16E55]);
   (0x16E76, [0x16E56]); (0x16E77, [0x16E57]); (0x16E78, [0x16E58]);
   (0x16E79, [0x16E59]); (0x16E7A, [0x16E5A]); (0x16E7B, [0x16E5B]);
   (0x16E7C, [0x16E5C]); (0x16E7D, [0x16E5D]); (0x16E7E, [0x16E5E]);
   (0x16E7F, [0x16E5F]); (0x1E922, [0x1E900]); (0x1E923, [0x1E901]);
   (0x1E924, [0x1E902]); (0x1E925, [0x1E903]); (0x1E926, [0x1E904]);
   (0x1E927, [0x1E905]); (0x1E928, [0x1E906]); (0x1E929, [0x1E907]);
   (0x1E92A, [0x1E908]); (0x1E92B, [0x1E909]); (0x1E92C, [0x1E90A]);
   (0x1E92D, [0x1E90B]); (0x1E92E, [0x1E90C]); (0x1E92F, [0x1E90D]);
   (0x1E930, [0x1E90E]); (0x1E931, [0x1E90F]); (0x1E932, [0x1E910]);
   (0x1E933, [0x1E911]); (0x1E934, [0x1E912]); (0x1E935, [0x1E913]);
   (0x1E936, [0x1E914]); (0x1E937, [0x1E915]); (0x1E938, [0x1E916]);
   (0x1E939, [0x1E917]); (0x1E93A, [0x1E918]); (0x1E93B, [0x1E919]);
   (0x1E93C, [0x1E91A]); (0x1E93D, [0x1E91B]); (0x1E93E, [0x1E91C]);
   (0x1E93F, [0x1E91D]); (0x1E940, [0x1E91E]); (0x1E941, [0x1E91F]);
   (0x1E942, [0x1E920]); (0x1E943, [0x1E921])]%N.

(** [_PyUnicode_ToUpperFull] *)
Definition _PyUnicode_ToUpperFull (c : N) : list N :=
  match find (fun entry => N.eqb (fst entry) c) upper_mapping with
  | Some entry => snd entry
  | None => [c]
  end.

(** [do_upper]: the mappings of the code points, one after the other. *)
Definition do_upper (text : str) : str :=
  flat_map _PyUnicode_ToUpperFull text.

(** [str.upper()], on the octets.  A string that holds no text stands
    for no [str], and is left as it is. *)
Definition upper (s : string) : string :=
  match Utf8.decode (list_byte_of_string s) with
  | Some text =>
    match Utf8.encode (do_upper text) with
    | Some data => string_of_list_byte data
    | None => s
    end
  | None => s
  end.

(** Truth value of a [str]: non-empty. *)
Definition truthy (s : string) : bool :=
  match s with
  | EmptyString => false
  | String _ _ => true
  end.

End Text.

(** ** The [base64] module: [b64encode] and the lenient [b64decode]

    [b64decode] is [binascii.a2b_base64] with strict mode off, as CPython
    3.11 and later implement it: characters outside the alphabet are
    skipped, a pad sequence that completes a quad ends the input, and
    leftover data characters are an error. *)

Module Base64.

Local Open Scope N_scope.

Definition BASE64_PAD : byte := "="%byte.

Definition alphabet : bytes :=
  list_byte_of_string
    "ABCDEFGHIJKLMNOPQRSTUVWXYZabcdefghijklmnopqrstuvwxyz0123456789+/".

Definition table_b2a_base64 (i : N) : byte :=
  nth (N.to_nat i) alphabet BASE64_PAD.

(** The reverse table; 64 stands for "not in the alphabet". *)
Definition table_a2b_base64 (c : byte) : N :=
  let n := Byte.to_N c in
  if (65 <=? n) && (n <=? 90) then n - 65
  else if (97 <=? n) && (n <=? 122) then n - 71
  else if (48 <=? n) && (n <=? 57) then n + 4
  else if n =? 43 then 62
  else if n =? 47 then 63
  else 64.

Fixpoint b64encode (s : bytes) : bytes :=
  match s with
  | [] => []
  | [a] =>
    let a := Byte.to_N a in
    [table_b2a_base64 (a / 4); table_b2a_base64 ((a mod 4) * 16);
     BASE64_PAD; BASE64_PAD]
  | [a; b] =>
    let a := Byte.to_N a in
    let b := Byte.to_N b in
    [table_b2a_base64 (a / 4); table_b2a_base64 ((a mod 4) * 16 + b / 16);
     table_b2a_base64 ((b mod 16) * 4); BASE64_PAD]
  | a :: b :: c :: r =>
    let a := Byte.to_N a in
    let b := Byte.to_N b in
    let c := Byte.to_N c in
    table_b2a_base64 (a / 4)
      :: table_b2a_base64 ((a mod 4) * 16 + b / 16)
      :: table_b2a_base64 ((b mod 16) * 4 + c / 64)
      :: table_b2a_base64 (c mod 64)
      :: b64encode r
  end.

(** The decoding loop: [quad_pos] is the position in the current quad,
    [leftchar] the bits carried over, [pads] the pad characters seen
    since the last data character, [out] the octets written so far. *)
Fixpoint a2b_loop (data : bytes) (quad_pos leftchar pads : N) (out : bytes)
  : result bytes :=
  match data with
  | [] =>
    if quad_pos =? 0 then Ok out
    else if quad_pos =? 1 then
      Raise (BinasciiError "Invalid base64-encoded string: number of data characters cannot be 1 more than a multiple of 4")
    else Raise (BinasciiError "Incorrect padding")
  | ch :: rest =>
    if Byte.eqb ch BASE64_PAD then
      if 2 <=? quad_pos then
        if 4 <=? quad_pos + (pads + 1) then Ok out
        else a2b_loop rest quad_pos leftchar (pads + 1) out
      else a2b_loop rest quad_pos leftchar pads out
    else
      let this_ch := table_a2b_base64 ch in
      if 64 <=? this_ch then a2b_loop rest quad_pos leftchar pads out
      else if quad_pos =? 0 then a2b_loop rest 1 this_ch 0 out
      else if quad_pos =? 1 then
        a2b_loop rest 2 (this_ch mod 16) 0
                 (out ++ [Utf8.byte_of_N (leftchar * 4 + this_ch / 16)])
      else if quad_pos =? 2 then
        a2b_loop rest 3 (this_ch mod 4) 0
                 (out ++ [Utf8.byte_of_N (leftchar * 16 + this_ch / 4)])
      else
        a2b_loop rest 0 0 0
                 (out ++ [Utf8.byte_of_N (leftchar * 64 + this_ch)])
  end.

Definition a2b_base64 (data : bytes) : result bytes :=
  a2b_loop data 0 0 0 [].

(** [b64decode] of a [str] argument: the text must be ASCII. *)
Definition bytes_from_decode_data (s : str) : result bytes :=
  if forallb (fun c => c <? 128) s then Ok (map Utf8.byte_of_N s)
  else Raise (ValueError "string argument should contain only ASCII characters").

Definition b64decode (s : str) : result bytes :=
  (data <- bytes_from_decode_data s ;; a2b_base64 data)%py.

End Base64.

(** ** Containers *)

(** A Python [dict] with [str] keys: an association list in insertion order
    whose keys are pairwise distinct. *)
Module Dict.

Definition t (V : Type) : Type := list (string * V).

Definition empty {V} : t V := [].

Definition keys {V} (d : t V) : list string := map fst d.

Definition items {V} (d : t V) : list (string * V) := d.

(** [key in d.keys()] *)
Definition mem {V} (key : string) (d : t V) : bool :=
  existsb (String.eqb key) (keys d).

(** [d[key]] *)
Fixpoint get {V} (d : t V) (key : string) : option V :=
  match d with
  | [] => None
  | (k, v) :: r => if String.eqb k key then Some v else get r key
  end.

(** [d[key] = value]: in place for a known key, at the end for a new one. *)
Fixpoint set {V} (d : t V) (key : string) (value : V) : t V :=
  match d with
  | [] => [(key, value)]
  | (k, v) :: r =>
    if String.eqb k key then (k, value) :: r else (k, v) :: set r key value
  end.

(** [d[key].append(x)] for a dict of lists; the key is present when the
    code calls it. *)
Definition append {V} (d : t (list V)) (key : string) (x : V) : t (list V) :=
  match get d key with
  | Some l => set d key (l ++ [x])
  | None => d
  end.

End Dict.

(** Modelled from the spec: the header/query container
    ([magicdict.FrozenTolerantMagicDict], a package outside the sources):
    an ordered sequence of (name, value) pairs built once; names are case
    folded when the container is built, values never; lookups fold the
    name they are given. *)
Module Magicdict.

Record FrozenTolerantMagicDict : Type :=
  { _kv_pairs : list (string * string) }.

Definition construct (pairs : list (string * string))
  : FrozenTolerantMagicDict :=
  {| _kv_pairs := map (fun kv => (Text.lower (fst kv), snd kv)) pairs |}.

Definition items (d : FrozenTolerantMagicDict) : list (string * string) :=
  _kv_pairs d.

Definition get_all (d : FrozenTolerantMagicDict) (name : string)
  : list string :=
  map snd
      (filter (fun kv => String.eqb (fst kv) (Text.lower name))
              (_kv_pairs d)).

Definition get_first (d : FrozenTolerantMagicDict) (name default : string)
  : string :=
  match get_all d name with
  | v :: _ => v
  | [] => default
  end.

End Magicdict.

(** ** [hakoniwa.constants]

    The module is not part of the sources.  The three string-valued enums
    are taken as an interface: calling the enum class on a value yields the
    member with that value or raises [ValueError].  Status codes are the
    integers of [HttpStatusCode] (an [IntEnum]). *)

Class Constants : Type :=
  { HttpRequestMethod : Type;
    HttpRequestMethod_by_value : string -> option HttpRequestMethod;
    HttpVersion : Type;
    HttpVersion_by_value : string -> option HttpVersion;
    HttpScheme : Type;
    HttpScheme_by_value : string -> option HttpScheme }.

Definition HttpStatusCode : Type := Z.

(** Modelled from the spec: [constants.HttpStatusCode.NOT_FOUND], the
    404-equivalent status. *)
Definition NOT_FOUND : HttpStatusCode := 404%Z.

Definition enum_call {E : Type} (by_value : string -> option E)
           (class_name value : string) : result E :=
  match by_value value with
  | Some m => Ok m
  | None => Raise (ValueError (value ++ " is not a valid " ++ class_name))
  end.

(** [d[key]] on the event: a missing key raises [KeyError]. *)
Definition getitem {A : Type} (key : string) (field : option A) : result A :=
  match field with
  | Some a => Ok a
  | None => Raise (KeyError key)
  end.

(** ** [hakoniwa.impl_lambda] *)

(** The inbound event, [Dict[str, Any]] in the source.  Every key the code
    reads is a field; [None] is a missing key, and for the two keys the
    code tests for a null value the inner [None] is JSON [null]. *)
Module LambdaEvent.

Record RequestContext : Type :=
  { protocol : option string;
    domainName : option (option string) }.

Record t : Type :=
  { isBase64Encoded : option bool;
    body : option (option str);
    httpMethod : option string;
    requestContext : option RequestContext;
    path : option string;
    multiValueQueryStringParameters : option (option (Dict.t (list string)));
    multiValueHeaders : option (Dict.t (list string)) }.

End LambdaEvent.

(** The value [LambdaResponse.translate] returns. *)
Module LambdaOutput.

Record t : Type :=
  { isBase64Encoded : bool;
    statusCode : Z;
    multiValueHeaders : Dict.t (list string);
    body : str }.

End LambdaOutput.

Module LambdaResponse.

(** The object's state.  [_request] is the back-reference to the request
    that owns the store the response lives in; only [version] reads it. *)
Record t : Type :=
  { _status_code : HttpStatusCode;
    _headers : Magicdict.FrozenTolerantMagicDict;
    _body_chunks : list bytes;
    _finished : Asyncio.Event }.

Definition init (status_code : HttpStatusCode)
           (headers : Magicdict.FrozenTolerantMagicDict) : t :=
  {| _status_code := status_code;
     _headers := headers;
     _body_chunks := [];
     _finished := Asyncio.Event_new |}.

Definition status_code (self : t) : HttpStatusCode := _status_code self.

Definition headers (self : t) : Magicdict.FrozenTolerantMagicDict :=
  _headers self.

(** [bytes] truth value *)
Definition nonempty (data : bytes) : bool :=
  match data with
  | [] => false
  | _ :: _ => true
  end.

Definition write (data : bytes) : stateful t unit := fun self =>
  if nonempty data
  then (Ok tt, {| _status_code := _status_code self;
                  _headers := _headers self;
                  _body_chunks := _body_chunks self ++ [data];
                  _finished := _finished self |})
  else (Ok tt, self).

Definition finish : stateful t unit := fun self =>
  (Ok tt, {| _status_code := _status_code self;
             _headers := _headers self;
             _body_chunks := _body_chunks self;
             _finished := Asyncio.set (_finished self) |}).

Definition finished (self : t) : bool := Asyncio.is_set (_finished self).

(** One turn of the loop over [self.headers.items()]. *)
Definition translate_header (header_lists : Dict.t (list string))
           (item : string * string) : Dict.t (list string) :=
  let (header_name, header_val) := item in
  if String.eqb header_name "content-length" then header_lists
  else
    let header_lists :=
      if negb (Dict.mem header_name header_lists)
      then Dict.set header_lists header_name []
      else header_lists in
    Dict.append header_lists header_name header_val.

Definition translate (self : t) : result LambdaOutput.t :=
  if negb (finished self)
  then Raise (AssertionError "This response is not finished.")
  else
    let header_lists :=
      fold_left translate_header (Magicdict.items (headers self))
                Dict.empty in
    let body_bytes := List.concat (_body_chunks self) in
    match bytes_decode body_bytes with
    | Ok body_str =>
      Ok {| LambdaOutput.isBase64Encoded := false;
            LambdaOutput.statusCode := status_code self;
            LambdaOutput.multiValueHeaders := header_lists;
            LambdaOutput.body := body_str |}
    | Raise UnicodeDecodeError =>
      (body_str <- bytes_decode (Base64.b64encode body_bytes) ;;
       Ok {| LambdaOutput.isBase64Encoded := true;
             LambdaOutput.statusCode := status_code self;
             LambdaOutput.multiValueHeaders := header_lists;
             LambdaOutput.body := body_str |})%py
    | Raise e => Raise e
    end.

End LambdaResponse.

Module LambdaRequest.

(** Responses are objects shared between the request's future and the
    handler that writes them: they live in a store and are named by
    their address. *)
Definition address : Type := nat.

Section WithConstants.

Context {C : Constants}.

Record t : Type :=
  { _event : LambdaEvent.t;
    _body : bytes;
    _method : HttpRequestMethod;
    _version : HttpVersion;
    _uri : string;
    _authority : option string;
    _queries : Magicdict.FrozenTolerantMagicDict;
    _headers : Magicdict.FrozenTolerantMagicDict;
    _scheme : option HttpScheme;
    _res_fur : Asyncio.Future address }.

(** The two nested [for] loops that flatten a name -> values map. *)
Definition flatten (m : Dict.t (list string)) : list (string * string) :=
  fold_left
    (fun acc (entry : string * list string) =>
       let (key, values) := entry in
       fold_left (fun acc value => acc ++ [(key, value)]) values acc)
    (Dict.items m) [].

(** [str] truth value *)
Definition nonempty (s : str) : bool :=
  match s with
  | [] => false
  | _ :: _ => true
  end.

Definition init_body (event : LambdaEvent.t) : result bytes :=
  (flag <- getitem "isBase64Encoded" (LambdaEvent.isBase64Encoded event) ;;
   if flag : bool then
     body <- getitem "body" (LambdaEvent.body event) ;;
     match body with
     | Some s => Base64.b64decode s
     | None =>
       Raise (TypeError "argument should be a bytes-like object or ASCII string, not 'NoneType'")
     end
   else
     body <- getitem "body" (LambdaEvent.body event) ;;
     match body with
     | Some s => if nonempty s then str_encode s else Ok []
     | None => Ok []
     end)%py.

Definition init (event : LambdaEvent.t) : result t :=
  (body <- init_body event ;;
   http_method <- getitem "httpMethod" (LambdaEvent.httpMethod event) ;;
   method <- enum_call HttpRequestMethod_by_value "HttpRequestMethod"
                       (Text.upper http_method) ;;
   context <- getitem "requestContext" (LambdaEvent.requestContext event) ;;
   protocol <- getitem "protocol" (LambdaEvent.protocol context) ;;
   version <- enum_call HttpVersion_by_value "HttpVersion" protocol ;;
   let uri :=
     match LambdaEvent.path event with
     | Some p => p
     | None => "/"
     end in
   let authority :=
     match LambdaEvent.domainName context with
     | Some (Some d) => Some d
     | _ => None
     end in
   let queries_list :=
     flatten
       match LambdaEvent.multiValueQueryStringParameters event with
       | Some (Some m) => m
       | _ => Dict.empty
       end in
   multi_headers <- getitem "multiValueHeaders"
                            (LambdaEvent.multiValueHeaders event) ;;
   let header_list := flatten multi_headers in
   let headers := Magicdict.construct header_list in
   let scheme_str :=
     Text.lower (Magicdict.get_first headers "x-forwarded-proto" "") in
   scheme <- (if Text.truthy scheme_str
              then s <- enum_call HttpScheme_by_value "HttpScheme"
                                  scheme_str ;;
                   Ok (Some s)
              else Ok None) ;;
   Ok {| _event := event;
         _body := body;
         _method := method;
         _version := version;
         _uri := uri;
         _authority := authority;
         _queries := Magicdict.construct queries_list;
         _headers := headers;
         _scheme := scheme;
         _res_fur := Asyncio.Pending |})%py.

Definition method (self : t) : HttpRequestMethod := _method self.
Definition version (self : t) : HttpVersion := _version self.
Definition uri (self : t) : string := _uri self.
Definition queries (self : t) := _queries self.
Definition headers (self : t) := _headers self.
Definition body (self : t) : bytes := _body self.
Definition read (self : t) : bytes := body self.

Definition authority (self : t) : result string :=
  match _authority self with
  | None => Raise (AttributeError "Authority is not available.")
  | Some a => Ok a
  end.

Definition scheme (self : t) : result HttpScheme :=
  match _scheme self with
  | None => Raise (AttributeError "Scheme is not available.")
  | Some s => Ok s
  end.

(** The request object together with the responses allocated so far. *)
Record world : Type :=
  { request : t;
    responses : list LambdaResponse.t }.

Definition set_result (self : t) (response : address) : t :=
  {| _event := _event self;
     _body := _body self;
     _method := _method self;
     _version := _version self;
     _uri := _uri self;
     _authority := _authority self;
     _queries := _queries self;
     _headers := _headers self;
     _scheme := _scheme self;
     _res_fur := Asyncio.Done response |}.

Definition write_response (status_code : HttpStatusCode)
           (headers : option (Dict.t string))
  : stateful world address := fun w =>
  if Asyncio.done (_res_fur (request w))
  then (Raise (HttpError 500 (Some "You can only write response once.")),
        w)
  else
    let response :=
      LambdaResponse.init
        status_code
        (Magicdict.construct
           (Dict.items match headers with
                       | Some h => h
                       | None => Dict.empty
                       end)) in
    let a := List.length (responses w) in
    (Ok a, {| request := set_result (request w) a;
              responses := responses w ++ [response] |}).

Fixpoint store_at (l : list LambdaResponse.t) (a : address)
         (r : LambdaResponse.t) : list LambdaResponse.t :=
  match l, a with
  | [], _ => []
  | _ :: rest, O => r :: rest
  | x :: rest, S a' => x :: store_at rest a' r
  end.

(** A method call [response.m(...)] through a reference.  Every
    reference the code holds names an allocated response; the last
    case is there for totality only. *)
Definition call {A : Type} (a : address)
           (m : stateful LambdaResponse.t A) : stateful world A :=
  fun w =>
    match nth_error (responses w) a with
    | Some r =>
      let (res, r') := m r in
      (res, {| request := request w;
               responses := store_at (responses w) a r' |})
    | None => (Raise (AttributeError "no such object"), w)
    end.

(** What an [await] yields when no other task runs in between. *)
Inductive awaited (A : Type) : Type :=
| Ready (a : A)
| Suspended.

(** [_get_final_response]: waits for the future, then for the
    response's event. *)
Definition _get_final_response (w : world) : awaited address :=
  match _res_fur (request w) with
  | Asyncio.Pending => Suspended _
  | Asyncio.Done a =>
    match nth_error (responses w) a with
    | Some r => if LambdaResponse.finished r then Ready a
                else Suspended _
    | None => Suspended _
    end
  end.

End WithConstants.

Arguments Ready {A} a.
Arguments Suspended {A}.

End LambdaRequest.

(** ** [hakoniwa.web]: the dispatcher entry point *)

Module Web.

Section WithConstants.

Context {C : Constants}.

(** Whatever handlers act upon besides the transaction itself. *)
Variable Env : Type.

(** The [path] property of [hakoniwa.requests.Request], a module that is
    not part of the sources: the string handed to the router. *)
Variable Request_path : LambdaRequest.t -> string.

Definition state : Type := (LambdaRequest.world * Env)%type.

(** Modelled from the spec: a handler instance of the missing
    [hakoniwa.handlers], reduced to its entry point: the [before] hook
    and the hooks that run after it. *)
Record BaseRequestHandler : Type :=
  { before : stateful state unit;
    after_before : stateful state unit }.

(** The router, [destination.Dispatcher.resolve]: a handler class and
    the path arguments, or [NoMatchesFound] ([None]). *)
Definition kwargs : Type := Dict.t string.

Record Application : Type :=
  { handlers : string -> option ((kwargs -> BaseRequestHandler) * kwargs) }.

(** What [RequestHandler] provides for the hooks a subclass does not
    override. *)
Variable RequestHandler_after_before : stateful state unit.

(** [Application.DefaultHandler]: [before] raises
    [HttpError(NOT_FOUND)]. *)
Definition DefaultHandler (_ : kwargs) : BaseRequestHandler :=
  {| before := fun s => (Raise (HttpError NOT_FOUND None), s);
     after_before := RequestHandler_after_before |}.

Definition lift_world {A : Type} (m : stateful LambdaRequest.world A)
  : stateful state A := fun s =>
  let (r, w) := m (fst s) in (r, (w, snd s)).

(** Modelled from the spec: the recovery the orchestrator applies to an
    HTTP-semantic error, a minimal response with the error's status. *)
Definition minimal_response (status_code : HttpStatusCode)
  : stateful state unit := fun s =>
  match lift_world (LambdaRequest.write_response status_code None) s with
  | (Ok response, s1) =>
    lift_world (LambdaRequest.call response LambdaResponse.finish) s1
  | (Raise e, s1) => (Raise e, s1)
  end.

(** Modelled from the spec: [BaseRequestHandler._process_request] of
    the missing [hakoniwa.handlers]: run the entry point; an
    [HttpError] becomes a minimal response with its status code, any
    other error a minimal 500 response. *)
Definition _process_request (handler : BaseRequestHandler)
  : stateful state unit := fun s =>
  let run :=
    match before handler s with
    | (Ok _, s1) => after_before handler s1
    | (Raise e, s1) => (Raise e, s1)
    end in
  match run with
  | (Ok _, s1) => (Ok tt, s1)
  | (Raise (HttpError status_code _), s1) =>
    minimal_response status_code s1
  | (Raise _, s1) => minimal_response 500%Z s1
  end.

Definition process_request (self : Application) : stateful state unit :=
  fun s =>
    let handler :=
      match handlers self (Request_path (LambdaRequest.request (fst s))) with
      | Some (identifier, resolved_kwargs) => identifier resolved_kwargs
      | None => DefaultHandler Dict.empty
      end in
    _process_request handler s.

(** [process_lambda_request]: the outcome is the translated response,
    an exception, or a wait that nothing ends. *)
Definition process_lambda_request (self : Application)
           (event : LambdaEvent.t) (env : Env)
  : LambdaRequest.awaited (result LambdaOutput.t) * Env :=
  match LambdaRequest.init event with
  | Raise e => (LambdaRequest.Ready (Raise e), env)
  | Ok request =>
    let w := {| LambdaRequest.request := request;
                LambdaRequest.responses := [] |} in
    match process_request self (w, env) with
    | (Raise e, s1) => (LambdaRequest.Ready (Raise e), snd s1)
    | (Ok _, s1) =>
      match LambdaRequest._get_final_response (fst s1) with
      | LambdaRequest.Suspended => (LambdaRequest.Suspended, snd s1)
      | LambdaRequest.Ready a =>
        match nth_error (LambdaRequest.responses (fst s1)) a with
        | Some response =>
          (LambdaRequest.Ready (LambdaResponse.translate response),
           snd s1)
        | None => (LambdaRequest.Suspended, snd s1)
        end
      end
    end
  end.

End WithConstants.

End Web.

(** ** The standard-library calendar behind [hakoniwa.httputils]

    [datetime], [calendar.timegm], [time.gmtime] and
    [email.utils.formatdate] on the proleptic Gregorian calendar, with
    Python's floor division.  Where the C implementation of CPython 3.11
    hands an integer to C, the limits are those of 64-bit Linux. *)

Module Datetime.

Local Open Scope Z_scope.

Definition MINYEAR : Z := 1.
Definition MAXYEAR : Z := 9999.
Definition _MAXORDINAL : Z := 3652059.

Definition _DAYS_IN_MONTH : list Z :=
  [-1; 31; 28; 31; 30; 31; 30; 31; 31; 30; 31; 30; 31].

Definition _DAYS_BEFORE_MONTH : list Z :=
  [-1; 0; 31; 59; 90; 120; 151; 181; 212; 243; 273; 304; 334].

Definition item (l : list Z) (i : Z) : Z := nth (Z.to_nat i) l (-1).

Definition _is_leap (year : Z) : bool :=
  (year mod 4 =? 0) && (negb (year mod 100 =? 0) || (year mod 400 =? 0)).

Definition _days_before_year (year : Z) : Z :=
  let y := year - 1 in
  y * 365 + y / 4 - y / 100 + y / 400.

Definition _days_in_month (year month : Z) : Z :=
  if (month =? 2) && _is_leap year then 29 else item _DAYS_IN_MONTH month.

Definition _days_before_month (year month : Z) : Z :=
  item _DAYS_BEFORE_MONTH month
  + (if (2 <? month) && _is_leap year then 1 else 0).

Definition _ymd2ord (year month day : Z) : Z :=
  _days_before_year year + _days_before_month year month + day.

Definition _DI400Y : Z := 146097.
Definition _DI100Y : Z := 36524.
Definition _DI4Y : Z := 1461.

Definition _ord2ymd (n : Z) : Z * Z * Z :=
  let n := n - 1 in
  let n400 := n / _DI400Y in
  let n := n mod _DI400Y in
  let year := n400 * 400 + 1 in
  let n100 := n / _DI100Y in
  let n := n mod _DI100Y in
  let n4 := n / _DI4Y in
  let n := n mod _DI4Y in
  let n1 := n / 365 in
  let n := n mod 365 in
  let year := year + (n100 * 100 + n4 * 4 + n1) in
  if (n1 =? 4) || (n100 =? 4) then (year - 1, 12, 31)
  else
    let leapyear := (n1 =? 3) && (negb (n4 =? 24) || (n100 =? 3)) in
    let month := (n + 50) / 32 in
    let preceding :=
      item _DAYS_BEFORE_MONTH month
      + (if (2 <? month) && leapyear then 1 else 0) in
    if n <? preceding then
      let month := month - 1 in
      let preceding :=
        preceding
        - (item _DAYS_IN_MONTH month
           + (if (month =? 2) && leapyear then 1 else 0)) in
      (year, month, n - preceding + 1)
    else (year, month, n - preceding + 1).

(** A [datetime]; [utcoffset] is the offset of its [tzinfo] in
    microseconds, [None] for a naive one. *)
Record datetime : Type :=
  { year : Z; month : Z; day : Z;
    hour : Z; minute : Z; second : Z; microsecond : Z;
    utcoffset : option Z }.

Definition toordinal (self : datetime) : Z :=
  _ymd2ord (year self) (month self) (day self).

(** [(toordinal() + 6) % 7] *)
Definition weekday (self : datetime) : Z := (toordinal self + 6) mod 7.

Definition microseconds_of (self : datetime) : Z :=
  (((toordinal self * 24 + hour self) * 60 + minute self) * 60
   + second self) * 1000000 + microsecond self.

(** The datetime at a count of microseconds since ordinal 0, when
    [datetime] can hold it. *)
Definition of_microseconds (total : Z) (tz : option Z) : option datetime :=
  let days := total / 86400000000 in
  let rest := total mod 86400000000 in
  if (0 <? days) && (days <=? _MAXORDINAL) then
    let '(y, m, d) := _ord2ymd days in
    let secs := rest / 1000000 in
    Some {| year := y; month := m; day := d;
            hour := secs / 3600; minute := (secs mod 3600) / 60;
            second := secs mod 60; microsecond := rest mod 1000000;
            utcoffset := tz |}
  else None.

(** [self - offset] *)
Definition sub (self : datetime) (offset : Z) : result datetime :=
  match of_microseconds (microseconds_of self - offset) (utcoffset self) with
  | Some dt => Ok dt
  | None => Raise (OverflowError "date value out of range")
  end.

Definition _EPOCH_ORD : Z := 719163.

(** [_build_struct_time(y, m, d, hh, mm, ss, 0)]: the nine fields. *)
Definition _build_struct_time (y m d hh mm ss : Z) : list Z :=
  [y; m; d; hh; mm; ss; (_ymd2ord y m d + 6) mod 7;
   _days_before_month y m + d; 0].

Definition utctimetuple (self : datetime) : result (list Z) :=
  (shifted <- match utcoffset self with
              | Some offset =>
                if offset =? 0 then Ok self else sub self offset
              | None => Ok self
              end ;;
   Ok (_build_struct_time (year shifted) (month shifted) (day shifted)
                          (hour shifted) (minute shifted)
                          (second shifted)))%py.

(** ["%i"] and ["%d"]: an integer in decimal. *)
Definition decimal (n : Z) : string := NilZero.string_of_int (Z.to_int n).

(** C integers, as the platform of CPython 3.11 on 64-bit Linux has
    them: [int] has 32 bits, [long], [long long] and [time_t] have 64.
    [c_int] is what an [int] holds after an addition that overflows. *)
Definition INT_MIN : Z := -2147483648.
Definition INT_MAX : Z := 2147483647.
Definition LONG_MIN : Z := -9223372036854775808.
Definition LONG_MAX : Z := 9223372036854775807.

Definition c_int (n : Z) : Z :=
  (n + 2147483648) mod 4294967296 - 2147483648.

(** [_PyLong_AsTime_t] *)
Definition _PyLong_AsTime_t (n : Z) : result Z :=
  if (LONG_MIN <=? n) && (n <=? LONG_MAX) then Ok n
  else Raise (OverflowError "timestamp out of range for platform time_t").

(** [struct tm], without [tm_isdst]. *)
Record tm : Type :=
  { tm_sec : Z; tm_min : Z; tm_hour : Z;
    tm_mday : Z; tm_mon : Z; tm_year : Z;
    tm_wday : Z; tm_yday : Z }.

(** [gmtime_r] of the C library: the proleptic Gregorian date of the
    day, which [_ord2ymd] computes for every integer, and the time of
    the day.  It fails, with [EOVERFLOW], when the year counted from
    1900 does not fit [tm_year], an [int]. *)
Definition gmtime_r (timet : Z) : option tm :=
  let days := timet / 86400 in
  let rem := timet mod 86400 in
  let '(y, m, d) := _ord2ymd (_EPOCH_ORD + days) in
  if (INT_MIN <=? y - 1900) && (y - 1900 <=? INT_MAX) then
    Some {| tm_sec := rem mod 60;
            tm_min := (rem mod 3600) / 60;
            tm_hour := rem / 3600;
            tm_mday := d;
            tm_mon := m - 1;
            tm_year := y - 1900;
            tm_wday := (4 + days) mod 7;
            tm_yday := _days_before_month y m + d - 1 |}
  else None.

(** [_PyTime_gmtime]: [OSError] from [errno], here [EOVERFLOW]. *)
Definition _PyTime_gmtime (timet : Z) : result tm :=
  match gmtime_r timet with
  | Some tm => Ok tm
  | None => Raise (OSError 75 "Value too large for defined data type")
  end.

Definition check_date_args (year month day : Z) : result unit :=
  if (year <? MINYEAR) || (MAXYEAR <? year) then
    Raise (ValueError ("year " ++ decimal year ++ " is out of range"))
  else if (month <? 1) || (12 <? month) then
    Raise (ValueError "month must be in 1..12")
  else if (day <? 1) || (_days_in_month year month <? day) then
    Raise (ValueError "day is out of range for month")
  else Ok tt.

Definition check_time_args (hour minute second microsecond : Z)
  : result unit :=
  if (hour <? 0) || (23 <? hour) then
    Raise (ValueError "hour must be in 0..23")
  else if (minute <? 0) || (59 <? minute) then
    Raise (ValueError "minute must be in 0..59")
  else if (second <? 0) || (59 <? second) then
    Raise (ValueError "second must be in 0..59")
  else if (microsecond <? 0) || (999999 <? microsecond) then
    Raise (ValueError "microsecond must be in 0..999999")
  else Ok tt.

(** [new_datetime], on C integers. *)
Definition new_datetime (year month day hour minute second microsecond : Z)
           (tz : option Z) : result datetime :=
  (_ <- check_date_args year month day ;;
   _ <- check_time_args hour minute second microsecond ;;
   Ok {| year := year; month := month; day := day;
         hour := hour; minute := minute; second := second;
         microsecond := microsecond; utcoffset := tz |})%py.

(** [self + delta], as [timezone.fromutc] computes it. *)
Definition add (self : datetime) (delta : Z) : result datetime :=
  match of_microseconds (microseconds_of self + delta) (utcoffset self) with
  | Some dt => Ok dt
  | None => Raise (OverflowError "date value out of range")
  end.

(** [datetime_from_timet_and_us] with [_PyTime_gmtime] and no
    microsecond, followed, in a zone, by [tz.fromutc]: the year is the
    [int] [tm_year + 1900]. *)
Definition datetime_from_timet (timet : Z) (tz : option Z)
  : result datetime :=
  (tm <- _PyTime_gmtime timet ;;
   self <- new_datetime (c_int (tm_year tm + 1900)) (tm_mon tm + 1)
                        (tm_mday tm) (tm_hour tm) (tm_min tm)
                        (Z.min 59 (tm_sec tm)) 0 tz ;;
   match tz with
   | Some offset => add self offset
   | None => Ok self
   end)%py.

(** [datetime.fromtimestamp(secs, tz)] for an [int] and a fixed-offset
    zone ([None]: [utcfromtimestamp]). *)
Definition fromtimestamp (secs : Z) (tz : option Z) : result datetime :=
  (timet <- _PyLong_AsTime_t secs ;;
   datetime_from_timet timet tz)%py.

(** [time.gmtime(secs)] for an [int]; the year is computed in a
    [long]. *)
Definition gmtime (secs : Z) : result (list Z) :=
  (timet <- _PyLong_AsTime_t secs ;;
   tm <- _PyTime_gmtime timet ;;
   Ok [tm_year tm + 1900; tm_mon tm + 1; tm_mday tm;
       tm_hour tm; tm_min tm; tm_sec tm;
       (tm_wday tm + 6) mod 7; tm_yday tm + 1; 0])%py.

(** The [i] format of [PyArg_ParseTuple]: an [int], read through a
    [long]. *)
Definition as_int (n : Z) : result Z :=
  if (n <? LONG_MIN) || (LONG_MAX <? n) then
    Raise (OverflowError "Python int too large to convert to C long")
  else if INT_MAX <? n then
    Raise (OverflowError "signed integer is greater than maximum")
  else if n <? INT_MIN then
    Raise (OverflowError "signed integer is less than minimum")
  else Ok n.

(** [datetime.date(year, month, day).toordinal()] *)
Definition date_toordinal (year month day : Z) : result Z :=
  (year <- as_int year ;;
   month <- as_int month ;;
   day <- as_int day ;;
   _ <- check_date_args year month day ;;
   Ok (_ymd2ord year month day))%py.

(** [calendar.timegm(tuple)]: the first six items are unpacked. *)
Definition timegm (tuple : list Z) : result Z :=
  match firstn 6 tuple with
  | [year; month; day; hour; minute; second] =>
    (ordinal <- date_toordinal year month 1 ;;
     let days := ordinal - _EPOCH_ORD + day - 1 in
     let hours := days * 24 + hour in
     let minutes := hours * 60 + minute in
     Ok (minutes * 60 + second))%py
  | items =>
    Raise (ValueError ("not enough values to unpack (expected 6, got "
                       ++ decimal (Z.of_nat (List.length items)) ++ ")"))
  end.

End Datetime.

(** ** Floats, and their conversion to [time_t]

    A Python [float] is an IEEE 754 double, [spec_float] of the Standard
    Library with 53 bits of precision.  [datetime.fromtimestamp] turns
    one into seconds and microseconds with
    [_PyTime_DoubleToDenominator] of [pytime.c], rounding half to even.
    The integral parts, which are whole numbers, are kept as integers;
    the one product of two doubles is rounded as doubles are. *)

Module Pytime.

Local Open Scope Z_scope.

(** A [float] is an IEEE 754 double. *)
Definition float : Type := spec_float.

Definition prec : Z := 53.
Definition emax : Z := 1024.

Definition signed (negative : bool) (n : Z) : Z := if negative then - n else n.

(** [modf(d, &intpart)] on a finite double: the integral part, as the
    integer it is, and the fractional part, both with the sign of [d]. *)
Definition modf (s : bool) (m : positive) (e : Z) : Z * float :=
  if 0 <=? e then (signed s (Z.shiftl (Zpos m) e), S754_zero s)
  else
    let q := Z.shiftr (Zpos m) (- e) in
    match Zpos m - Z.shiftl q (- e) with
    | Zpos r => (signed s q, S754_finite s r e)
    | _ => (signed s q, S754_zero s)
    end.

(** [_PyTime_RoundHalfEven]: the nearest integer, the even one of two. *)
Definition _PyTime_RoundHalfEven (x : float) : Z :=
  match x with
  | S754_finite s m e =>
    if 0 <=? e then signed s (Z.shiftl (Zpos m) e)
    else
      let q := Z.shiftr (Zpos m) (- e) in
      let twice := 2 * (Zpos m - Z.shiftl q (- e)) in
      let unit := Z.shiftl 1 (- e) in
      signed s (if twice <? unit then q
                else if unit <? twice then q + 1
                else if Z.even q then q else q + 1)
  | _ => 0
  end.

(** [(time_t)intpart] after the range test of CPython 3.11, which lets
    2^63 through: the conversion of x86-64 then gives [LONG_MIN]. *)
Definition as_time_t (intpart : Z) : result Z :=
  if (Datetime.LONG_MIN <=? intpart) && (intpart <=? Datetime.LONG_MAX + 1)
  then Ok (if intpart =? Datetime.LONG_MAX + 1 then Datetime.LONG_MIN
           else intpart)
  else Raise (OverflowError "timestamp out of range for platform time_t").

(** [_PyTime_DoubleToDenominator(d, &sec, &numerator, 1000000,
    _PyTime_ROUND_HALF_EVEN)] *)
Definition _PyTime_DoubleToDenominator (d : float) : result (Z * Z) :=
  match d with
  | S754_nan => Raise (ValueError "Invalid value NaN (not a number)")
  | S754_infinity _ =>
    Raise (OverflowError "timestamp out of range for platform time_t")
  | S754_zero _ => Ok (0, 0)
  | S754_finite s m e =>
    let (intpart, floatpart) := modf s m e in
    let floatpart :=
      _PyTime_RoundHalfEven
        (SFmul prec emax floatpart (S754_finite false 15625 6)) in
    let (intpart, floatpart) :=
      if 1000000 <=? floatpart then (intpart + 1, floatpart - 1000000)
      else if floatpart <? 0 then (intpart - 1, floatpart + 1000000)
      else (intpart, floatpart) in
    (sec <- as_time_t intpart ;; Ok (sec, floatpart))%py
  end.

(** [_PyTime_ObjectToTimeval] of a float, the seconds. *)
Definition seconds (d : float) : result Z :=
  (timeval <- _PyTime_DoubleToDenominator d ;; Ok (fst timeval))%py.

End Pytime.

(** ** [hakoniwa.httputils] *)

Module Httputils.

Local Open Scope Z_scope.

Definition digit (n : Z) : string :=
  String (ascii_of_N (48 + Z.to_N (n mod 10))) EmptyString.

(** ["%02d"] and ["%04d"] on the values a date holds. *)
Definition pad2 (n : Z) : string := digit (n / 10) ++ digit n.
Definition pad4 (n : Z) : string :=
  digit (n / 1000) ++ digit (n / 100) ++ digit (n / 10) ++ digit n.

Definition day_names : list string :=
  ["Mon"; "Tue"; "Wed"; "Thu"; "Fri"; "Sat"; "Sun"]%string.

Definition month_names : list string :=
  ["Jan"; "Feb"; "Mar"; "Apr"; "May"; "Jun";
   "Jul"; "Aug"; "Sep"; "Oct"; "Nov"; "Dec"]%string.

(** [_format_timetuple_and_zone]:
    ['%s, %02d %s %04d %02d:%02d:%02d %s']. *)
Definition _format_timetuple_and_zone (dt : Datetime.datetime)
           (zone : string) : string :=
  (nth (Z.to_nat (Datetime.weekday dt)) day_names "" ++ ", "
   ++ pad2 (Datetime.day dt) ++ " "
   ++ nth (Z.to_nat (Datetime.month dt - 1)) month_names "" ++ " "
   ++ pad4 (Datetime.year dt) ++ " "
   ++ pad2 (Datetime.hour dt) ++ ":" ++ pad2 (Datetime.minute dt) ++ ":"
   ++ pad2 (Datetime.second dt) ++ " " ++ zone)%string.

Section WithFloat.

(** The functions take the type of floats and the conversion of a
    float to the whole seconds of a [time_t] as parameters; with
    [Pytime.float] and [Pytime.seconds] they are those of CPython.  The
    microseconds of a float are not printed, and are left out. *)
Variable float : Type.
Variable float_seconds : float -> result Z.

Inductive number : Type :=
| Int (n : Z)
| Float (x : float).

(** The arguments [format_timestamp] tells apart: [None], a number, a
    tuple or [struct_time], a [datetime], and any other object, given by
    its [str()]. *)
Inductive object : Type :=
| PyNone
| PyNumber (n : number)
| PyTuple (items : list Z)
| PyDatetime (dt : Datetime.datetime)
| PyOther (str : string).

(** [_PyTime_ObjectToTimeval], the seconds. *)
Definition _PyTime_ObjectToTimeval (obj : number) : result Z :=
  match obj with
  | Int n => Datetime._PyLong_AsTime_t n
  | Float x => float_seconds x
  end.

(** [email.utils.formatdate(timeval, usegmt=True)] *)
Definition formatdate (timeval : number) : result string :=
  (timet <- _PyTime_ObjectToTimeval timeval ;;
   dt <- Datetime.datetime_from_timet timet (Some 0) ;;
   Ok (_format_timetuple_and_zone dt "GMT"))%py.

(** [format_timestamp(ts)]; [now] is what [time.time()] returns. *)
Definition format_timestamp (now : float) (ts : object) : result string :=
  let ts :=
    match ts with
    | PyNone => PyNumber (Float now)
    | _ => ts
    end in
  (ts <- match ts with
         | PyNumber n => Ok n
         | PyTuple items =>
           secs <- Datetime.timegm items ;; Ok (Int secs)
         | PyDatetime dt =>
           tuple <- Datetime.utctimetuple dt ;;
           secs <- Datetime.timegm tuple ;; Ok (Int secs)
         | PyNone => Raise (TypeError "unknown timestamp type: None")
         | PyOther s =>
           Raise (TypeError ("unknown timestamp type: " ++ s)%string)
         end ;;
   formatdate ts)%py.

End WithFloat.

Arguments PyNone {float}.
Arguments PyTuple {float} items.
Arguments PyDatetime {float} dt.
Arguments PyOther {float} str.
Arguments Int {float} n.

End Httputils.

(** ** Schedules

    [write_response], [write] and [finish] contain no [await]: under
    asyncio's cooperative scheduling each call runs to completion before
    another task continues.  Whatever the tasks and their interleaving, the
    calls that reach one request form a sequence, and every sequence is
    possible. *)

Module Schedule.

Section WithConstants.

Context {C : Constants}.

Inductive operation : Type :=
| WriteResponse (status_code : HttpStatusCode)
                (headers : option (Dict.t string))
| Write (response : LambdaRequest.address) (data : bytes)
| Finish (response : LambdaRequest.address).

(** Runs the calls in order; returns what each [write_response] call
    returned or raised, in call order, and the final store. *)
Fixpoint run (schedule : list operation) (w : LambdaRequest.world)
  : list (result LambdaRequest.address) * LambdaRequest.world :=
  match schedule with
  | [] => ([], w)
  | WriteResponse status_code headers :: rest =>
    let (r, w1) := LambdaRequest.write_response status_code headers w in
    let (results, w2) := run rest w1 in
    (r :: results, w2)
  | Write a data :: rest =>
    run rest (snd (LambdaRequest.call a (LambdaResponse.write data) w))
  | Finish a :: rest =>
    run rest (snd (LambdaRequest.call a LambdaResponse.finish w))
  end.

(** The arguments of the first [write_response] call of a schedule. *)
Fixpoint first_call (schedule : list operation)
  : option (HttpStatusCode * option (Dict.t string)) :=
  match schedule with
  | [] => None
  | WriteResponse status_code headers :: _ => Some (status_code, headers)
  | _ :: rest => first_call rest
  end.

Definition fresh (request : LambdaRequest.t) : LambdaRequest.world :=
  {| LambdaRequest.request := request; LambdaRequest.responses := [] |}.

End WithConstants.

End Schedule.

(** Fragments written one after the other to a response. *)
Fixpoint write_all (fragments : list bytes) (self : LambdaResponse.t)
  : LambdaResponse.t :=
  match fragments with
  | [] => self
  | data :: rest => write_all rest (snd (LambdaResponse.write data self))
  end.

(** ** Vocabulary for the statements *)

(** The distinct names of a list, in the order of their first occurrence. *)
Fixpoint first_seen (names : list string) : list string :=
  match names with
  | [] => []
  | n :: rest =>
    n :: filter (fun m => negb (String.eqb m n)) (first_seen rest)
  end.

(** The values paired with [name], in list order. *)
Definition values_of (name : string) (pairs : list (string * string))
  : list string :=
  map snd (filter (fun kv => String.eqb (fst kv) name) pairs).

(** Grouping by name: one entry per distinct name, names in first-seen
    order, each with its values in their order. *)
Definition grouped (pairs : list (string * string)) : Dict.t (list string) :=
  map (fun n => (n, values_of n pairs)) (first_seen (map fst pairs)).

Definition not_content_length (kv : string * string) : bool :=
  negb (String.eqb (fst kv) "content-length").

(** The entries of a name -> values map whose name equals [name] up to
    case, values concatenated in map order. *)
Definition values_ignoring_case (m : Dict.t (list string)) (name : string)
  : list string :=
  List.concat
    (map snd
         (filter (fun entry => String.eqb (Text.lower (fst entry))
                                          (Text.lower name)) m)).

(** The event with another [httpMethod]. *)
Definition with_httpMethod (event : LambdaEvent.t) (m : string)
  : LambdaEvent.t :=
  {| LambdaEvent.isBase64Encoded := LambdaEvent.isBase64Encoded event;
     LambdaEvent.body := LambdaEvent.body event;
     LambdaEvent.httpMethod := Some m;
     LambdaEvent.requestContext := LambdaEvent.requestContext event;
     LambdaEvent.path := LambdaEvent.path event;
     LambdaEvent.multiValueQueryStringParameters :=
       LambdaEvent.multiValueQueryStringParameters event;
     LambdaEvent.multiValueHeaders := LambdaEvent.multiValueHeaders event |}.

(** [l] without the name [n]. *)
Definition without (n : string) (l : list string) : list string :=
  filter (fun m => negb (String.eqb m n)) l.

(** The dict that gives every name of [names] the value [g] gives it. *)
Definition keyed {V : Type} (g : string -> V) (names : list string)
  : Dict.t V :=
  map (fun k => (k, g k)) names.

(** The three facts checked for every index of the base64 alphabet. *)
Definition table_ok (i : N) : bool :=
  (negb (Byte.eqb (Base64.table_b2a_base64 i) Base64.BASE64_PAD)
   && (Base64.table_a2b_base64 (Base64.table_b2a_base64 i) =? i)
   && (Byte.to_N (Base64.table_b2a_base64 i) <? 0x80))%N.

(** What [translate] returns once the response is finished. *)
Definition output_of (self : LambdaResponse.t) : LambdaOutput.t :=
  let body_bytes := List.concat (LambdaResponse._body_chunks self) in
  {| LambdaOutput.isBase64Encoded :=
       match Utf8.decode body_bytes with
       | Some _ => false
       | None => true
       end;
     LambdaOutput.statusCode := LambdaResponse._status_code self;
     LambdaOutput.multiValueHeaders :=
       grouped (filter not_content_length
                       (Magicdict.items (LambdaResponse._headers self)));
     LambdaOutput.body :=
       match Utf8.decode body_bytes with
       | Some text => text
       | None => map Byte.to_N (Base64.b64encode body_bytes)
       end |}.

(** What a second [write_response] raises. *)
Definition write_once_error : exception :=
  HttpError 500 (Some "You can only write response once.").

(** The response stored at [a] was begun with this status code and these
    headers. *)
Definition begun_with `{Constants} (w : LambdaRequest.world)
           (a : LambdaRequest.address) (status_code : HttpStatusCode)
           (headers : option (Dict.t string)) : Prop :=
  exists response,
    nth_error (LambdaRequest.responses w) a = Some response
    /\ LambdaResponse._status_code response = status_code
    /\ LambdaResponse._headers response
       = Magicdict.construct
           (Dict.items match headers with
                       | Some h => h
                       | None => Dict.empty
                       end).

(** The outcome of a schedule on a fresh request: without a
    [write_response] call the future stays pending; otherwise the first
    call returned a response, the future holds that very response, which
    still has the status code and headers of the first call, and every
    later call raised. *)
Definition exactly_once `{Constants} (schedule : list Schedule.operation)
           (results : list (result LambdaRequest.address))
           (w : LambdaRequest.world) : Prop :=
  match Schedule.first_call schedule, results with
  | None, [] =>
    LambdaRequest._res_fur (LambdaRequest.request w) = Asyncio.Pending
  | Some (status_code, headers), first :: later =>
    exists a,
      first = Ok a
      /\ LambdaRequest._res_fur (LambdaRequest.request w) = Asyncio.Done a
      /\ begun_with w a status_code headers
      /\ Forall (fun r => r = Raise write_once_error) later
  | _, _ => False
  end.

(** What is checked for every entry of [Text.upper_mapping]: no code point
    of the mapping is mapped any further. *)
Definition mapping_is_final (entry : N * list N) : bool :=
  forallb (fun c => match Text._PyUnicode_ToUpperFull c with
                    | [c'] => N.eqb c' c
                    | _ => false
                    end) (snd entry).

(** The tail of [_ord2ymd]: month and day of the [n]-th day (from 0) of a
    year. *)
Definition month_day (leapyear : bool) (n : Z) : Z * Z :=
  (let month := (n + 50) / 32 in
   let preceding :=
     Datetime.item Datetime._DAYS_BEFORE_MONTH month
     + (if (2 <? month) && leapyear then 1 else 0) in
   if n <? preceding then
     let month := month - 1 in
     let preceding :=
       preceding
       - (Datetime.item Datetime._DAYS_IN_MONTH month
          + (if (month =? 2) && leapyear then 1 else 0)) in
     (month, n - preceding + 1)
   else (month, n - preceding + 1))%Z.

(** What is checked for every day of a year: the month and the day are in
    range and count back to the day of the year. *)
Definition month_day_ok (leapyear : bool) (n : Z) : bool :=
  (let (m, d) := month_day leapyear n in
   (1 <=? m) && (m <=? 12) && (1 <=? d) && (d <=? 31)
   && (Datetime.item Datetime._DAYS_BEFORE_MONTH m
       + (if (2 <? m) && leapyear then 1 else 0) + d =? n + 1))%Z.

(** The epoch seconds [datetime] can hold: years 1 to 9999. *)
Definition representable (secs : Z) : bool :=
  ((-62135596800 <=? secs) && (secs <=? 253402300799))%Z.

(** The epoch seconds the C library breaks down: years whose count from
    1900 fits an [int], -2147481748 to 2147485547. *)
Definition in_tm_range (secs : Z) : bool :=
  ((-67768040609740800 <=? secs) && (secs <=? 67768036191676799))%Z.

(** The epoch seconds [time_t] holds. *)
Definition in_time_t_range (secs : Z) : bool :=
  ((-9223372036854775808 <=? secs) && (secs <=? 9223372036854775807))%Z.

(** The year of the proleptic Gregorian calendar an epoch second falls
    in. *)
Definition year_of (secs : Z) : Z :=
  fst (fst (Datetime._ord2ymd (Datetime._EPOCH_ORD + secs / 86400)%Z)).

(** The integral part of a float that is a number. *)
Definition whole_part (d : Pytime.float) : option Z :=
  match d with
  | S754_zero _ => Some 0%Z
  | S754_finite s m e => Some (fst (Pytime.modf s m e))
  | _ => None
  end.

(** [text] ends with [suffix]. *)
Definition ends_with (suffix text : string) : Prop :=
  exists prefix, text = (prefix ++ suffix)%string.

(** The nine fields [utctimetuple] and [time.gmtime] report for a
    datetime. *)
Definition struct_time_of (dt : Datetime.datetime) : list Z :=
  Datetime._build_struct_time
    (Datetime.year dt) (Datetime.month dt) (Datetime.day dt)
    (Datetime.hour dt) (Datetime.minute dt) (Datetime.second dt).

(** For examples: floats that hold a whole number of seconds. *)
Definition whole_seconds (x : Z) : result Z := Ok x.

(** A small instance of the enums, for examples. *)
Inductive sample_method : Type := GET | POST.
Inductive sample_version : Type := V1_1.
Inductive sample_scheme : Type := HTTP | HTTPS.

Definition sample_constants : Constants :=
  {| HttpRequestMethod := sample_method;
     HttpRequestMethod_by_value := fun s =>
       if String.eqb s "GET" then Some GET
       else if String.eqb s "POST" then Some POST else None;
     HttpVersion := sample_version;
     HttpVersion_by_value := fun s =>
       if String.eqb s "HTTP/1.1" then Some V1_1 else None;
     HttpScheme := sample_scheme;
     HttpScheme_by_value := fun s =>
       if String.eqb s "http" then Some HTTP
       else if String.eqb s "https" then Some HTTPS else None |}.

(** The example event of the spec, with a choice of method spelling,
    flag and body. *)
Definition sample_event (m : string) (flag : bool) (b : option (option str))
  : LambdaEvent.t :=
  {| LambdaEvent.isBase64Encoded := Some flag;
     LambdaEvent.body := b;
     LambdaEvent.httpMethod := Some m;
     LambdaEvent.requestContext :=
       Some {| LambdaEvent.protocol := Some "HTTP/1.1";
               LambdaEvent.domainName := None |};
     LambdaEvent.path := Some "/hello";
     LambdaEvent.multiValueQueryStringParameters := Some (Some []);
     LambdaEvent.multiValueHeaders := Some [] |}.

(** ** Histories of one response *)

(** The calls a handler makes on a response it holds. *)
Inductive response_call : Type :=
| CallWrite (data : bytes)
| CallFinish.

Fixpoint run_calls (calls : list response_call) (self : LambdaResponse.t)
  : LambdaResponse.t :=
  match calls with
  | [] => self
  | CallWrite data :: rest =>
    run_calls rest (snd (LambdaResponse.write data self))
  | CallFinish :: rest => run_calls rest (snd (LambdaResponse.finish self))
  end.

(** The fragments handed to [write], in call order. *)
Fixpoint written (calls : list response_call) : list bytes :=
  match calls with
  | [] => []
  | CallWrite data :: rest => data :: written rest
  | CallFinish :: rest => written rest
  end.

(** Whether [finish] is among the calls. *)
Fixpoint has_finish (calls : list response_call) : bool :=
  match calls with
  | [] => false
  | CallWrite _ :: rest => has_finish rest
  | CallFinish :: _ => true
  end.

(** The last two lines of [process_lambda_request]: wait for the final
    response, then translate it. *)
Definition final_envelope `{Constants} (w : LambdaRequest.world)
  : LambdaRequest.awaited (result LambdaOutput.t) :=
  match LambdaRequest._get_final_response w with
  | LambdaRequest.Suspended => LambdaRequest.Suspended
  | LambdaRequest.Ready a =>
    match nth_error (LambdaRequest.responses w) a with
    | Some response => LambdaRequest.Ready (LambdaResponse.translate response)
    | None => LambdaRequest.Suspended
    end
  end.

(** The pairs listed by a name -> values map, entry by entry. *)
Definition pairs_of (d : Dict.t (list string)) : list (string * string) :=
  flat_map (fun entry => map (pair (fst entry)) (snd entry)) d.

(** ** [hakoniwa.utils]: [lazy_property] *)

Module Utils.

Section LazyProperty.

(** What the instance holds besides its [__dict__] entries, and the type
    of the property's value. *)
Variable Fields : Type.
Variable T : Type.

Record instance : Type :=
  { fields : Fields;
    __dict__ : Dict.t T }.

(** [_LazyPropertyWrapper]: the wrapped function and its [__name__]. *)
Record _LazyPropertyWrapper : Type :=
  { func : instance -> T;
    __name__ : string }.

Definition lazy_property (func : instance -> T) (name : string)
  : _LazyPropertyWrapper :=
  {| func := func; __name__ := name |}.

(** [__get__(self, obj)]: on the class ([obj is None]) the wrapper itself;
    on an instance the value, which is also stored in the instance's
    [__dict__] under the function's name. *)
Definition __get__ (self : _LazyPropertyWrapper) (obj : option instance)
  : _LazyPropertyWrapper + T * instance :=
  match obj with
  | None => inl self
  | Some o =>
    let val := func self o in
    inr (val, {| fields := fields o;
                 __dict__ := Dict.set (__dict__ o) (__name__ self) val |})
  end.

(** [obj.attr] where the class binds [attr] to the wrapper.  The wrapper
    has no [__set__], so Python looks into the instance's [__dict__]
    first and calls [__get__] only when the name is not there. *)
Definition getattr (attr : string) (w : _LazyPropertyWrapper) (o : instance)
  : T * instance :=
  match Dict.get (__dict__ o) attr with
  | Some val => (val, o)
  | None =>
    match __get__ w (Some o) with
    | inr r => r
    | inl _ => (func w o, o)
    end
  end.

End LazyProperty.

End Utils.

(** ** Further vocabulary *)

(** Whether the response stored at [a] is finished. *)
Definition finished_at `{Constants} (w : LambdaRequest.world)
           (a : LambdaRequest.address) : bool :=
  match nth_error (LambdaRequest.responses w) a with
  | Some r => LambdaResponse.finished r
  | None => false
  end.

(** Whether the call is [finish] on the response at [a]. *)
Definition is_finish `{Constants} (a : LambdaRequest.address)
           (op : Schedule.operation) : bool :=
  match op with
  | Schedule.Finish a' => Nat.eqb a' a
  | _ => false
  end.

(** What is checked for every day of a year: the day [_ord2ymd] reports
    exists in the month it reports. *)
Definition month_day_in_month (leapyear : bool) (n : Z) : bool :=
  (let (m, d) := month_day leapyear n in
   d <=? (if (m =? 2) && leapyear then 29
          else Datetime.item Datetime._DAYS_IN_MONTH m))%Z.

(** A time of day. *)
Definition valid_time (hh mm ss : Z) : Prop :=
  (0 <= hh < 24 /\ 0 <= mm < 60 /\ 0 <= ss < 60)%Z.

(** ** Further examples *)

(** What the example event of the spec constructs, with a null body. *)
Definition sample_request : LambdaRequest.t (C := sample_constants) :=
  @LambdaRequest.Build_t
    sample_constants (sample_event "GET" false (Some None)) []
    GET V1_1 "/hello" None (Magicdict.construct []) (Magicdict.construct [])
    None Asyncio.Pending.

(** An event behind a proxy: no path, a query parameter, a domain name
    and a forwarded scheme. *)
Definition sample_forwarded_event : LambdaEvent.t :=
  {| LambdaEvent.isBase64Encoded := Some false;
     LambdaEvent.body := Some (Some [104; 105]%N);
     LambdaEvent.httpMethod := Some "post";
     LambdaEvent.requestContext :=
       Some {| LambdaEvent.protocol := Some "HTTP/1.1";
               LambdaEvent.domainName := Some (Some "example.com") |};
     LambdaEvent.path := None;
     LambdaEvent.multiValueQueryStringParameters :=
       Some (Some [("Tag", ["a"; "b"])]);
     LambdaEvent.multiValueHeaders :=
       Some [("X-Forwarded-Proto", ["HTTPS"; "http"])] |}.

(** A finished response with a repeated header and a content-length. *)
Definition sample_response : LambdaResponse.t :=
  {| LambdaResponse._status_code := 200%Z;
     LambdaResponse._headers :=
       Magicdict.construct
         [("Content-Type", "text/plain"); ("Content-Length", "2");
          ("Set-Cookie", "a=1"); ("set-cookie", "b=2")];
     LambdaResponse._body_chunks := [[x68; x69]];
     LambdaResponse._finished := true |}.

Definition sample_output : LambdaOutput.t :=
  {| LambdaOutput.isBase64Encoded := false;
     LambdaOutput.statusCode := 200%Z;
     LambdaOutput.multiValueHeaders :=
       [("content-type", ["text/plain"]); ("set-cookie", ["a=1"; "b=2"])];
     LambdaOutput.body := [104; 105]%N |}.

(** A handler's calls: begin, write "hi", finish. *)
Definition sample_schedule : list Schedule.operation :=
  [Schedule.WriteResponse 200%Z None;
   Schedule.Write 0%nat [x68; x69];
   Schedule.Finish 0%nat].

(** * Properties *)

(** ** Octets and the UTF-8 codec *)

Module Utf8Facts.

Import Utf8.
Local Open Scope N_scope.

Ltac Zify.zify_post_hook ::= Z.to_euclidean_division_equations.

Lemma byte_of_to_N (b : byte) : byte_of_N (Byte.to_N b) = b.
Proof. unfold byte_of_N. now rewrite Byte.of_to_N. Qed.

Lemma byte_of_N_eq (b : byte) (n : N) : n = Byte.to_N b -> byte_of_N n = b.
Proof. intros ->. apply byte_of_to_N. Qed.

Lemma to_N_byte_of_N (n : N) : n < 256 -> Byte.to_N (byte_of_N n) = n.
Proof.
  intros Hn. unfold byte_of_N.
  destruct (Byte.of_N n) eqn:E.
  - now apply Byte.to_of_N.
  - apply Byte.of_N_None_iff in E. lia.
Qed.

Lemma between_spec lo hi b :
  between lo hi b = true <-> lo <= Byte.to_N b <= hi.
Proof.
  unfold between. rewrite andb_true_iff, !N.leb_le. tauto.
Qed.

Ltac decide_tests :=
  repeat match goal with
         | |- context [N.ltb ?a ?b] => destruct (N.ltb_spec a b); try lia
         | |- context [N.leb ?a ?b] => destruct (N.leb_spec a b); try lia
         end; cbn [andb orb negb].

Ltac split_bounds :=
  repeat match goal with
         | H : _ && _ = true |- _ => apply andb_true_iff in H; destruct H
         | H : between _ _ _ = true |- _ => apply between_spec in H
         | H : context [N.eqb ?a ?b] |- _ => destruct (N.eqb_spec a b)
         end.

Ltac same_octets :=
  repeat f_equal; apply byte_of_N_eq; unfold cont in *; lia.

Lemma encode_one (b0 : byte) :
  Byte.to_N b0 < 0x80 -> encode_code_point (Byte.to_N b0) = Some [b0].
Proof.
  intros H. unfold encode_code_point. decide_tests. same_octets.
Qed.

Lemma encode_two (b0 b1 : byte) :
  0xC2 <= Byte.to_N b0 -> Byte.to_N b0 < 0xE0 ->
  between 0x80 0xBF b1 = true ->
  encode_code_point ((Byte.to_N b0 - 0xC0) * 64 + cont b1) = Some [b0; b1].
Proof.
  intros H0 H0' H1. split_bounds.
  unfold encode_code_point, cont. decide_tests. same_octets.
Qed.

Lemma encode_three (b0 b1 b2 : byte) :
  0xE0 <= Byte.to_N b0 -> Byte.to_N b0 < 0xF0 ->
  between (if Byte.to_N b0 =? 0xE0 then 0xA0 else 0x80)
          (if Byte.to_N b0 =? 0xED then 0x9F else 0xBF) b1
  && between 0x80 0xBF b2 = true ->
  encode_code_point
    ((Byte.to_N b0 - 0xE0) * 4096 + cont b1 * 64 + cont b2)
  = Some [b0; b1; b2].
Proof.
  intros H0 H0' H1. split_bounds;
    unfold encode_code_point, cont; decide_tests; same_octets.
Qed.

Lemma encode_four (b0 b1 b2 b3 : byte) :
  0xF0 <= Byte.to_N b0 -> Byte.to_N b0 < 0xF5 ->
  between (if Byte.to_N b0 =? 0xF0 then 0x90 else 0x80)
          (if Byte.to_N b0 =? 0xF4 then 0x8F else 0xBF) b1
  && between 0x80 0xBF b2 && between 0x80 0xBF b3 = true ->
  encode_code_point
    ((Byte.to_N b0 - 0xF0) * 262144 + cont b1 * 4096
     + cont b2 * 64 + cont b3)
  = Some [b0; b1; b2; b3].
Proof.
  intros H0 H0' H1. split_bounds;
    unfold encode_code_point, cont; decide_tests; same_octets.
Qed.

Lemma encode_cons (c : N) (r : str) (a b : bytes) :
  encode_code_point c = Some a -> encode r = Some b ->
  encode (c :: r) = Some (a ++ b).
Proof. intros Ha Hb. cbn [encode]. now rewrite Ha, Hb. Qed.

Ltac peel H :=
  match type of H with
  | option_map _ ?d = Some _ =>
    let E := fresh "E" in
    destruct d eqn:E; [cbn [option_map] in H; injection H as <- | discriminate H]
  end.

(** Whatever the strict decoder accepts, the encoder maps back to the
    very same octets. *)
Lemma decode_encode_bounded (n : nat) :
  forall (data : bytes) (s : str),
    (List.length data <= n)%nat ->
    decode data = Some s -> encode s = Some data.
Proof.
  induction n as [|n IH]; intros data s Hlen H.
  - destruct data; [|cbn in Hlen; lia].
    cbn in H. now injection H as <-.
  - destruct data as [|b0 r0]; [cbn in H; now injection H as <-|].
    cbn [decode] in H. cbn [List.length] in Hlen.
    destruct (N.ltb_spec (Byte.to_N b0) 0x80) as [L1|L1].
    { peel H. apply (@encode_cons _ _ [b0] _).
      - now apply encode_one.
      - apply IH; [lia | assumption]. }
    destruct (N.ltb_spec (Byte.to_N b0) 0xC2) as [L2|L2]; [discriminate|].
    destruct (N.ltb_spec (Byte.to_N b0) 0xE0) as [L3|L3].
    { destruct r0 as [|b1 r1]; [discriminate|].
      destruct (between 0x80 0xBF b1) eqn:B1; [|discriminate].
      peel H. apply (@encode_cons _ _ [b0; b1] _).
      - now apply encode_two.
      - apply IH; [cbn [List.length] in Hlen; lia | assumption]. }
    destruct (N.ltb_spec (Byte.to_N b0) 0xF0) as [L4|L4].
    { destruct r0 as [|b1 [|b2 r2]]; try discriminate.
      match type of H with
      | (if ?c then _ else _) = _ => destruct c eqn:B; [|discriminate]
      end.
      peel H. apply (@encode_cons _ _ [b0; b1; b2] _).
      - now apply encode_three.
      - apply IH; [cbn [List.length] in Hlen; lia | assumption]. }
    destruct (N.ltb_spec (Byte.to_N b0) 0xF5) as [L5|L5]; [|discriminate].
    destruct r0 as [|b1 [|b2 [|b3 r3]]]; try discriminate.
    match type of H with
    | (if ?c then _ else _) = _ => destruct c eqn:B; [|discriminate]
    end.
    peel H. apply (@encode_cons _ _ [b0; b1; b2; b3] _).
    + now apply encode_four.
    + apply IH; [cbn [List.length] in Hlen; lia | assumption].
Qed.

Lemma decode_encode (data : bytes) (s : str) :
  decode data = Some s -> encode s = Some data.
Proof. apply (decode_encode_bounded (n := List.length data)). lia. Qed.

(** ASCII octets decode to themselves. *)
Lemma decode_ascii (data : bytes) :
  Forall (fun b => Byte.to_N b < 0x80) data ->
  decode data = Some (map Byte.to_N data).
Proof.
  induction 1 as [|b r Hb _ IH]; [reflexivity|].
  cbn [decode map].
  destruct (N.ltb_spec (Byte.to_N b) 0x80); [|lia].
  now rewrite IH.
Qed.

End Utf8Facts.

Module Utf8More.

Import Utf8 Utf8Facts.
Local Open Scope N_scope.

(** A code point below 2^(6k) in base 64. *)
Lemma base64_digits (c : N) :
  c = 262144 * (c / 262144) + 4096 * ((c / 4096) mod 64)
      + 64 * ((c / 64) mod 64) + c mod 64
  /\ c / 4096 = 64 * (c / 262144) + (c / 4096) mod 64
  /\ c / 64 = 64 * (c / 4096) + (c / 64) mod 64
  /\ (c / 4096) mod 64 < 64 /\ (c / 64) mod 64 < 64 /\ c mod 64 < 64.
Proof.
  assert (c / 4096 = c / 64 / 64) as E2
      by (rewrite N.Div0.div_div; reflexivity).
  assert (c / 262144 = c / 64 / 64 / 64) as E3
      by (rewrite !N.Div0.div_div; reflexivity).
  rewrite E3, E2.
  pose proof (N.div_mod c 64 ltac:(discriminate)) as D0.
  pose proof (N.mod_lt c 64 ltac:(discriminate)) as B0.
  set (q1 := c / 64) in *. set (r0 := c mod 64) in *.
  pose proof (N.div_mod q1 64 ltac:(discriminate)) as D1.
  pose proof (N.mod_lt q1 64 ltac:(discriminate)) as B1.
  set (q2 := q1 / 64) in *. set (r1 := q1 mod 64) in *.
  pose proof (N.div_mod q2 64 ltac:(discriminate)) as D2.
  pose proof (N.mod_lt q2 64 ltac:(discriminate)) as B2.
  set (q3 := q2 / 64) in *. set (r2 := q2 mod 64) in *.
  clearbody q1 r0 q2 r1 q3 r2. lia.
Qed.

Ltac digits c :=
  let D := fresh "D" in
  let D0 := fresh "D0" in
  pose proof (base64_digits c) as D;
  pose proof (N.div_mod c 64 ltac:(discriminate)) as D0;
  set (a2 := (c / 4096) mod 64) in *;
  set (a1 := (c / 64) mod 64) in *;
  set (a0 := c mod 64) in *;
  set (q3 := c / 262144) in *;
  set (q2 := c / 4096) in *;
  set (q1 := c / 64) in *;
  clearbody a2 a1 a0 q3 q2 q1.

Ltac octets :=
  repeat match goal with
         | |- context [Byte.to_N (byte_of_N ?n)] =>
           rewrite (@to_N_byte_of_N n) by lia
         end.

Ltac tests :=
  repeat match goal with
         | |- context [N.eqb ?a ?b] => destruct (N.eqb_spec a b); try lia
         | |- context [N.ltb ?a ?b] => destruct (N.ltb_spec a b); try lia
         | |- context [N.leb ?a ?b] => destruct (N.leb_spec a b); try lia
         end; cbn [andb orb negb].

Lemma decode_unfold (b0 : byte) (r0 : bytes) :
  decode (b0 :: r0)
  = let n0 := Byte.to_N b0 in
    if n0 <? 0x80 then option_map (cons n0) (decode r0)
    else if n0 <? 0xC2 then None
    else if n0 <? 0xE0 then
      match r0 with
      | b1 :: r1 =>
        if between 0x80 0xBF b1
        then option_map (cons ((n0 - 0xC0) * 64 + cont b1)) (decode r1)
        else None
      | [] => None
      end
    else if n0 <? 0xF0 then
      match r0 with
      | b1 :: b2 :: r2 =>
        if between (if n0 =? 0xE0 then 0xA0 else 0x80)
                   (if n0 =? 0xED then 0x9F else 0xBF) b1
           && between 0x80 0xBF b2
        then option_map
               (cons ((n0 - 0xE0) * 4096 + cont b1 * 64 + cont b2))
               (decode r2)
        else None
      | _ => None
      end
    else if n0 <? 0xF5 then
      match r0 with
      | b1 :: b2 :: b3 :: r3 =>
        if between (if n0 =? 0xF0 then 0x90 else 0x80)
                   (if n0 =? 0xF4 then 0x8F else 0xBF) b1
           && between 0x80 0xBF b2 && between 0x80 0xBF b3
        then option_map
               (cons ((n0 - 0xF0) * 262144 + cont b1 * 4096
                      + cont b2 * 64 + cont b3))
               (decode r3)
        else None
      | _ => None
      end
    else None.
Proof. reflexivity. Qed.

Ltac open_decode :=
  cbv [app]; rewrite decode_unfold; cbv beta iota zeta;
  unfold between, cont; octets.

(** Decoding the octets of one code point gives the code point back and
    goes on with the rest. *)
Lemma decode_code_point (c : N) (a rest : bytes) :
  encode_code_point c = Some a ->
  decode (a ++ rest) = option_map (cons c) (decode rest).
Proof.
  unfold encode_code_point.
  destruct (N.ltb_spec c 0x80) as [H1|H1].
  { intros H.
    assert (a = [byte_of_N c]) as -> by congruence. clear H.
    open_decode. tests. reflexivity. }
  destruct (N.ltb_spec c 0x800) as [H2|H2].
  { intros H.
    assert (a = [byte_of_N (0xC0 + c / 64); byte_of_N (0x80 + c mod 64)])
      as -> by congruence.
    clear H. digits c. open_decode. tests. do 2 f_equal. lia. }
  destruct (N.ltb_spec c 0x10000) as [H3|H3].
  { destruct ((0xD800 <=? c) && (c <=? 0xDFFF)) eqn:Hs; [discriminate|].
    apply andb_false_iff in Hs.
    assert (c < 0xD800 \/ 0xDFFF < c) as Hsur
        by (destruct Hs as [Hs|Hs]; apply N.leb_gt in Hs; lia).
    clear Hs. intros H.
    assert (a = [byte_of_N (0xE0 + c / 4096);
                 byte_of_N (0x80 + (c / 64) mod 64);
                 byte_of_N (0x80 + c mod 64)]) as -> by congruence.
    clear H. digits c. open_decode. tests; do 2 f_equal; lia. }
  destruct (N.ltb_spec c 0x110000) as [H4|H4]; [|discriminate].
  intros H.
  assert (a = [byte_of_N (0xF0 + c / 262144);
               byte_of_N (0x80 + (c / 4096) mod 64);
               byte_of_N (0x80 + (c / 64) mod 64);
               byte_of_N (0x80 + c mod 64)]) as -> by congruence.
  clear H. digits c. open_decode. tests; do 2 f_equal; lia.
Qed.

Lemma encode_decode (s : str) (data : bytes) :
  encode s = Some data -> decode data = Some s.
Proof.
  revert data. induction s as [|c r IH]; intros data H.
  - cbn in H. now injection H as <-.
  - cbn [encode] in H.
    destruct (encode_code_point c) as [a|] eqn:Ec; [|discriminate].
    destruct (encode r) as [b|] eqn:Er; [|discriminate].
    injection H as <-. rewrite (@decode_code_point c a b Ec).
    now rewrite (IH b eq_refl).
Qed.

End Utf8More.

(** ** Base64 *)

Module Base64Facts.

Import Base64 Utf8 Utf8Facts.
Local Open Scope N_scope.

Lemma table_checked :
  forallb table_ok (map N.of_nat (seq 0 64)) = true.
Proof. vm_compute. reflexivity. Qed.

Lemma table_spec (i : N) :
  i < 64 ->
  Byte.eqb (table_b2a_base64 i) BASE64_PAD = false
  /\ table_a2b_base64 (table_b2a_base64 i) = i
  /\ Byte.to_N (table_b2a_base64 i) < 0x80.
Proof.
  intros Hi.
  assert (In i (map N.of_nat (seq 0 64))) as Hin.
  { rewrite <- (N2Nat.id i). apply in_map. apply in_seq. lia. }
  pose proof (proj1 (forallb_forall _ _) table_checked i Hin) as H.
  unfold table_ok in H.
  apply andb_true_iff in H as [H H3]. apply andb_true_iff in H as [H1 H2].
  apply negb_true_iff in H1. apply N.eqb_eq in H2. apply N.ltb_lt in H3.
  auto.
Qed.

Lemma table_ascii (i : N) : Byte.to_N (table_b2a_base64 i) < 0x80.
Proof.
  destruct (N.lt_ge_cases i 64) as [H|H].
  - now apply table_spec.
  - unfold table_b2a_base64. rewrite nth_overflow; [cbn; lia|].
    cbn. lia.
Qed.

(** The output of [b64encode] is ASCII text. *)
Lemma b64encode_ascii_bounded (n : nat) :
  forall s : bytes,
    (List.length s <= n)%nat ->
    Forall (fun b => Byte.to_N b < 0x80) (b64encode s).
Proof.
  assert (Byte.to_N BASE64_PAD < 0x80) as Hpad by (cbn; lia).
  induction n as [|n IH]; intros s Hlen.
  - destruct s; [constructor | cbn in Hlen; lia].
  - destruct s as [|a [|b [|c r]]]; cbn [b64encode];
      repeat (constructor; [apply table_ascii || exact Hpad|]);
      try constructor.
    apply IH. cbn [List.length] in Hlen. lia.
Qed.

Lemma b64encode_ascii (s : bytes) :
  Forall (fun b => Byte.to_N b < 0x80) (b64encode s).
Proof. apply (b64encode_ascii_bounded (n := List.length s)). lia. Qed.

(** One turn of the decoding loop on a character of the alphabet. *)
Lemma a2b_loop_data (i : N) (rest : bytes) (quad_pos leftchar pads : N)
      (out : bytes) :
  i < 64 ->
  a2b_loop (table_b2a_base64 i :: rest) quad_pos leftchar pads out
  = if quad_pos =? 0 then a2b_loop rest 1 i 0 out
    else if quad_pos =? 1 then
      a2b_loop rest 2 (i mod 16) 0
               (out ++ [byte_of_N (leftchar * 4 + i / 16)])
    else if quad_pos =? 2 then
      a2b_loop rest 3 (i mod 4) 0
               (out ++ [byte_of_N (leftchar * 16 + i / 4)])
    else a2b_loop rest 0 0 0 (out ++ [byte_of_N (leftchar * 64 + i)]).
Proof.
  intros Hi. destruct (table_spec Hi) as (Hpad & Hrev & _).
  cbn [a2b_loop]. rewrite Hpad, Hrev.
  destruct (N.leb_spec 64 i); [lia | reflexivity].
Qed.

Ltac data_turn :=
  rewrite a2b_loop_data by (pose proof Byte.to_N_bounded; lia);
  cbn [N.eqb Pos.eqb].

Ltac octet b :=
  match goal with
  | |- context [byte_of_N ?e] =>
    replace (byte_of_N e) with b
      by (symmetry; apply byte_of_N_eq;
          pose proof (Byte.to_N_bounded b); lia)
  end.

(** Decoding what [b64encode] produced appends the encoded octets to
    the output. *)
Lemma a2b_loop_b64encode_bounded (n : nat) :
  forall (s out : bytes),
    (List.length s <= n)%nat ->
    a2b_loop (b64encode s) 0 0 0 out = Ok (out ++ s).
Proof.
  induction n as [|n IH]; intros s out Hlen.
  - destruct s; [|cbn in Hlen; lia]. cbn. now rewrite app_nil_r.
  - destruct s as [|a [|b [|c r]]].
    + cbn. now rewrite app_nil_r.
    + pose proof (Byte.to_N_bounded a).
      cbn [b64encode]. do 2 data_turn. octet a.
      reflexivity.
    + pose proof (Byte.to_N_bounded a). pose proof (Byte.to_N_bounded b).
      cbn [b64encode]. do 3 data_turn. octet a. octet b.
      cbn. now rewrite <- app_assoc.
    + pose proof (Byte.to_N_bounded a). pose proof (Byte.to_N_bounded b).
      pose proof (Byte.to_N_bounded c).
      cbn [b64encode]. do 4 data_turn. octet a. octet b. octet c.
      rewrite IH by (cbn [List.length] in Hlen; lia).
      now rewrite <- !app_assoc.
Qed.

Lemma a2b_base64_b64encode (s : bytes) :
  a2b_base64 (b64encode s) = Ok s.
Proof.
  unfold a2b_base64.
  now rewrite (a2b_loop_b64encode_bounded (n := List.length s)) by lia.
Qed.

End Base64Facts.

(** ** Case mapping *)

Module TextFacts.

Import Text.

Lemma lower_ascii_idempotent (c : ascii) :
  lower_ascii (lower_ascii c) = lower_ascii c.
Proof.
  destruct c as [[] [] [] [] [] [] [] []]; vm_compute; reflexivity.
Qed.

Lemma lower_idempotent (s : string) : lower (lower s) = lower s.
Proof.
  induction s as [|c r IH]; [reflexivity|].
  cbn [lower]. now rewrite lower_ascii_idempotent, IH.
Qed.

(** Every mapping of [upper_mapping] is final, by computation. *)
Lemma upper_mapping_checked : forallb mapping_is_final upper_mapping = true.
Proof. vm_compute. reflexivity. Qed.

Lemma do_upper_final (l : list N) :
  forallb (fun c => match _PyUnicode_ToUpperFull c with
                    | [c'] => N.eqb c' c
                    | _ => false
                    end) l = true ->
  do_upper l = l.
Proof.
  induction l as [|c l IH]; [reflexivity|].
  cbn [forallb]. intros H. apply andb_true_iff in H as [Hc Hl].
  unfold do_upper in *. cbn [flat_map]. rewrite (IH Hl).
  destruct (_PyUnicode_ToUpperFull c) as [|c' [|? ?]]; try discriminate.
  apply N.eqb_eq in Hc. now subst.
Qed.

Lemma ToUpperFull_idempotent (c : N) :
  do_upper (_PyUnicode_ToUpperFull c) = _PyUnicode_ToUpperFull c.
Proof.
  unfold _PyUnicode_ToUpperFull at 1 2.
  destruct (find _ upper_mapping) as [entry|] eqn:E.
  - apply find_some in E as [Hin _].
    pose proof upper_mapping_checked as Hc.
    rewrite forallb_forall in Hc.
    apply do_upper_final, (Hc entry Hin).
  - unfold do_upper. cbn [flat_map]. unfold _PyUnicode_ToUpperFull.
    rewrite E. reflexivity.
Qed.

Lemma do_upper_app (a b : str) : do_upper (a ++ b) = do_upper a ++ do_upper b.
Proof. apply flat_map_app. Qed.

Lemma do_upper_idempotent (text : str) :
  do_upper (do_upper text) = do_upper text.
Proof.
  induction text as [|c r IH]; [reflexivity|].
  unfold do_upper in *. cbn [flat_map].
  rewrite flat_map_app, IH.
  pose proof (ToUpperFull_idempotent c) as Hc. unfold do_upper in Hc.
  now rewrite Hc.
Qed.

(** Upper-casing a second time changes nothing. *)
Lemma upper_idempotent (s : string) : upper (upper s) = upper s.
Proof.
  unfold upper at 2 3.
  destruct (Utf8.decode (list_byte_of_string s)) as [text|] eqn:Ed;
    [|unfold upper; now rewrite Ed].
  destruct (Utf8.encode (do_upper text)) as [data|] eqn:Ee;
    [|unfold upper; now rewrite Ed, Ee].
  unfold upper. rewrite list_byte_of_string_of_list_byte.
  rewrite (Utf8More.encode_decode _ Ee).
  now rewrite do_upper_idempotent, Ee.
Qed.

End TextFacts.

(** ** Grouping headers by name *)

Module GroupingFacts.

Lemma in_without (n x : string) (l : list string) :
  In x (without n l) <-> In x l /\ x <> n.
Proof.
  unfold without. rewrite filter_In, negb_true_iff, String.eqb_neq. tauto.
Qed.

Lemma without_absent (n : string) (l : list string) :
  ~ In n l -> without n l = l.
Proof.
  induction l as [|a l IH]; intros Hn; [reflexivity|].
  cbn. destruct (String.eqb_spec a n) as [->|Hne].
  - exfalso. apply Hn. now left.
  - cbn. f_equal. apply IH. intros H. apply Hn. now right.
Qed.

Lemma in_first_seen (x : string) (l : list string) :
  In x (first_seen l) <-> In x l.
Proof.
  induction l as [|a l IH]; [tauto|].
  cbn [first_seen]. fold (without a (first_seen l)).
  cbn [In]. rewrite in_without, IH.
  destruct (String.eqb_spec a x); intuition congruence.
Qed.

Lemma NoDup_without (n : string) (l : list string) :
  NoDup l -> NoDup (without n l).
Proof. apply NoDup_filter. Qed.

Lemma NoDup_first_seen (l : list string) : NoDup (first_seen l).
Proof.
  induction l as [|a l IH]; [constructor|].
  cbn [first_seen]. fold (without a (first_seen l)). constructor.
  - rewrite in_without. tauto.
  - now apply NoDup_without.
Qed.

(** A name seen once more at the end: nothing changes if it was known,
    otherwise it comes last. *)
Lemma first_seen_snoc (l : list string) (n : string) :
  first_seen (l ++ [n])
  = if existsb (String.eqb n) l then first_seen l else first_seen l ++ [n].
Proof.
  induction l as [|a l IH]; [reflexivity|].
  cbn [app first_seen existsb]. rewrite IH.
  destruct (String.eqb_spec n a) as [->|Hne]; cbn [orb].
  - destruct (existsb (String.eqb a) l); [reflexivity|].
    fold (without a (first_seen l ++ [a])). fold (without a (first_seen l)).
    unfold without. rewrite filter_app. cbn.
    rewrite String.eqb_refl. cbn. now rewrite app_nil_r.
  - destruct (existsb (String.eqb n) l); [reflexivity|].
    rewrite filter_app. cbn.
    destruct (String.eqb_spec n a); [contradiction|]. reflexivity.
Qed.

Lemma values_of_snoc (k n v : string) (l : list (string * string)) :
  values_of k (l ++ [(n, v)])
  = values_of k l ++ (if String.eqb n k then [v] else []).
Proof.
  unfold values_of. rewrite filter_app, map_app. cbn.
  now destruct (String.eqb n k).
Qed.

Section Keyed.

Variable V : Type.

Lemma get_app_absent (d d' : Dict.t V) (n : string) :
  ~ In n (Dict.keys d) -> Dict.get (d ++ d') n = Dict.get d' n.
Proof.
  induction d as [|[k v] d IH]; intros Hn; [reflexivity|].
  cbn. destruct (String.eqb_spec k n) as [->|Hne].
  - exfalso. apply Hn. now left.
  - apply IH. intros H. apply Hn. now right.
Qed.

Lemma set_app_absent (d d' : Dict.t V) (n : string) (x : V) :
  ~ In n (Dict.keys d) -> Dict.set (d ++ d') n x = d ++ Dict.set d' n x.
Proof.
  induction d as [|[k v] d IH]; intros Hn; [reflexivity|].
  cbn. destruct (String.eqb_spec k n) as [->|Hne].
  - exfalso. apply Hn. now left.
  - f_equal. apply IH. intros H. apply Hn. now right.
Qed.

Lemma set_absent (d : Dict.t V) (n : string) (x : V) :
  ~ In n (Dict.keys d) -> Dict.set d n x = d ++ [(n, x)].
Proof.
  intros Hn. rewrite <- (app_nil_r d) at 1.
  now rewrite set_app_absent.
Qed.

Variable g : string -> V.

Lemma keys_keyed (names : list string) : Dict.keys (keyed g names) = names.
Proof.
  unfold Dict.keys, keyed. rewrite map_map. cbn. apply map_id.
Qed.

Lemma get_keyed (names : list string) (n : string) :
  In n names -> Dict.get (keyed g names) n = Some (g n).
Proof.
  induction names as [|a names IH]; intros Hin; [contradiction|].
  cbn. destruct (String.eqb_spec a n) as [->|Hne]; [reflexivity|].
  destruct Hin as [->|Hin]; [contradiction | now apply IH].
Qed.

Lemma set_keyed (names : list string) (n : string) (x : V) :
  NoDup names -> In n names ->
  Dict.set (keyed g names) n x
  = map (fun k => (k, if String.eqb k n then x else g k)) names.
Proof.
  induction names as [|a names IH]; intros Hnd Hin; [contradiction|].
  inversion Hnd as [|? ? Ha Hnd']; subst.
  cbn. destruct (String.eqb_spec a n) as [->|Hne].
  - f_equal. apply map_ext_in. intros k Hk.
    destruct (String.eqb_spec k n) as [->|]; [contradiction | reflexivity].
  - f_equal. destruct Hin as [->|Hin]; [contradiction | now apply IH].
Qed.

End Keyed.

Lemma grouped_keyed (pairs : list (string * string)) :
  grouped pairs
  = keyed (fun n => values_of n pairs) (first_seen (map fst pairs)).
Proof. reflexivity. Qed.

Lemma existsb_eqb_In (n : string) (l : list string) :
  existsb (String.eqb n) l = true <-> In n l.
Proof.
  rewrite existsb_exists. split.
  - intros (x & Hx & E). apply String.eqb_eq in E. now subst.
  - intros H. exists n. split; [assumption | apply String.eqb_refl].
Qed.

Lemma values_of_absent (n : string) (pairs : list (string * string)) :
  ~ In n (map fst pairs) -> values_of n pairs = [].
Proof.
  induction pairs as [|[k v] pairs IH]; intros Hn; [reflexivity|].
  unfold values_of. cbn. destruct (String.eqb_spec k n) as [->|Hne].
  - exfalso. apply Hn. now left.
  - apply IH. intros H. apply Hn. now right.
Qed.

(** One turn of the loop of [translate] on the grouping built so far. *)
Lemma translate_header_grouped (pairs : list (string * string))
      (n v : string) :
  n <> "content-length" ->
  LambdaResponse.translate_header (grouped pairs) (n, v)
  = grouped (pairs ++ [(n, v)]).
Proof.
  intros Hn. unfold LambdaResponse.translate_header.
  destruct (String.eqb_spec n "content-length") as [|_]; [contradiction|].
  rewrite !grouped_keyed, map_app. cbn [map fst].
  rewrite first_seen_snoc.
  unfold Dict.mem. rewrite keys_keyed.
  pose proof (NoDup_first_seen (map fst pairs)) as Hnd.
  destruct (existsb (String.eqb n) (map fst pairs)) eqn:E.
  - apply existsb_eqb_In in E.
    assert (In n (first_seen (map fst pairs))) as Hin
        by now apply in_first_seen.
    rewrite (proj2 (existsb_eqb_In _ _) Hin). cbn [negb].
    unfold Dict.append. rewrite get_keyed by assumption.
    rewrite set_keyed by assumption.
    unfold keyed. apply map_ext. intros k. rewrite values_of_snoc.
    rewrite (String.eqb_sym n k).
    destruct (String.eqb_spec k n) as [->|]; [reflexivity|].
    now rewrite app_nil_r.
  - assert (~ In n (map fst pairs)) as Hout.
    { intros H. apply existsb_eqb_In in H. congruence. }
    assert (~ In n (first_seen (map fst pairs))) as Hout'
        by now rewrite in_first_seen.
    destruct (existsb (String.eqb n) (first_seen (map fst pairs))) eqn:E'.
    { apply existsb_eqb_In in E'. contradiction. }
    cbn [negb]. unfold Dict.append.
    rewrite !set_absent by now rewrite keys_keyed.
    rewrite get_app_absent by now rewrite keys_keyed.
    cbn [Dict.get]. rewrite String.eqb_refl.
    rewrite set_app_absent by now rewrite keys_keyed.
    cbn [Dict.set]. rewrite String.eqb_refl.
    unfold keyed. rewrite map_app. cbn [map]. f_equal.
    + apply map_ext_in. intros k Hk. rewrite values_of_snoc.
      destruct (String.eqb_spec n k) as [->|]; [contradiction|].
      now rewrite app_nil_r.
    + rewrite values_of_snoc, String.eqb_refl.
      now rewrite values_of_absent.
Qed.

(** The loop of [translate]: content-length is skipped, the other
    headers are grouped by name. *)
Lemma translate_headers_grouped (items : list (string * string)) :
  fold_left LambdaResponse.translate_header items Dict.empty
  = grouped (filter not_content_length items).
Proof.
  induction items as [|[n v] items IH] using rev_ind; [reflexivity|].
  rewrite fold_left_app, IH, filter_app. cbn [fold_left filter].
  replace (not_content_length (n, v))
    with (negb (String.eqb n "content-length")) by reflexivity.
  destruct (String.eqb_spec n "content-length") as [->|Hne]; cbn [negb].
  - now rewrite app_nil_r.
  - now apply translate_header_grouped.
Qed.

End GroupingFacts.

(** ** The response object *)

Module ResponseFacts.

Import LambdaResponse.

Lemma b64decode_text (data : bytes) :
  Forall (fun b => (Byte.to_N b < 0x80)%N) data ->
  Base64.b64decode (map Byte.to_N data) = Base64.a2b_base64 data.
Proof.
  intros Hascii. unfold Base64.b64decode, Base64.bytes_from_decode_data.
  assert (forallb (fun c => (c <? 128)%N) (map Byte.to_N data) = true) as ->.
  { apply forallb_forall. intros c Hc. apply in_map_iff in Hc.
    destruct Hc as (b & <- & Hb). apply N.ltb_lt.
    now apply (proj1 (Forall_forall _ _) Hascii). }
  cbn [rbind]. f_equal. rewrite map_map.
  erewrite map_ext; [apply map_id|]. apply Utf8Facts.byte_of_to_N.
Qed.

Lemma decode_b64encode (data : bytes) :
  bytes_decode (Base64.b64encode data)
  = Ok (map Byte.to_N (Base64.b64encode data)).
Proof.
  unfold bytes_decode.
  now rewrite Utf8Facts.decode_ascii by apply Base64Facts.b64encode_ascii.
Qed.

Lemma translate_finished (self : t) :
  finished self = true -> translate self = Ok (output_of self).
Proof.
  intros Hf. unfold translate, output_of. rewrite Hf. cbn [negb].
  rewrite GroupingFacts.translate_headers_grouped.
  unfold bytes_decode at 1, headers, status_code.
  destruct (Utf8.decode (List.concat (_body_chunks self))); [reflexivity|].
  now rewrite decode_b64encode.
Qed.

Lemma write_all_chunks (fragments : list bytes) (self : t) :
  List.concat (_body_chunks (write_all fragments self))
  = List.concat (_body_chunks self) ++ List.concat fragments.
Proof.
  revert self. induction fragments as [|data rest IH]; intros self.
  - cbn. now rewrite app_nil_r.
  - cbn [write_all List.concat]. rewrite IH. unfold write.
    destruct data as [|b data]; cbn [nonempty snd _body_chunks].
    + reflexivity.
    + rewrite concat_app. cbn [List.concat].
      now rewrite app_nil_r, <- app_assoc.
Qed.

Lemma write_all_finished (fragments : list bytes) (self : t) :
  finished (write_all fragments self) = finished self.
Proof.
  revert self. induction fragments as [|data rest IH]; intros self;
    [reflexivity|].
  cbn [write_all]. rewrite IH. unfold write.
  now destruct (nonempty data).
Qed.

Lemma write_all_fixed (fragments : list bytes) (self : t) :
  _status_code (write_all fragments self) = _status_code self
  /\ _headers (write_all fragments self) = _headers self.
Proof.
  revert self. induction fragments as [|data rest IH]; intros self;
    [now split|].
  cbn [write_all]. destruct (IH (snd (write data self))) as [-> ->].
  unfold write. now destruct (nonempty data).
Qed.

End ResponseFacts.

(** ** Codec examples *)

Example b64encode_hi :
  Base64.b64encode [x68; x69] = list_byte_of_string "aGk=".
Proof. reflexivity. Qed.

Example b64encode_binary :
  Base64.b64encode [xff; xfe; x00] = list_byte_of_string "//4A".
Proof. reflexivity. Qed.

Example b64decode_skips_newline :
  Base64.b64decode [97; 71; 10; 107; 61]%N = Ok [x68; x69].
Proof. reflexivity. Qed.

Example b64decode_incorrect_padding :
  Base64.b64decode [97; 71; 107]%N = Raise (BinasciiError "Incorrect padding").
Proof. reflexivity. Qed.

Example decode_e_acute : Utf8.decode [xc3; xa9] = Some [233%N].
Proof. reflexivity. Qed.

Example decode_overlong_rejected : Utf8.decode [xc0; x80] = None.
Proof. reflexivity. Qed.

Example decode_surrogate_rejected : Utf8.decode [xed; xa0; x80] = None.
Proof. reflexivity. Qed.

Example decode_emoji : Utf8.decode [xf0; x9f; x98; x80] = Some [128512%N].
Proof. reflexivity. Qed.

(** ** Claims about the response *)

(** C2, as amended: [write] never raises, whether or not [finish] was
    called; with an empty fragment it leaves the response as it is, with a
    non-empty one it appends the fragment to the fragment sequence and
    changes nothing else. *)
Theorem write_appends_unless_empty (self : LambdaResponse.t) (data : bytes) :
  LambdaResponse.write data self
  = (Ok tt,
     match data with
     | [] => self
     | _ :: _ =>
       {| LambdaResponse._status_code := LambdaResponse._status_code self;
          LambdaResponse._headers := LambdaResponse._headers self;
          LambdaResponse._body_chunks :=
            LambdaResponse._body_chunks self ++ [data];
          LambdaResponse._finished := LambdaResponse._finished self |}
     end).
Proof. destruct data; reflexivity. Qed.

(** C2, counterexample: on a response that was finished, [write] of a
    non-empty fragment returns normally and the fragment is appended. *)
Lemma write_after_finish_is_accepted :
  let response :=
    snd (LambdaResponse.finish
           (LambdaResponse.init 200%Z (Magicdict.construct []))) in
  LambdaResponse.finished response = true
  /\ LambdaResponse.write [x68; x69] response
     = (Ok tt,
        {| LambdaResponse._status_code := 200%Z;
           LambdaResponse._headers := Magicdict.construct [];
           LambdaResponse._body_chunks := [[x68; x69]];
           LambdaResponse._finished := true |}).
Proof. split; reflexivity. Qed.

(** C6: [translate] on a response whose event is not set raises the
    assertion error "This response is not finished."; on a finished
    response it does not raise and returns the envelope. *)
Theorem translate_requires_finished (self : LambdaResponse.t) :
  if LambdaResponse.finished self
  then LambdaResponse.translate self = Ok (output_of self)
  else LambdaResponse.translate self
       = Raise (AssertionError "This response is not finished.").
Proof.
  destruct (LambdaResponse.finished self) eqn:Hf.
  - now apply ResponseFacts.translate_finished.
  - unfold LambdaResponse.translate. now rewrite Hf.
Qed.

(** C3: fragments written to a response, in call order, then [finish]
    (and whatever is written afterwards): the envelope's body comes from
    the concatenation of the fragments.  Valid UTF-8: the flag is false,
    the body is the decoded text, and encoding the body gives the octets
    back.  Otherwise: the flag is true, the body is the base64 text of the
    octets, and base64-decoding the body gives the octets back. *)
Theorem translate_body_roundtrip (status_code : HttpStatusCode)
        (headers : Magicdict.FrozenTolerantMagicDict)
        (fragments later : list bytes) :
  let response :=
    write_all later
      (snd (LambdaResponse.finish
              (write_all fragments
                         (LambdaResponse.init status_code headers)))) in
  let body_bytes := List.concat (fragments ++ later) in
  exists out,
    LambdaResponse.translate response = Ok out
    /\ match Utf8.decode body_bytes with
       | Some text =>
         LambdaOutput.isBase64Encoded out = false
         /\ LambdaOutput.body out = text
         /\ str_encode (LambdaOutput.body out) = Ok body_bytes
       | None =>
         LambdaOutput.isBase64Encoded out = true
         /\ LambdaOutput.body out
            = map Byte.to_N (Base64.b64encode body_bytes)
         /\ Base64.b64decode (LambdaOutput.body out) = Ok body_bytes
       end.
Proof.
  intros response body_bytes.
  assert (List.concat (LambdaResponse._body_chunks response) = body_bytes)
    as Hbody.
  { unfold response, body_bytes.
    rewrite ResponseFacts.write_all_chunks. cbn [LambdaResponse.finish snd
      LambdaResponse._body_chunks].
    rewrite ResponseFacts.write_all_chunks. cbn. now rewrite concat_app. }
  exists (output_of response). split.
  - apply ResponseFacts.translate_finished. unfold response.
    now rewrite ResponseFacts.write_all_finished.
  - unfold output_of. cbn [LambdaOutput.isBase64Encoded LambdaOutput.body].
    rewrite Hbody. destruct (Utf8.decode body_bytes) as [text|] eqn:E.
    + repeat split. unfold str_encode.
      now rewrite (Utf8Facts.decode_encode _ E).
    + repeat split.
      rewrite ResponseFacts.b64decode_text
        by apply Base64Facts.b64encode_ascii.
      apply Base64Facts.a2b_base64_b64encode.
Qed.

Module HeaderFacts.

Import GroupingFacts.

Lemma keys_grouped (pairs : list (string * string)) :
  Dict.keys (grouped pairs) = first_seen (map fst pairs).
Proof. rewrite grouped_keyed. apply keys_keyed. Qed.

Lemma in_keys_grouped (key : string) (pairs : list (string * string)) :
  In key (Dict.keys (grouped pairs)) <-> In key (map fst pairs).
Proof. rewrite keys_grouped. apply in_first_seen. Qed.

Lemma get_grouped (key : string) (pairs : list (string * string)) :
  In key (map fst pairs) ->
  Dict.get (grouped pairs) key = Some (values_of key pairs).
Proof.
  intros H. rewrite grouped_keyed.
  now rewrite get_keyed by now apply in_first_seen.
Qed.

Lemma in_values_of (key value : string) (pairs : list (string * string)) :
  In value (values_of key pairs) <-> In (key, value) pairs.
Proof.
  unfold values_of. rewrite in_map_iff. split.
  - intros ([k v] & <- & H). apply filter_In in H as [H E].
    cbn in E. apply String.eqb_eq in E. now subst.
  - intros H. exists (key, value). split; [reflexivity|].
    apply filter_In. split; [assumption | apply String.eqb_refl].
Qed.

Lemma values_of_filter (key : string) (f : string -> bool)
      (pairs : list (string * string)) :
  f key = true ->
  values_of key (filter (fun kv => f (fst kv)) pairs) = values_of key pairs.
Proof.
  intros Hf. unfold values_of. induction pairs as [|[k v] pairs IH];
    [reflexivity|].
  cbn [filter fst]. destruct (String.eqb_spec k key) as [->|Hne].
  - rewrite Hf. cbn [filter fst map snd]. rewrite String.eqb_refl.
    cbn [map snd]. now rewrite IH.
  - destruct (f k); cbn [filter fst]; [|assumption].
    destruct (String.eqb_spec k key); [contradiction | assumption].
Qed.

Lemma in_construct (name value : string) (pairs : list (string * string)) :
  In (name, value) pairs ->
  In (Text.lower name, value) (Magicdict.items (Magicdict.construct pairs)).
Proof.
  intros H. cbn.
  now apply (in_map (fun kv => (Text.lower (fst kv), snd kv)) _ _ H).
Qed.

Lemma construct_folded (key value : string)
      (pairs : list (string * string)) :
  In (key, value) (Magicdict.items (Magicdict.construct pairs)) ->
  Text.lower key = key.
Proof.
  cbn. rewrite in_map_iff. intros ([k v] & E & _). cbn in E.
  injection E as <- _. apply TextFacts.lower_idempotent.
Qed.

(** The two loops that flatten a map. *)
Lemma flatten_flat_map (m : Dict.t (list string)) :
  LambdaRequest.flatten m
  = flat_map (fun entry => map (pair (fst entry)) (snd entry)) m.
Proof.
  unfold LambdaRequest.flatten, Dict.items.
  assert (forall (k : string) (vs : list string) acc,
             fold_left (fun acc value => acc ++ [(k, value)]) vs acc
             = acc ++ map (pair k) vs) as Hinner.
  { intros k vs. induction vs as [|v vs IH]; intros acc; cbn.
    - now rewrite app_nil_r.
    - now rewrite IH, <- app_assoc. }
  enough (forall acc,
             fold_left
               (fun acc (entry : string * list string) =>
                  let (key, values) := entry in
                  fold_left (fun acc value => acc ++ [(key, value)])
                            values acc) m acc
             = acc ++ flat_map
                        (fun entry => map (pair (fst entry)) (snd entry)) m)
    as Houter by apply (Houter []).
  induction m as [|[k vs] m IH]; intros acc; cbn.
  - now rewrite app_nil_r.
  - now rewrite IH, Hinner, <- app_assoc.
Qed.

(** Looking a name up in the container built from a flattened map. *)
Lemma get_all_flatten (m : Dict.t (list string))
      (name : string) :
  Magicdict.get_all (Magicdict.construct (LambdaRequest.flatten m)) name
  = values_ignoring_case m name.
Proof.
  rewrite flatten_flat_map.
  unfold Magicdict.get_all, Magicdict.construct, values_ignoring_case.
  cbn [Magicdict._kv_pairs].
  induction m as [|[k vs] m IH]; [reflexivity|].
  cbn [flat_map fst snd filter].
  rewrite map_app, filter_app, map_app, IH.
  assert (map snd
              (filter (fun kv : string * string =>
                         String.eqb (fst kv) (Text.lower name))
                      (map (fun kv : string * string =>
                              (Text.lower (fst kv), snd kv))
                           (map (pair k) vs)))
          = if String.eqb (Text.lower k) (Text.lower name)
            then vs else []) as ->.
  { induction vs as [|v vs IHvs]; cbn.
    - now destruct (String.eqb _ _).
    - destruct (String.eqb (Text.lower k) (Text.lower name)); cbn.
      + now rewrite IHvs.
      + assumption. }
  now destruct (String.eqb (Text.lower k) (Text.lower name)).
Qed.

End HeaderFacts.

(** C7: the response a handler began with the headers [headers], finished,
    whatever was written to it.  No key of the envelope's
    [multiValueHeaders] is content-length in any casing, and every other
    header of the handler is there: its value is among the values listed
    under its (case-folded) name. *)
Theorem content_length_is_dropped (status_code : HttpStatusCode)
        (headers : Dict.t string) (chunks : list bytes) :
  let response :=
    {| LambdaResponse._status_code := status_code;
       LambdaResponse._headers := Magicdict.construct (Dict.items headers);
       LambdaResponse._body_chunks := chunks;
       LambdaResponse._finished := true |} in
  exists out,
    LambdaResponse.translate response = Ok out
    /\ (forall key,
           In key (Dict.keys (LambdaOutput.multiValueHeaders out)) ->
           Text.lower key <> "content-length")
    /\ (forall name value,
           In (name, value) (Dict.items headers) ->
           Text.lower name <> "content-length" ->
           exists values,
             Dict.get (LambdaOutput.multiValueHeaders out) (Text.lower name)
             = Some values
             /\ In value values).
Proof.
  intros response. exists (output_of response).
  split; [now apply ResponseFacts.translate_finished|].
  unfold output_of, response.
  cbn [LambdaOutput.multiValueHeaders LambdaResponse._headers].
  split.
  - intros key Hkey. apply HeaderFacts.in_keys_grouped in Hkey.
    apply in_map_iff in Hkey as ([k v] & <- & Hin).
    apply filter_In in Hin as [Hin Hkeep]. cbn [fst].
    rewrite (HeaderFacts.construct_folded _ _ _ Hin).
    unfold not_content_length in Hkeep. cbn [fst] in Hkeep.
    apply negb_true_iff in Hkeep. now apply String.eqb_neq.
  - intros name value Hin Hname.
    assert (In (Text.lower name, value)
               (filter not_content_length
                       (Magicdict.items
                          (Magicdict.construct (Dict.items headers)))))
      as Hkept.
    { apply filter_In. split; [now apply HeaderFacts.in_construct|].
      unfold not_content_length. cbn [fst].
      apply negb_true_iff. now apply String.eqb_neq. }
    eexists. split.
    + apply HeaderFacts.get_grouped.
      apply (in_map fst _ _ Hkept).
    + now apply HeaderFacts.in_values_of.
Qed.

Lemma values_ignoring_case_unique (m : Dict.t (list string))
      (name : string) (values : list string) :
  NoDup (Dict.keys m) ->
  (forall k, In k (Dict.keys m) -> Text.lower k = Text.lower name -> k = name) ->
  Dict.get m name = Some values ->
  values_ignoring_case m name = values.
Proof.
  unfold values_ignoring_case.
  induction m as [|[k vs] m IH]; intros Hnd Huniq Hget; [discriminate|].
  cbn in Hnd. inversion Hnd as [|? ? Hk Hnd']; subst.
  assert (forall k', In k' (Dict.keys m) ->
                     String.eqb (Text.lower k') (Text.lower name) = true ->
                     k' = name) as Huniq'.
  { intros k' Hin E. apply String.eqb_eq in E. apply Huniq; [now right | easy]. }
  cbn [filter fst]. cbn [Dict.get] in Hget.
  destruct (String.eqb_spec k name) as [->|Hne].
  - injection Hget as ->. rewrite String.eqb_refl. cbn [map snd List.concat].
    assert (filter (fun entry : string * list string =>
                      String.eqb (Text.lower (fst entry)) (Text.lower name)) m
            = []) as ->.
    { clear IH Hnd Hnd' Huniq. induction m as [|[k' vs'] m IHm]; [reflexivity|].
      cbn [filter fst].
      destruct (String.eqb (Text.lower k') (Text.lower name)) eqn:E.
      - exfalso. apply Hk. left. apply Huniq'; [now left | assumption].
      - apply IHm.
        + intros H. apply Hk. now right.
        + intros k'' Hin. apply Huniq'. now right. }
    cbn. apply app_nil_r.
  - destruct (String.eqb_spec (Text.lower k) (Text.lower name)) as [E|_].
    + exfalso. apply Hne. apply Huniq; [now left | assumption].
    + apply IH; try assumption.
      intros k' Hin. apply Huniq. now right.
Qed.

(** C4, as amended: a name -> values map is flattened into the header
    container and a finished response carrying that container is
    translated.  [get_all], with any casing of the name, returns the
    values of all the map's names equal to it up to case, concatenated in
    map order; when no other name of the map differs from it only by
    case, that is exactly the original list.  The translated
    [multiValueHeaders] lists the distinct case-folded names other than
    content-length, in first-seen order, each with exactly what [get_all]
    returns for it. *)
Theorem flatten_then_group (m : Dict.t (list string))
        (status_code : HttpStatusCode) (chunks : list bytes) :
  let container := Magicdict.construct (LambdaRequest.flatten m) in
  let response :=
    {| LambdaResponse._status_code := status_code;
       LambdaResponse._headers := container;
       LambdaResponse._body_chunks := chunks;
       LambdaResponse._finished := true |} in
  (forall name,
      Magicdict.get_all container name = values_ignoring_case m name)
  /\ (forall name values spelling,
         NoDup (Dict.keys m) ->
         (forall k, In k (Dict.keys m) ->
                    Text.lower k = Text.lower name -> k = name) ->
         Dict.get m name = Some values ->
         Text.lower spelling = Text.lower name ->
         Magicdict.get_all container spelling = values)
  /\ exists out,
      LambdaResponse.translate response = Ok out
      /\ Dict.keys (LambdaOutput.multiValueHeaders out)
         = first_seen
             (map fst (filter not_content_length (Magicdict.items container)))
      /\ (forall key,
             In key (Dict.keys (LambdaOutput.multiValueHeaders out)) ->
             Dict.get (LambdaOutput.multiValueHeaders out) key
             = Some (Magicdict.get_all container key)).
Proof.
  intros container response. split; [|split].
  - intros name. apply HeaderFacts.get_all_flatten.
  - intros name values spelling Hnd Huniq Hget Hsp.
    unfold container. rewrite HeaderFacts.get_all_flatten.
    unfold values_ignoring_case. rewrite Hsp.
    now apply values_ignoring_case_unique.
  - exists (output_of response).
    split; [now apply ResponseFacts.translate_finished|].
    unfold output_of, response.
    cbn [LambdaOutput.multiValueHeaders LambdaResponse._headers].
    split; [apply HeaderFacts.keys_grouped|].
    intros key Hkey. apply HeaderFacts.in_keys_grouped in Hkey.
    rewrite HeaderFacts.get_grouped by assumption. f_equal.
    apply in_map_iff in Hkey as ([k v] & <- & Hin).
    apply filter_In in Hin as [Hin Hkeep]. cbn [fst].
    unfold Magicdict.get_all.
    rewrite (HeaderFacts.construct_folded _ _ _ Hin).
    apply (HeaderFacts.values_of_filter
             k (fun n => negb (String.eqb n "content-length"))).
    exact Hkeep.
Qed.

(** C4, counterexample: two names that differ only by case are merged by
    [get_all], which then returns more than the original list of either,
    and a content-length entry of the map is missing from the translated
    headers. *)
Lemma flatten_then_group_counterexample :
  let m : Dict.t (list string) :=
    [("Set-Cookie", ["a=1"]); ("set-cookie", ["b=2"]);
     ("Content-Length", ["5"])] in
  let container := Magicdict.construct (LambdaRequest.flatten m) in
  let response :=
    {| LambdaResponse._status_code := 200%Z;
       LambdaResponse._headers := container;
       LambdaResponse._body_chunks := [];
       LambdaResponse._finished := true |} in
  Dict.get m "Set-Cookie" = Some ["a=1"]
  /\ Magicdict.get_all container "Set-Cookie" = ["a=1"; "b=2"]
  /\ Magicdict.get_all container "content-length" = ["5"]
  /\ LambdaResponse.translate response
     = Ok {| LambdaOutput.isBase64Encoded := false;
             LambdaOutput.statusCode := 200%Z;
             LambdaOutput.multiValueHeaders :=
               [("set-cookie", ["a=1"; "b=2"])];
             LambdaOutput.body := [] |}.
Proof. repeat split. Qed.

(** ** The request object *)

Module RequestFacts.

Import LambdaRequest.

Section WithConstants.

Context {C : Constants}.

Ltac binds H :=
  repeat match type of H with
         | rbind ?x _ = Ok _ =>
           let E := fresh "E" in
           destruct x eqn:E; cbn [rbind] in H; [|discriminate H]
         end.

(** A request that was constructed carries the decoded body and a
    pending future. *)
Lemma init_fields (event : LambdaEvent.t) (request : t) :
  init event = Ok request ->
  init_body event = Ok (_body request)
  /\ _res_fur request = Asyncio.Pending
  /\ exists spelling,
      LambdaEvent.httpMethod event = Some spelling
      /\ HttpRequestMethod_by_value (Text.upper spelling)
         = Some (_method request).
Proof.
  intros H. unfold init in H. binds H.
  injection H as <-. cbn [_body _res_fur _method].
  repeat split.
  destruct (LambdaEvent.httpMethod event) as [spelling|];
    [|discriminate].
  exists spelling. split; [reflexivity|].
  cbn [getitem] in E0. injection E0 as <-.
  unfold enum_call in E1.
  destruct (HttpRequestMethod_by_value (Text.upper spelling));
    [now injection E1 as -> | discriminate].
Qed.

Lemma init_raises_early (event : LambdaEvent.t) (e : exception) :
  init_body event = Raise e -> init event = Raise e.
Proof. intros H. unfold init. now rewrite H. Qed.

(** Store lemmas. *)
Lemma store_at_same (l : list LambdaResponse.t) (a : address)
      (r r0 : LambdaResponse.t) :
  nth_error l a = Some r0 -> nth_error (store_at l a r) a = Some r.
Proof.
  revert a. induction l as [|x l IH]; intros [|a] H; try discriminate.
  - reflexivity.
  - cbn in *. now apply IH.
Qed.

Lemma store_at_other (l : list LambdaResponse.t) (a a' : address)
      (r : LambdaResponse.t) :
  a <> a' -> nth_error (store_at l a r) a' = nth_error l a'.
Proof.
  revert a a'. induction l as [|x l IH]; intros [|a] [|a'] H;
    try reflexivity; try contradiction.
  cbn. apply IH. congruence.
Qed.

Lemma call_request {A : Type} (a : address)
      (m : stateful LambdaResponse.t A) (w : world) :
  request (snd (call a m w)) = request w.
Proof.
  unfold call. destruct (nth_error (responses w) a); [|reflexivity].
  now destruct (m t0).
Qed.

End WithConstants.

End RequestFacts.

(** ** Exactly one response per request *)

Module OnceFacts.

Import LambdaRequest RequestFacts.

Section WithConstants.

Context {C : Constants}.

Lemma write_response_done (status_code : HttpStatusCode)
      (headers : option (Dict.t string)) (w : world) (a : address) :
  _res_fur (request w) = Asyncio.Done a ->
  write_response status_code headers w = (Raise write_once_error, w).
Proof. intros H. unfold write_response. now rewrite H. Qed.

Lemma write_response_pending (status_code : HttpStatusCode)
      (headers : option (Dict.t string)) (w : world) :
  _res_fur (request w) = Asyncio.Pending ->
  exists w1,
    write_response status_code headers w
    = (Ok (List.length (responses w)), w1)
    /\ _res_fur (request w1) = Asyncio.Done (List.length (responses w))
    /\ begun_with w1 (List.length (responses w)) status_code headers.
Proof.
  intros H. unfold write_response. rewrite H. cbn [Asyncio.done].
  eexists. split; [reflexivity|]. split; [reflexivity|].
  eexists. cbn [responses].
  split; [rewrite nth_error_app2 by lia; rewrite Nat.sub_diag;
          reflexivity|].
  split; reflexivity.
Qed.

(** [write] and [finish] through a reference leave the status code
    and the headers of every stored response alone. *)
Lemma call_begun_with (a a' : address) (m : stateful LambdaResponse.t unit)
      (w : world) (status_code : HttpStatusCode)
      (headers : option (Dict.t string)) :
  (forall r, LambdaResponse._status_code (snd (m r))
             = LambdaResponse._status_code r
             /\ LambdaResponse._headers (snd (m r))
                = LambdaResponse._headers r) ->
  begun_with w a' status_code headers ->
  begun_with (snd (call a m w)) a' status_code headers.
Proof.
  intros Hm (r & Hr & Hs & Hh). unfold call.
  destruct (nth_error (responses w) a) as [r0|] eqn:E;
    [|now exists r].
  destruct (m r0) as [res r0'] eqn:Em.
  unfold begun_with. cbn [snd responses].
  destruct (Nat.eq_dec a a') as [<-|Hne].
  - exists r0'. rewrite (store_at_same _ _ _ E).
    split; [reflexivity|].
    assert (r0 = r) as -> by congruence.
    destruct (Hm r) as [H1 H2]. rewrite Em in H1, H2. cbn in H1, H2.
    split; congruence.
  - exists r. now rewrite store_at_other.
Qed.

Lemma write_fixed (data : bytes) (r : LambdaResponse.t) :
  LambdaResponse._status_code (snd (LambdaResponse.write data r))
  = LambdaResponse._status_code r
  /\ LambdaResponse._headers (snd (LambdaResponse.write data r))
     = LambdaResponse._headers r.
Proof. unfold LambdaResponse.write. now destruct data. Qed.

Lemma finish_fixed (r : LambdaResponse.t) :
  LambdaResponse._status_code (snd (LambdaResponse.finish r))
  = LambdaResponse._status_code r
  /\ LambdaResponse._headers (snd (LambdaResponse.finish r))
     = LambdaResponse._headers r.
Proof. now split. Qed.

(** Once the future is done, it stays so through any schedule, and
    every [write_response] of the schedule raises. *)
Lemma run_done (schedule : list Schedule.operation) :
  forall (w : world) (a : address) (status_code : HttpStatusCode)
         (headers : option (Dict.t string)),
    _res_fur (request w) = Asyncio.Done a ->
    begun_with w a status_code headers ->
    Forall (fun r => r = Raise write_once_error)
           (fst (Schedule.run schedule w))
    /\ _res_fur (request (snd (Schedule.run schedule w))) = Asyncio.Done a
    /\ begun_with (snd (Schedule.run schedule w)) a status_code headers.
Proof.
  induction schedule as [|op rest IH]; intros w a sc hs Hdone Hb.
  - cbn. auto.
  - destruct op as [sc' hs'|a' data|a']; cbn [Schedule.run].
    + rewrite (write_response_done sc' hs' _ Hdone).
      destruct (Schedule.run rest w) as [results w2] eqn:E.
      specialize (@IH w a sc hs Hdone Hb). rewrite E in IH.
      cbn [fst snd] in *. destruct IH as (IH1 & IH2 & IH3).
      repeat split; try assumption. now constructor.
    + apply IH.
      * now rewrite call_request.
      * apply call_begun_with; [apply write_fixed | assumption].
    + apply IH.
      * now rewrite call_request.
      * apply call_begun_with; [apply finish_fixed | assumption].
Qed.

Lemma run_pending (schedule : list Schedule.operation) :
  forall w : world,
    _res_fur (request w) = Asyncio.Pending ->
    exactly_once schedule (fst (Schedule.run schedule w))
                 (snd (Schedule.run schedule w)).
Proof.
  induction schedule as [|op rest IH]; intros w Hp.
  - exact Hp.
  - destruct op as [sc hs|a data|a]; cbn [Schedule.run].
    + destruct (write_response_pending sc hs _ Hp) as (w1 & -> & Hd & Hb).
      pose proof (@run_done rest w1 _ sc hs Hd Hb) as (H1 & H2 & H3).
      destruct (Schedule.run rest w1) as [results w2].
      cbn [fst snd] in *. unfold exactly_once. cbn [Schedule.first_call].
      eexists. repeat split; eassumption.
    + unfold exactly_once. cbn [Schedule.first_call].
      apply IH. now rewrite call_request.
    + unfold exactly_once. cbn [Schedule.first_call].
      apply IH. now rewrite call_request.
Qed.

End WithConstants.

End OnceFacts.

(** C1: on a constructed request, whatever the order in which the calls of
    the tasks reach it, the first [write_response] returns the response it
    constructed and puts it in the future; every later call raises
    [HttpError(500, "You can only write response once.")], and a call that
    finds the future done changes nothing. *)
Theorem write_response_exactly_once `{Constants} (event : LambdaEvent.t)
        (request : LambdaRequest.t) (schedule : list Schedule.operation) :
  LambdaRequest.init event = Ok request ->
  exactly_once schedule
               (fst (Schedule.run schedule (Schedule.fresh request)))
               (snd (Schedule.run schedule (Schedule.fresh request)))
  /\ forall w a status_code headers,
      LambdaRequest._res_fur (LambdaRequest.request w) = Asyncio.Done a ->
      LambdaRequest.write_response status_code headers w
      = (Raise write_once_error, w).
Proof.
  intros Hinit. split.
  - apply OnceFacts.run_pending. cbn.
    now destruct (RequestFacts.init_fields _ Hinit) as (_ & Hp & _).
  - intros w a sc hs Hd. now apply (@OnceFacts.write_response_done _ sc hs w a).
Qed.

(** ** Decoding the event *)

(** C5, as amended: the event must carry the [body] key.  The body of a
    constructed request is the base64 decoding of the body string when
    [isBase64Encoded] is true, the UTF-8 encoding of the body string when
    the flag is false and the body is not null, and empty when the flag is
    false and the body is null.  Construction raises [KeyError] when the
    key is missing, whatever the flag, and [TypeError] when the body is
    null and the flag is true. *)
Theorem request_body_decoding `{Constants} (event : LambdaEvent.t) :
  (forall request,
      LambdaRequest.init event = Ok request ->
      match LambdaEvent.isBase64Encoded event, LambdaEvent.body event with
      | Some true, Some (Some text) =>
        Base64.b64decode text = Ok (LambdaRequest.body request)
      | Some false, Some (Some text) =>
        str_encode text = Ok (LambdaRequest.body request)
      | Some false, Some None => LambdaRequest.body request = []
      | _, _ => False
      end)
  /\ (forall flag,
         LambdaEvent.isBase64Encoded event = Some flag ->
         LambdaEvent.body event = None ->
         LambdaRequest.init event = Raise (KeyError "body"))
  /\ (LambdaEvent.isBase64Encoded event = Some true ->
      LambdaEvent.body event = Some None ->
      LambdaRequest.init event
      = Raise (TypeError "argument should be a bytes-like object or ASCII string, not 'NoneType'")).
Proof.
  split; [|split].
  - intros request Hinit.
    destruct (RequestFacts.init_fields _ Hinit) as (Hbody & _).
    unfold LambdaRequest.body. unfold LambdaRequest.init_body in Hbody.
    destruct (LambdaEvent.isBase64Encoded event) as [[|]|];
      destruct (LambdaEvent.body event) as [[text|]|];
      cbn [getitem rbind] in Hbody; try discriminate Hbody.
    + exact Hbody.
    + destruct text; cbn [LambdaRequest.nonempty] in Hbody;
        [now injection Hbody as <- | exact Hbody].
    + now injection Hbody as <-.
  - intros flag Hflag Hbody. apply RequestFacts.init_raises_early.
    unfold LambdaRequest.init_body. rewrite Hflag, Hbody.
    now destruct flag.
  - intros Hflag Hbody. apply RequestFacts.init_raises_early.
    unfold LambdaRequest.init_body. now rewrite Hflag, Hbody.
Qed.

(** C5, counterexample: the event of the spec's example without its [body]
    key cannot be constructed, and neither can the one with a null body
    and the flag set. *)
Lemma request_body_absent_or_null_fails :
  LambdaRequest.init (C := sample_constants) (sample_event "GET" false None)
  = Raise (KeyError "body")
  /\ LambdaRequest.init (C := sample_constants)
                        (sample_event "GET" true (Some None))
     = Raise (TypeError "argument should be a bytes-like object or ASCII string, not 'NoneType'").
Proof. split; reflexivity. Qed.

(** C5, an instance: the body "aGk=" with the flag set decodes to "hi". *)
Lemma request_body_decoding_witness :
  exists request,
    LambdaRequest.init (C := sample_constants)
                       (sample_event "GET" true (Some (Some [97; 71; 107; 61]%N)))
    = Ok request
    /\ Base64.b64decode [97; 71; 107; 61]%N = Ok (LambdaRequest.body request)
    /\ LambdaRequest.body request = [x68; x69].
Proof.
  eexists. split; [reflexivity|]. split.
  - exact (proj1 (request_body_decoding
                    (H := sample_constants)
                    (sample_event "GET" true (Some (Some [97; 71; 107; 61]%N))))
                 _ eq_refl).
  - reflexivity.
Defined.

(** C10: an event whose method is spelt [spelling] and the same event with
    the upper-case spelling have the same outcome: both construct, with
    the same method, the member whose value is the upper-cased string, or
    both raise the same exception.  When the upper-cased string is not the
    value of a member, construction raises. *)
Theorem method_is_case_insensitive `{Constants} (event : LambdaEvent.t)
        (spelling : string) :
  LambdaEvent.httpMethod event = Some spelling ->
  match LambdaRequest.init event,
        LambdaRequest.init (with_httpMethod event (Text.upper spelling)) with
  | Ok request, Ok upper_request =>
    LambdaRequest.method request = LambdaRequest.method upper_request
    /\ HttpRequestMethod_by_value (Text.upper spelling)
       = Some (LambdaRequest.method request)
  | Raise e, Raise upper_e =>
    e = upper_e
  | _, _ => False
  end
  /\ (HttpRequestMethod_by_value (Text.upper spelling) = None ->
      exists e, LambdaRequest.init event = Raise e).
Proof.
  intros Hm. split.
  - unfold LambdaRequest.init.
    change (LambdaRequest.init_body (with_httpMethod event (Text.upper spelling)))
      with (LambdaRequest.init_body event).
    cbn [with_httpMethod LambdaEvent.httpMethod LambdaEvent.requestContext
         LambdaEvent.path LambdaEvent.multiValueQueryStringParameters
         LambdaEvent.multiValueHeaders].
    rewrite Hm. cbn [getitem].
    destruct (LambdaRequest.init_body event); cbn [rbind]; [|reflexivity].
    rewrite TextFacts.upper_idempotent.
    unfold enum_call.
    destruct (HttpRequestMethod_by_value (Text.upper spelling)) eqn:E;
      cbn [rbind]; [|reflexivity].
    repeat match goal with
           | |- context [rbind ?x _] =>
             destruct x; cbn [rbind]; [|reflexivity]
           end.
    now split.
  - intros Hnone. unfold LambdaRequest.init. rewrite Hm. cbn [getitem].
    destruct (LambdaRequest.init_body event); cbn [rbind]; [|eauto].
    unfold enum_call. rewrite Hnone. cbn [rbind]. eauto.
Qed.

(** C10, an instance: "get" constructs, with the method of "GET". *)
Lemma method_is_case_insensitive_witness :
  match LambdaRequest.init (C := sample_constants)
                           (sample_event "get" false (Some None)),
        LambdaRequest.init (C := sample_constants)
                           (sample_event "GET" false (Some None)) with
  | Ok request, Ok upper_request =>
    LambdaRequest.method request = GET
    /\ LambdaRequest.method upper_request = GET
  | _, _ => False
  end.
Proof.
  pose proof (proj1 (method_is_case_insensitive
                       (H := sample_constants)
                       (sample_event "get" false (Some None)) eq_refl)) as P.
  cbv in P. cbv. destruct P as [_ P]. split; congruence.
Defined.

(** The upper case is the one of Unicode: the long s of "poſt" has the
    upper case "S", and the event constructs with the method of "POST";
    a mapping may have more than one letter. *)
Example method_with_long_s :
  Text.upper "poſt" = "POST"
  /\ exists request,
      LambdaRequest.init (C := sample_constants)
                         (sample_event "poſt" false (Some None))
      = Ok request
      /\ LambdaRequest.method request = POST.
Proof.
  split; [vm_compute; reflexivity|].
  eexists. split; vm_compute; reflexivity.
Qed.

Example upper_sharp_s : Text.upper "straße" = "STRASSE".
Proof. vm_compute. reflexivity. Qed.

(** ** Dispatch *)

(** C8: a constructed request whose path the router does not resolve.  The
    default handler runs, its [HttpError(NOT_FOUND)] becomes the response:
    the translated envelope has status 404, no header and an empty body,
    and what the handlers act upon is as it was. *)
Theorem no_match_gives_not_found `{Constants} (Env : Type)
        (Request_path : LambdaRequest.t -> string)
        (RequestHandler_after_before : stateful (Web.state Env) unit)
        (app : Web.Application Env) (event : LambdaEvent.t)
        (request : LambdaRequest.t) (env : Env) :
  LambdaRequest.init event = Ok request ->
  Web.handlers app (Request_path request) = None ->
  Web.process_lambda_request Request_path RequestHandler_after_before
                             app event env
  = (LambdaRequest.Ready
       (Ok {| LambdaOutput.isBase64Encoded := false;
              LambdaOutput.statusCode := 404%Z;
              LambdaOutput.multiValueHeaders := [];
              LambdaOutput.body := [] |}),
     env).
Proof.
  intros Hinit Hnone.
  destruct (RequestFacts.init_fields _ Hinit) as (_ & Hpending & _).
  unfold Web.process_lambda_request. rewrite Hinit.
  unfold Web.process_request. cbn [fst LambdaRequest.request].
  rewrite Hnone.
  unfold Web._process_request, Web.DefaultHandler. cbn [Web.before].
  unfold Web.minimal_response, Web.lift_world, LambdaRequest.write_response.
  cbn [fst snd LambdaRequest.request LambdaRequest.responses].
  rewrite Hpending. reflexivity.
Qed.

(** C8, an instance: an application without routes and the example event
    of the spec. *)
Lemma no_match_gives_not_found_witness :
  Web.process_lambda_request
    (C := sample_constants) LambdaRequest.uri (fun s => (Ok tt, s))
    {| Web.handlers := fun _ => None |}
    (sample_event "GET" false (Some None)) tt
  = (LambdaRequest.Ready
       (Ok {| LambdaOutput.isBase64Encoded := false;
              LambdaOutput.statusCode := 404%Z;
              LambdaOutput.multiValueHeaders := [];
              LambdaOutput.body := [] |}),
     tt).
Proof.
  eapply (no_match_gives_not_found (H := sample_constants)).
  - reflexivity.
  - reflexivity.
Defined.

(** C1, an instance: two tasks call [write_response] on the request of the
    example event, with a write and a finish in between. *)
Lemma write_response_exactly_once_witness :
  let schedule :=
    [Schedule.WriteResponse 200%Z None;
     Schedule.Write 0%nat [x68; x69];
     Schedule.WriteResponse 500%Z None;
     Schedule.Finish 0%nat;
     Schedule.WriteResponse 200%Z None] in
  exists request,
    LambdaRequest.init (C := sample_constants)
                       (sample_event "GET" false (Some None))
    = Ok request
    /\ fst (Schedule.run schedule (Schedule.fresh request))
       = [Ok 0%nat; Raise write_once_error; Raise write_once_error]
    /\ exactly_once schedule
                    (fst (Schedule.run schedule (Schedule.fresh request)))
                    (snd (Schedule.run schedule (Schedule.fresh request))).
Proof.
  intros schedule. eexists. split; [reflexivity|]. split; [reflexivity|].
  exact (proj1 (write_response_exactly_once
                  (H := sample_constants)
                  (sample_event "GET" false (Some None)) schedule eq_refl)).
Defined.

(** C4, an instance: the example of the spec. *)
Lemma flatten_then_group_witness :
  let m : Dict.t (list string) := [("Set-Cookie", ["a=1"; "b=2"])] in
  Magicdict.get_all (Magicdict.construct (LambdaRequest.flatten m))
                    "set-cookie"
  = ["a=1"; "b=2"].
Proof.
  intros m.
  refine (proj1 (proj2 (flatten_then_group m 200%Z []))
                "Set-Cookie" ["a=1"; "b=2"] "set-cookie" _ _ eq_refl eq_refl).
  - repeat constructor. intros [].
  - intros k [<-|[]] _. reflexivity.
Defined.

(** C7, an instance: a handler sets Content-Length and Content-Type. *)
Lemma content_length_is_dropped_witness :
  exists out,
    LambdaResponse.translate
      {| LambdaResponse._status_code := 200%Z;
         LambdaResponse._headers :=
           Magicdict.construct
             [("Content-Length", "2"); ("Content-Type", "text/plain")];
         LambdaResponse._body_chunks := [[x68; x69]];
         LambdaResponse._finished := true |}
    = Ok out
    /\ Dict.keys (LambdaOutput.multiValueHeaders out) = ["content-type"].
Proof.
  destruct (content_length_is_dropped
              200%Z
              [("Content-Length", "2"); ("Content-Type", "text/plain")]
              [[x68; x69]]) as (out & Hout & _).
  exists out. split; [exact Hout|].
  cbv in Hout. injection Hout as <-. reflexivity.
Defined.

(** ** The calendar *)

Module CalendarFacts.

Import Datetime.
Local Open Scope Z_scope.

(** Every day of a common year and of a leap year, by computation. *)
Lemma month_day_checked :
  forallb (fun k => month_day_ok true (Z.of_nat k)) (seq 0 366)
  && forallb (fun k => month_day_ok false (Z.of_nat k)) (seq 0 365) = true.
Proof. vm_compute. reflexivity. Qed.

(** [_ord2ymd] with its divisions named. *)
Lemma ord2ymd_unfold (n : Z) :
  _ord2ymd n =
  let n0 := n - 1 in
  let n400 := n0 / 146097 in
  let r400 := n0 mod 146097 in
  let n100 := r400 / 36524 in
  let r100 := r400 mod 36524 in
  let n4 := r100 / 1461 in
  let r4 := r100 mod 1461 in
  let n1 := r4 / 365 in
  let doy := r4 mod 365 in
  let year := n400 * 400 + 1 + (n100 * 100 + n4 * 4 + n1) in
  if (n1 =? 4) || (n100 =? 4) then (year - 1, 12, 31)
  else
    let (m, d) := month_day ((n1 =? 3) && (negb (n4 =? 24) || (n100 =? 3))) doy in
    (year, m, d).
Proof.
  unfold _ord2ymd, month_day, _DI400Y, _DI100Y, _DI4Y. cbv zeta.
  destruct ((_ =? 4) || (_ =? 4)); [reflexivity|].
  match goal with |- (if ?c then _ else _) = _ => destruct c end; reflexivity.
Qed.

(** The days before a year, by 400-, 100-, 4- and 1-year cycles. *)
Lemma days_before_year_split (n400 n100 n4 n1 : Z) :
  0 <= n100 <= 3 -> 0 <= n4 <= 24 -> 0 <= n1 <= 3 ->
  _days_before_year (n400 * 400 + 1 + (n100 * 100 + n4 * 4 + n1))
  = n400 * 146097 + n100 * 36524 + n4 * 1461 + n1 * 365.
Proof. intros. unfold _days_before_year. cbv zeta. lia. Qed.

(** The leap-year test of [_ord2ymd] agrees with [_is_leap]. *)
Lemma is_leap_split (n400 n100 n4 n1 : Z) :
  0 <= n100 <= 3 -> 0 <= n4 <= 24 -> 0 <= n1 <= 3 ->
  _is_leap (n400 * 400 + 1 + (n100 * 100 + n4 * 4 + n1))
  = (n1 =? 3) && (negb (n4 =? 24) || (n100 =? 3)).
Proof.
  intros. unfold _is_leap.
  repeat match goal with
         | |- context [?a =? ?b] => destruct (Z.eqb_spec a b)
         end; cbn; try reflexivity; exfalso; lia.
Qed.

Lemma month_day_spec (leap : bool) (doy : Z) :
  0 <= doy < (if leap then 366 else 365) ->
  month_day_ok leap doy = true.
Proof.
  intros Hd. pose proof month_day_checked as Hc.
  apply andb_true_iff in Hc as [Ht Hf].
  rewrite forallb_forall in Ht, Hf.
  rewrite <- (Z2Nat.id doy) by lia.
  destruct leap; [apply Ht | apply Hf]; apply in_seq; lia.
Qed.

(** An ordinal, turned into a date, counts back to the same ordinal; the
    date is in range when the ordinal is. *)
Lemma ymd2ord_ord2ymd (n : Z) :
  let '(y, m, d) := _ord2ymd n in
  _ymd2ord y m d = n /\ 1 <= m <= 12 /\ 1 <= d <= 31
  /\ (1 <= n <= _MAXORDINAL -> 1 <= y <= 9999).
Proof.
  rewrite ord2ymd_unfold. cbv zeta.
  set (n0 := n - 1).
  pose proof (Z.div_mod n0 146097 ltac:(lia)) as E400.
  pose proof (Z.mod_pos_bound n0 146097 ltac:(lia)) as B400.
  set (n400 := n0 / 146097) in *. set (r400 := n0 mod 146097) in *.
  pose proof (Z.div_mod r400 36524 ltac:(lia)) as E100.
  pose proof (Z.mod_pos_bound r400 36524 ltac:(lia)) as B100.
  set (n100 := r400 / 36524) in *. set (r100 := r400 mod 36524) in *.
  pose proof (Z.div_mod r100 1461 ltac:(lia)) as E4.
  pose proof (Z.mod_pos_bound r100 1461 ltac:(lia)) as B4.
  set (n4 := r100 / 1461) in *. set (r4 := r100 mod 1461) in *.
  pose proof (Z.div_mod r4 365 ltac:(lia)) as E1.
  pose proof (Z.mod_pos_bound r4 365 ltac:(lia)) as B1.
  set (n1 := r4 / 365) in *. set (doy := r4 mod 365) in *.
  assert (0 <= n100 <= 4) as H100 by lia.
  assert (0 <= n4 <= 24) as H4 by lia.
  assert (0 <= n1 <= 4) as H1 by lia.
  clearbody n400 r400 n100 r100 n4 r4 n1 doy.
  unfold _MAXORDINAL.
  destruct (Z.eqb_spec n1 4) as [->|Hn1]; cbn [orb].
  - (* last day of a leap year that closes a 4-year cycle *)
    assert (n100 <= 3) by lia. assert (n4 <= 23) by lia.
    replace (n400 * 400 + 1 + (n100 * 100 + n4 * 4 + 4) - 1)
      with (n400 * 400 + 1 + (n100 * 100 + n4 * 4 + 3)) by lia.
    unfold _ymd2ord, _days_before_month.
    rewrite days_before_year_split, is_leap_split by lia.
    destruct (Z.eqb_spec n4 24); [lia|].
    change (item _DAYS_BEFORE_MONTH 12) with 334.
    cbn. unfold n0 in *. lia.
  - destruct (Z.eqb_spec n100 4) as [->|Hn100].
    + (* last day of a 400-year cycle *)
      assert (n4 = 0 /\ n1 = 0) as [-> ->] by lia.
      replace (n400 * 400 + 1 + (4 * 100 + 0 * 4 + 0) - 1)
        with ((n400 + 1) * 400 + 1 + (-1)) by lia.
      replace ((n400 + 1) * 400 + 1 + (-1))
        with (n400 * 400 + 1 + (3 * 100 + 24 * 4 + 3)) by lia.
      unfold _ymd2ord, _days_before_month.
      rewrite days_before_year_split, is_leap_split by lia.
      change (item _DAYS_BEFORE_MONTH 12) with 334.
      cbn. unfold n0 in *. lia.
    + assert (n100 <= 3) by lia. assert (n1 <= 3) by lia.
      set (leap := (n1 =? 3) && (negb (n4 =? 24) || (n100 =? 3))).
      assert (0 <= doy < (if leap then 366 else 365)) as Hdoy
          by (destruct leap; lia).
      pose proof (@month_day_spec leap doy Hdoy) as Hmd.
      unfold month_day_ok in Hmd.
      destruct (month_day leap doy) as [m d].
      rewrite !andb_true_iff, !Z.leb_le, Z.eqb_eq in Hmd.
      destruct Hmd as ((((Hm1 & Hm2) & Hd1) & Hd2) & Hsum).
      unfold _ymd2ord, _days_before_month.
      rewrite days_before_year_split, is_leap_split by lia.
      fold leap. unfold n0 in *.
      repeat split; lia.
Qed.

Lemma of_microseconds_spec (total : Z) (tz : option Z) :
  of_microseconds total tz
  = if (0 <? total / 86400000000) && (total / 86400000000 <=? _MAXORDINAL)
    then
      let '(y, m, d) := _ord2ymd (total / 86400000000) in
      let secs := (total mod 86400000000) / 1000000 in
      Some {| year := y; month := m; day := d;
              hour := secs / 3600; minute := (secs mod 3600) / 60;
              second := secs mod 60;
              microsecond := (total mod 86400000000) mod 1000000;
              utcoffset := tz |}
    else None.
Proof. reflexivity. Qed.

(** The datetime at a count of microseconds counts back to it, and its
    date is one [calendar.timegm] accepts. *)
Lemma microseconds_of_of_microseconds (total : Z) (tz : option Z)
      (dt : datetime) :
  of_microseconds total tz = Some dt ->
  microseconds_of dt = total
  /\ 1 <= year dt <= 9999 /\ 1 <= month dt <= 12
  /\ 0 <= microsecond dt < 1000000
  /\ utcoffset dt = tz.
Proof.
  rewrite of_microseconds_spec.
  destruct (_ && _) eqn:Hrange; [|discriminate].
  apply andb_true_iff in Hrange as [Hlo Hhi].
  apply Z.ltb_lt in Hlo. apply Z.leb_le in Hhi.
  pose proof (ymd2ord_ord2ymd (total / 86400000000)) as Hord.
  destruct (_ord2ymd (total / 86400000000)) as [[y m] d].
  destruct Hord as (Hord & Hm & _ & Hy).
  intros [= <-]. unfold microseconds_of, toordinal.
  cbn [year month day hour minute second microsecond utcoffset].
  rewrite Hord. repeat split; lia.
Qed.

(** The fields do not depend on the zone the datetime is tagged with. *)
Lemma of_microseconds_zone (total : Z) (tz tz' : option Z) (dt : datetime) :
  of_microseconds total tz = Some dt ->
  exists dt',
    of_microseconds total tz' = Some dt'
    /\ year dt' = year dt /\ month dt' = month dt /\ day dt' = day dt
    /\ hour dt' = hour dt /\ minute dt' = minute dt
    /\ second dt' = second dt.
Proof.
  rewrite !of_microseconds_spec.
  destruct (_ && _); [|discriminate].
  destruct (_ord2ymd (total / 86400000000)) as [[y m] d].
  intros [= <-]. eexists. split; [reflexivity|]. cbn. tauto.
Qed.

Lemma of_microseconds_representable (secs : Z) (tz : option Z) :
  of_microseconds ((_EPOCH_ORD * 86400 + secs) * 1000000) tz = None
  <-> representable secs = false.
Proof.
  rewrite of_microseconds_spec. unfold representable, _EPOCH_ORD, _MAXORDINAL.
  destruct (_ord2ymd _) as [[y m] d].
  destruct ((0 <? _) && (_ <=? 3652059)) eqn:E1;
    destruct ((-62135596800 <=? secs) && (secs <=? 253402300799)) eqn:E2;
    split; try discriminate; try reflexivity; intros _; exfalso.
  - apply andb_true_iff in E1 as [H1 H2]. apply Z.ltb_lt in H1.
    apply Z.leb_le in H2. apply andb_false_iff in E2 as [H|H];
      [apply Z.leb_gt in H | apply Z.leb_gt in H]; lia.
  - apply andb_true_iff in E2 as [H1 H2]. apply Z.leb_le in H1.
    apply Z.leb_le in H2. apply andb_false_iff in E1 as [H|H];
      [apply Z.ltb_ge in H | apply Z.leb_gt in H]; lia.
Qed.

End CalendarFacts.

(** ** Dates that exist *)

Module CalendarInverse.

Import Datetime CalendarFacts.
Local Open Scope Z_scope.

Lemma month_day_in_month_checked :
  forallb (fun k => month_day_in_month true (Z.of_nat k)) (seq 0 366)
  && forallb (fun k => month_day_in_month false (Z.of_nat k)) (seq 0 365)
  = true.
Proof. vm_compute. reflexivity. Qed.

Lemma month_day_in_month_spec (leap : bool) (doy : Z) :
  0 <= doy < (if leap then 366 else 365) ->
  month_day_in_month leap doy = true.
Proof.
  intros Hd. pose proof month_day_in_month_checked as Hc.
  apply andb_true_iff in Hc as [Ht Hf].
  rewrite forallb_forall in Ht, Hf.
  rewrite <- (Z2Nat.id doy) by lia.
  destruct leap; [apply Ht | apply Hf]; apply in_seq; lia.
Qed.

(** The day [_ord2ymd] reports exists in the month it reports. *)
Lemma ord2ymd_in_month (n : Z) :
  let '(y, m, d) := _ord2ymd n in d <= _days_in_month y m.
Proof.
  rewrite ord2ymd_unfold. cbv zeta.
  set (n0 := n - 1).
  pose proof (Z.div_mod n0 146097 ltac:(lia)) as E400.
  pose proof (Z.mod_pos_bound n0 146097 ltac:(lia)) as B400.
  set (n400 := n0 / 146097) in *. set (r400 := n0 mod 146097) in *.
  pose proof (Z.div_mod r400 36524 ltac:(lia)) as E100.
  pose proof (Z.mod_pos_bound r400 36524 ltac:(lia)) as B100.
  set (n100 := r400 / 36524) in *. set (r100 := r400 mod 36524) in *.
  pose proof (Z.div_mod r100 1461 ltac:(lia)) as E4.
  pose proof (Z.mod_pos_bound r100 1461 ltac:(lia)) as B4.
  set (n4 := r100 / 1461) in *. set (r4 := r100 mod 1461) in *.
  pose proof (Z.div_mod r4 365 ltac:(lia)) as E1.
  pose proof (Z.mod_pos_bound r4 365 ltac:(lia)) as B1.
  set (n1 := r4 / 365) in *. set (doy := r4 mod 365) in *.
  assert (0 <= n100 <= 4) as H100 by lia.
  assert (0 <= n4 <= 24) as H4 by lia.
  assert (0 <= n1 <= 4) as H1 by lia.
  clearbody n400 r400 n100 r100 n4 r4 n1 doy.
  destruct ((n1 =? 4) || (n100 =? 4)) eqn:Elast.
  - unfold _days_in_month. change (12 =? 2) with false. cbn [andb].
    change (item _DAYS_IN_MONTH 12) with 31. lia.
  - apply orb_false_iff in Elast as [Hn1 Hn100].
    apply Z.eqb_neq in Hn1. apply Z.eqb_neq in Hn100.
    set (leap := (n1 =? 3) && (negb (n4 =? 24) || (n100 =? 3))).
    assert (0 <= doy < (if leap then 366 else 365)) as Hdoy
        by (destruct leap; lia).
    pose proof (@month_day_in_month_spec leap doy Hdoy) as Hmd.
    unfold month_day_in_month in Hmd.
    destruct (month_day leap doy) as [m d].
    apply Z.leb_le in Hmd.
    unfold _days_in_month. rewrite is_leap_split by lia. exact Hmd.
Qed.

(** A year has 365 days, a leap year 366. *)
Lemma days_before_next_year (y : Z) :
  _days_before_year (y + 1)
  = _days_before_year y + (if _is_leap y then 366 else 365).
Proof.
  unfold _days_before_year, _is_leap. cbv zeta.
  replace (y + 1 - 1) with y by lia.
  repeat match goal with
         | |- context [?a =? ?b] => destruct (Z.eqb_spec a b)
         end; cbn [andb orb negb]; lia.
Qed.

Lemma days_before_year_monotone (y y' : Z) :
  y <= y' -> _days_before_year y <= _days_before_year y'.
Proof. intros H. unfold _days_before_year. cbv zeta. lia. Qed.

Lemma month_cases (m : Z) :
  1 <= m <= 12 ->
  m = 1 \/ m = 2 \/ m = 3 \/ m = 4 \/ m = 5 \/ m = 6
  \/ m = 7 \/ m = 8 \/ m = 9 \/ m = 10 \/ m = 11 \/ m = 12.
Proof. lia. Qed.

Ltac each_month H :=
  apply month_cases in H;
  repeat (destruct H as [H|H]; [subst|]); subst.

Ltac tables :=
  repeat match goal with
         | |- context [item ?l ?m] =>
           let v := eval vm_compute in (item l m) in
           change (item l m) with v
         end;
  cbn [Z.eqb Z.ltb Z.compare Pos.compare Pos.compare_cont Pos.eqb
       andb orb negb].

(** The day of the year of a date that exists. *)
Lemma day_of_year_bounds (y m d : Z) :
  1 <= m <= 12 -> 1 <= d <= _days_in_month y m ->
  1 <= _days_before_month y m + d <= (if _is_leap y then 366 else 365).
Proof.
  intros Hm. unfold _days_in_month, _days_before_month.
  destruct (_is_leap y); each_month Hm; tables; lia.
Qed.

(** Two dates of one year on the same day of the year are the same. *)
Lemma day_of_year_injective (y m d m' d' : Z) :
  1 <= m <= 12 -> 1 <= d <= _days_in_month y m ->
  1 <= m' <= 12 -> 1 <= d' <= _days_in_month y m' ->
  _days_before_month y m + d = _days_before_month y m' + d' ->
  m = m' /\ d = d'.
Proof.
  intros Hm Hd Hm' Hd'. revert Hd Hd'.
  unfold _days_in_month, _days_before_month.
  destruct (_is_leap y); each_month Hm; each_month Hm'; tables; lia.
Qed.

(** A date that exists, turned into an ordinal, comes back as itself. *)
Lemma ord2ymd_ymd2ord (y m d : Z) :
  1 <= m <= 12 -> 1 <= d <= _days_in_month y m ->
  _ord2ymd (_ymd2ord y m d) = (y, m, d).
Proof.
  intros Hm Hd.
  pose proof (ymd2ord_ord2ymd (_ymd2ord y m d)) as Hback.
  pose proof (ord2ymd_in_month (_ymd2ord y m d)) as Hin.
  destruct (_ord2ymd (_ymd2ord y m d)) as [[y' m'] d'].
  destruct Hback as (Hord & Hm' & Hd' & _).
  assert (1 <= d' <= _days_in_month y' m') as Hd'' by lia.
  pose proof (@day_of_year_bounds y _ _ Hm Hd) as Hb.
  pose proof (@day_of_year_bounds y' _ _ Hm' Hd'') as Hb'.
  pose proof (days_before_next_year y) as Hn.
  pose proof (days_before_next_year y') as Hn'.
  unfold _ymd2ord in Hord.
  assert (y' = y) as ->.
  { destruct (Z.lt_trichotomy y y') as [Hlt|[Heq|Hgt]]; [|now subst|].
    - pose proof (@days_before_year_monotone (y + 1) y' ltac:(lia)).
      destruct (_is_leap y); lia.
    - pose proof (@days_before_year_monotone (y' + 1) y ltac:(lia)).
      destruct (_is_leap y'); lia. }
  destruct (@day_of_year_injective y m' d' m d Hm' Hd'' Hm Hd ltac:(lia))
    as [-> ->].
  reflexivity.
Qed.

Lemma ymd2ord_range (y m d : Z) :
  1 <= y <= 9999 -> 1 <= m <= 12 -> 1 <= d <= _days_in_month y m ->
  0 < _ymd2ord y m d <= _MAXORDINAL.
Proof.
  intros Hy Hm Hd.
  pose proof (@day_of_year_bounds y _ _ Hm Hd) as Hb.
  pose proof (days_before_next_year y) as Hn.
  pose proof (@days_before_year_monotone 1 y ltac:(lia)) as Hlo.
  pose proof (@days_before_year_monotone (y + 1) 10000 ltac:(lia)) as Hhi.
  change (_days_before_year 1) with 0 in Hlo.
  change (_days_before_year 10000) with 3652059 in Hhi.
  unfold _ymd2ord, _MAXORDINAL. destruct (_is_leap y); lia.
Qed.

(** The datetime at the microsecond count of a valid datetime is that
    datetime. *)
Lemma of_microseconds_microseconds_of (dt : datetime) :
  1 <= year dt <= 9999 -> 1 <= month dt <= 12 ->
  1 <= day dt <= _days_in_month (year dt) (month dt) ->
  valid_time (hour dt) (minute dt) (second dt) ->
  0 <= microsecond dt < 1000000 ->
  of_microseconds (microseconds_of dt) (utcoffset dt) = Some dt.
Proof.
  intros Hy Hm Hd (Hh & Hmi & Hs) Hus.
  pose proof (@ymd2ord_range _ _ _ Hy Hm Hd) as Hr.
  pose proof (@ord2ymd_ymd2ord _ _ _ Hm Hd) as Hback.
  rewrite of_microseconds_spec. unfold microseconds_of, toordinal.
  set (ord := _ymd2ord (year dt) (month dt) (day dt)) in *.
  clearbody ord.
  set (total := (((ord * 24 + hour dt) * 60 + minute dt) * 60 + second dt)
                * 1000000 + microsecond dt).
  assert (total / 86400000000 = ord) as -> by (unfold total; lia).
  assert (total mod 86400000000
          = (hour dt * 3600 + minute dt * 60 + second dt) * 1000000
            + microsecond dt) as -> by (unfold total; lia).
  destruct (Z.ltb_spec 0 ord); [|lia].
  destruct (Z.leb_spec ord _MAXORDINAL); [|lia].
  cbn [andb]. rewrite Hback.
  set (sod := hour dt * 3600 + minute dt * 60 + second dt).
  assert ((sod * 1000000 + microsecond dt) / 1000000 = sod) as ->
      by (unfold sod; lia).
  assert ((sod * 1000000 + microsecond dt) mod 1000000 = microsecond dt)
    as -> by (unfold sod; lia).
  assert (sod / 3600 = hour dt) as -> by (unfold sod; lia).
  assert (sod mod 3600 / 60 = minute dt) as -> by (unfold sod; lia).
  assert (sod mod 60 = second dt) as -> by (unfold sod; lia).
  now destruct dt.
Qed.

End CalendarInverse.

(** ** Epoch seconds *)

Module TimestampFacts.

Import Datetime CalendarFacts CalendarInverse.
Local Open Scope Z_scope.

(** The year [_ord2ymd] reports is the one the day lies in. *)
Lemma ord2ymd_year (n : Z) :
  let '(y, m, d) := _ord2ymd n in
  _days_before_year y < n <= _days_before_year (y + 1).
Proof.
  pose proof (ymd2ord_ord2ymd n) as H.
  pose proof (ord2ymd_in_month n) as Hin.
  destruct (_ord2ymd n) as [[y m] d].
  destruct H as (Hord & Hm & Hd & _).
  pose proof (@day_of_year_bounds y m d Hm ltac:(lia)) as Hb.
  rewrite days_before_next_year. unfold _ymd2ord in Hord.
  destruct (_is_leap y); lia.
Qed.

Lemma ord2ymd_year_le (n limit : Z) :
  fst (fst (_ord2ymd n)) <= limit <-> n <= _days_before_year (limit + 1).
Proof.
  pose proof (ord2ymd_year n) as H.
  destruct (_ord2ymd n) as [[y m] d]. cbn [fst].
  split; intros Hle.
  - pose proof (@days_before_year_monotone (y + 1) (limit + 1) ltac:(lia)).
    lia.
  - destruct (Z.le_gt_cases y limit) as [|Hgt]; [assumption|].
    pose proof (@days_before_year_monotone (limit + 1) y ltac:(lia)).
    lia.
Qed.

Lemma year_of_representable (secs : Z) :
  representable secs = true <-> 1 <= year_of secs <= 9999.
Proof.
  unfold representable, year_of.
  pose proof (ord2ymd_year_le (_EPOCH_ORD + secs / 86400) 9999) as Hhi.
  pose proof (ord2ymd_year_le (_EPOCH_ORD + secs / 86400) 0) as Hlo.
  change (_days_before_year (9999 + 1)) with 3652059 in Hhi.
  change (_days_before_year (0 + 1)) with 0 in Hlo.
  unfold _EPOCH_ORD in *.
  rewrite andb_true_iff, !Z.leb_le. lia.
Qed.

Lemma year_of_in_tm_range (secs : Z) :
  in_tm_range secs = true
  <-> INT_MIN <= year_of secs - 1900 <= INT_MAX.
Proof.
  unfold in_tm_range, year_of, INT_MIN, INT_MAX.
  pose proof (ord2ymd_year_le (_EPOCH_ORD + secs / 86400) 2147485547) as Hhi.
  pose proof (ord2ymd_year_le (_EPOCH_ORD + secs / 86400) (-2147481749)) as Hlo.
  replace (_days_before_year (2147485547 + 1)) with 784352989899
    in Hhi by (vm_compute; reflexivity).
  replace (_days_before_year (-2147481749 + 1)) with (-784351602710)
    in Hlo by (vm_compute; reflexivity).
  unfold _EPOCH_ORD in *.
  rewrite andb_true_iff, !Z.leb_le. lia.
Qed.

Lemma c_int_small (n : Z) : INT_MIN <= n <= INT_MAX -> c_int n = n.
Proof. unfold c_int, INT_MIN, INT_MAX. intros H. lia. Qed.

Lemma c_int_out_of_range (n : Z) :
  INT_MIN <= n - 1900 <= INT_MAX -> ~ 1 <= n <= 9999 ->
  ~ 1 <= c_int n <= 9999.
Proof. unfold c_int, INT_MIN, INT_MAX. intros H. lia. Qed.

(** What [gmtime_r] reports. *)
Lemma gmtime_r_spec (timet : Z) :
  gmtime_r timet
  = if in_tm_range timet then
      let '(y, m, d) := _ord2ymd (_EPOCH_ORD + timet / 86400) in
      let rem := timet mod 86400 in
      Some {| tm_sec := rem mod 60;
              tm_min := (rem mod 3600) / 60;
              tm_hour := rem / 3600;
              tm_mday := d;
              tm_mon := m - 1;
              tm_year := y - 1900;
              tm_wday := (4 + timet / 86400) mod 7;
              tm_yday := _days_before_month y m + d - 1 |}
    else None.
Proof.
  unfold gmtime_r. cbv zeta.
  pose proof (year_of_in_tm_range timet) as Hb. unfold year_of in Hb.
  destruct (_ord2ymd (_EPOCH_ORD + timet / 86400)) as [[y m] d].
  cbn [fst] in Hb.
  destruct (in_tm_range timet).
  - destruct (proj1 Hb eq_refl) as [H1 H2].
    apply Z.leb_le in H1, H2. now rewrite H1, H2.
  - destruct ((INT_MIN <=? y - 1900) && (y - 1900 <=? INT_MAX)) eqn:E;
      [|reflexivity].
    apply andb_true_iff in E as [H1 H2]. apply Z.leb_le in H1, H2.
    assert (false = true) by (apply Hb; lia). discriminate.
Qed.

Lemma representable_in_tm_range (secs : Z) :
  representable secs = true -> in_tm_range secs = true.
Proof.
  unfold representable, in_tm_range.
  rewrite !andb_true_iff, !Z.leb_le. lia.
Qed.

Lemma check_date_args_ok (y m d : Z) :
  1 <= y <= 9999 -> 1 <= m <= 12 -> 1 <= d <= _days_in_month y m ->
  check_date_args y m d = Ok tt.
Proof.
  intros Hy Hm Hd. unfold check_date_args, MINYEAR, MAXYEAR.
  destruct (Z.ltb_spec y 1); [lia|]. destruct (Z.ltb_spec 9999 y); [lia|].
  destruct (Z.ltb_spec m 1); [lia|]. destruct (Z.ltb_spec 12 m); [lia|].
  destruct (Z.ltb_spec d 1); [lia|].
  destruct (Z.ltb_spec (_days_in_month y m) d); [lia|]. reflexivity.
Qed.

Lemma check_date_args_year (y m d : Z) :
  ~ 1 <= y <= 9999 ->
  check_date_args y m d
  = Raise (ValueError ("year " ++ decimal y ++ " is out of range")).
Proof.
  intros Hy. unfold check_date_args, MINYEAR, MAXYEAR.
  destruct (Z.ltb_spec y 1); [reflexivity|].
  destruct (Z.ltb_spec 9999 y); [reflexivity|]. lia.
Qed.

Lemma check_time_args_ok (hh mm ss us : Z) :
  0 <= hh < 24 -> 0 <= mm < 60 -> 0 <= ss < 60 -> 0 <= us < 1000000 ->
  check_time_args hh mm ss us = Ok tt.
Proof.
  intros. unfold check_time_args.
  destruct (Z.ltb_spec hh 0); [lia|]. destruct (Z.ltb_spec 23 hh); [lia|].
  destruct (Z.ltb_spec mm 0); [lia|]. destruct (Z.ltb_spec 59 mm); [lia|].
  destruct (Z.ltb_spec ss 0); [lia|]. destruct (Z.ltb_spec 59 ss); [lia|].
  destruct (Z.ltb_spec us 0); [lia|].
  destruct (Z.ltb_spec 999999 us); [lia|]. reflexivity.
Qed.

(** The datetime of a [time_t]: where [datetime] holds the UTC value it
    is the one counted in microseconds, moved into the zone; elsewhere
    the year is refused, or [gmtime_r] fails. *)
Lemma datetime_from_timet_spec (timet : Z) (tz : option Z) :
  datetime_from_timet timet tz
  = if representable timet then
      match of_microseconds
              ((_EPOCH_ORD * 86400 + timet) * 1000000
               + match tz with Some offset => offset | None => 0 end) tz
      with
      | Some dt => Ok dt
      | None => Raise (OverflowError "date value out of range")
      end
    else if in_tm_range timet then
      Raise (ValueError ("year " ++ decimal (c_int (year_of timet))
                         ++ " is out of range"))
    else Raise (OSError 75 "Value too large for defined data type").
Proof.
  unfold datetime_from_timet, _PyTime_gmtime. rewrite gmtime_r_spec.
  pose proof (year_of_representable timet) as Hrep.
  pose proof (year_of_in_tm_range timet) as Hbd.
  pose proof (representable_in_tm_range timet) as Himp.
  unfold year_of in *.
  pose proof (ymd2ord_ord2ymd (_EPOCH_ORD + timet / 86400)) as Hord.
  pose proof (ord2ymd_in_month (_EPOCH_ORD + timet / 86400)) as Hin.
  destruct (in_tm_range timet);
    [|destruct (representable timet);
      [now discriminate Himp | reflexivity]].
  destruct (_ord2ymd (_EPOCH_ORD + timet / 86400)) as [[y m] d] eqn:Eymd.
  cbn [fst] in *. cbv zeta. cbn [rbind tm_year tm_mon tm_mday tm_hour tm_min tm_sec].
  destruct Hord as (Hord & Hm & Hd & _).
  replace (y - 1900 + 1900) with y by lia.
  replace (m - 1 + 1) with m by lia.
  pose proof (Z.mod_pos_bound timet 86400 ltac:(lia)) as Hrem.
  set (rem := timet mod 86400) in *.
  destruct (representable timet).
  - destruct (proj1 Hrep eq_refl) as [Hy1 Hy2].
    rewrite c_int_small by (unfold INT_MIN, INT_MAX; lia).
    unfold new_datetime.
    rewrite check_date_args_ok by lia.
    rewrite check_time_args_ok by lia.
    cbn [rbind].
    assert (of_microseconds ((_EPOCH_ORD * 86400 + timet) * 1000000) tz
            = Some {| year := y; month := m; day := d;
                      hour := rem / 3600; minute := rem mod 3600 / 60;
                      second := Z.min 59 (rem mod 60); microsecond := 0;
                      utcoffset := tz |}) as Hutc.
    { rewrite of_microseconds_spec.
      assert ((_EPOCH_ORD * 86400 + timet) * 1000000 / 86400000000
              = _EPOCH_ORD + timet / 86400) as -> by (unfold _EPOCH_ORD; lia).
      assert (((_EPOCH_ORD * 86400 + timet) * 1000000) mod 86400000000
              = rem * 1000000) as -> by (unfold _EPOCH_ORD, rem; lia).
      rewrite Eymd.
      pose proof (proj1 (ord2ymd_year_le (_EPOCH_ORD + timet / 86400) 9999))
        as Hhi.
      pose proof (ord2ymd_year_le (_EPOCH_ORD + timet / 86400) 0) as Hlo.
      rewrite Eymd in Hhi, Hlo. cbn [fst] in Hhi, Hlo.
      change (_days_before_year (9999 + 1)) with 3652059 in Hhi.
      change (_days_before_year (0 + 1)) with 0 in Hlo.
      unfold _MAXORDINAL.
      destruct (Z.ltb_spec 0 (_EPOCH_ORD + timet / 86400)); [|lia].
      destruct (Z.leb_spec (_EPOCH_ORD + timet / 86400) 3652059); [|lia].
      cbn [andb]. cbv zeta.
      replace (rem * 1000000 / 1000000) with rem by lia.
      replace ((rem * 1000000) mod 1000000) with 0 by lia.
      do 2 f_equal; lia. }
    destruct tz as [offset|].
    + unfold add.
      destruct (@microseconds_of_of_microseconds _ _ _ Hutc) as (-> & _).
      reflexivity.
    + rewrite Z.add_0_r, Hutc. reflexivity.
  - assert (~ 1 <= y <= 9999) as Hy by (intros H; now apply Hrep in H).
    unfold new_datetime.
    rewrite check_date_args_year
      by (apply c_int_out_of_range; [apply Hbd; reflexivity | exact Hy]).
    reflexivity.
Qed.

Lemma in_tm_range_in_time_t_range (secs : Z) :
  in_tm_range secs = true -> in_time_t_range secs = true.
Proof.
  unfold in_tm_range, in_time_t_range.
  rewrite !andb_true_iff, !Z.leb_le. lia.
Qed.

Lemma AsTime_t_spec (secs : Z) :
  _PyLong_AsTime_t secs
  = if in_time_t_range secs then Ok secs
    else Raise (OverflowError "timestamp out of range for platform time_t").
Proof. reflexivity. Qed.

(** A datetime [fromtimestamp] returns is the one counted in
    microseconds, and its epoch second is one [datetime] holds. *)
Lemma fromtimestamp_ok (secs : Z) (tz : option Z) (dt : datetime) :
  fromtimestamp secs tz = Ok dt ->
  representable secs = true
  /\ of_microseconds
       ((_EPOCH_ORD * 86400 + secs) * 1000000
        + match tz with Some offset => offset | None => 0 end) tz
     = Some dt.
Proof.
  unfold fromtimestamp. rewrite AsTime_t_spec.
  destruct (in_time_t_range secs); cbn [rbind]; [|discriminate].
  rewrite datetime_from_timet_spec.
  destruct (representable secs);
    [|destruct (in_tm_range secs); discriminate].
  destruct (of_microseconds _ tz) as [dt'|]; [|discriminate].
  intros [= <-]. now split.
Qed.

Lemma representable_utc (secs : Z) (tz : option Z) :
  representable secs = true ->
  exists utc,
    of_microseconds ((_EPOCH_ORD * 86400 + secs) * 1000000) tz = Some utc.
Proof.
  intros Hr.
  destruct (of_microseconds _ tz) as [utc|] eqn:E; [eauto|].
  apply of_microseconds_representable in E. congruence.
Qed.

Lemma days_in_month_first (y m : Z) :
  1 <= m <= 12 -> 1 <= _days_in_month y m.
Proof.
  intros Hm. unfold _days_in_month.
  destruct (_is_leap y); each_month Hm; tables; lia.
Qed.

(** [calendar.timegm] on a year and a month that exist. *)
Lemma timegm_in_range (y m d hh mm ss : Z) (rest : list Z) :
  1 <= y <= 9999 -> 1 <= m <= 12 ->
  timegm (y :: m :: d :: hh :: mm :: ss :: rest)
  = Ok ((((_ymd2ord y m 1 - _EPOCH_ORD + d - 1) * 24 + hh) * 60 + mm) * 60
        + ss).
Proof.
  intros Hy Hm. unfold timegm. cbn [firstn]. unfold date_toordinal.
  assert (forall n, INT_MIN <= n <= INT_MAX -> as_int n = Ok n) as Hint.
  { intros n Hn. unfold as_int, INT_MIN, INT_MAX, LONG_MIN, LONG_MAX in *.
    destruct (Z.ltb_spec n (-9223372036854775808)); [lia|].
    destruct (Z.ltb_spec 9223372036854775807 n); [lia|].
    destruct (Z.ltb_spec 2147483647 n); [lia|].
    destruct (Z.ltb_spec n (-2147483648)); [lia|]. reflexivity. }
  rewrite !Hint by (unfold INT_MIN, INT_MAX; lia). cbn [rbind].
  rewrite check_date_args_ok;
    [reflexivity | lia | lia |].
  pose proof (@days_in_month_first y m Hm). lia.
Qed.

(** [calendar.timegm] undoes the breaking down of an epoch second. *)
Lemma timegm_struct_time (secs : Z) (tz : option Z) (dt : datetime) :
  of_microseconds ((_EPOCH_ORD * 86400 + secs) * 1000000) tz = Some dt ->
  timegm (struct_time_of dt) = Ok secs.
Proof.
  intros Hdt.
  destruct (@microseconds_of_of_microseconds _ _ _ Hdt)
    as (Hus & Hy & Hm & Hmicro & _).
  unfold struct_time_of, _build_struct_time.
  rewrite timegm_in_range by assumption. f_equal.
  unfold microseconds_of, toordinal, _ymd2ord in *. lia.
Qed.

Lemma gmtime_representable (secs : Z) :
  representable secs = true ->
  exists dt,
    of_microseconds ((_EPOCH_ORD * 86400 + secs) * 1000000) None = Some dt
    /\ gmtime secs = Ok (struct_time_of dt).
Proof.
  intros Hr.
  destruct (@representable_utc secs None Hr) as [dt Hdt].
  exists dt. split; [assumption|].
  unfold gmtime, _PyTime_gmtime. rewrite AsTime_t_spec.
  rewrite (in_tm_range_in_time_t_range _ (representable_in_tm_range _ Hr)).
  cbn [rbind]. rewrite gmtime_r_spec.
  rewrite (representable_in_tm_range _ Hr).
  rewrite of_microseconds_spec in Hdt.
  assert ((_EPOCH_ORD * 86400 + secs) * 1000000 / 86400000000
          = _EPOCH_ORD + secs / 86400) as E1 by (unfold _EPOCH_ORD; lia).
  assert (((_EPOCH_ORD * 86400 + secs) * 1000000) mod 86400000000
          = secs mod 86400 * 1000000) as E2 by (unfold _EPOCH_ORD; lia).
  rewrite E1, E2 in Hdt.
  pose proof (ymd2ord_ord2ymd (_EPOCH_ORD + secs / 86400)) as Hord.
  destruct (_ && _); [|discriminate].
  destruct (_ord2ymd (_EPOCH_ORD + secs / 86400)) as [[y m] d].
  destruct Hord as (Hord & _).
  injection Hdt as <-. cbv zeta. cbn [rbind].
  unfold struct_time_of, _build_struct_time.
  cbn [year month day hour minute second tm_year tm_mon tm_mday tm_hour
       tm_min tm_sec tm_wday tm_yday].
  rewrite Hord.
  pose proof (Z.mod_pos_bound secs 86400 ltac:(lia)) as Hrem.
  set (rem := secs mod 86400) in *.
  replace (rem * 1000000 / 1000000) with rem by lia.
  unfold _EPOCH_ORD.
  repeat (f_equal; try lia).
Qed.

(** Whatever the zone, [utctimetuple] of the datetime of an epoch second
    reports the UTC fields of that second. *)
Lemma utctimetuple_fromtimestamp (secs : Z) (tz : option Z) (dt : datetime) :
  fromtimestamp secs tz = Ok dt ->
  exists utc,
    of_microseconds ((_EPOCH_ORD * 86400 + secs) * 1000000) None = Some utc
    /\ utctimetuple dt = Ok (struct_time_of utc).
Proof.
  intros Hdt. apply fromtimestamp_ok in Hdt as [Hr Elocal].
  destruct (@representable_utc secs None Hr) as [utc Eutc].
  exists utc. split; [assumption|].
  destruct (@microseconds_of_of_microseconds _ _ _ Elocal)
    as (Hus & _ & _ & _ & Hzone).
  unfold utctimetuple. rewrite Hzone.
  destruct tz as [offset|].
  - destruct (Z.eqb_spec offset 0) as [->|Hne].
    + rewrite Z.add_0_r in Elocal.
      destruct (@of_microseconds_zone _ _ (Some 0) _ Eutc)
        as (dt' & Hdt' & Hf).
      assert (dt' = dt) as -> by congruence.
      cbn [rbind]. unfold struct_time_of.
      destruct Hf as (-> & -> & -> & -> & -> & ->). reflexivity.
    + unfold sub. rewrite Hus, Hzone.
      replace ((_EPOCH_ORD * 86400 + secs) * 1000000 + offset - offset)
        with ((_EPOCH_ORD * 86400 + secs) * 1000000) by lia.
      destruct (@of_microseconds_zone _ _ (Some offset) _ Eutc)
        as (dt' & -> & Hf).
      cbn [rbind]. unfold struct_time_of.
      destruct Hf as (-> & -> & -> & -> & -> & ->). reflexivity.
  - rewrite Z.add_0_r in Elocal.
    assert (utc = dt) as -> by congruence. reflexivity.
Qed.

Lemma datetime_from_timet_month (timet : Z) (tz : option Z) (dt : datetime) :
  datetime_from_timet timet tz = Ok dt -> 1 <= month dt <= 12.
Proof.
  rewrite datetime_from_timet_spec.
  destruct (representable timet);
    [|destruct (in_tm_range timet); discriminate].
  destruct (of_microseconds _ tz) as [dt'|] eqn:E; [|discriminate].
  intros [= <-].
  now destruct (@microseconds_of_of_microseconds _ _ _ E)
    as (_ & _ & Hm & _).
Qed.

Lemma ends_with_append (suffix a text : string) :
  ends_with suffix text -> ends_with suffix (a ++ text)%string.
Proof.
  intros [prefix ->]. exists (a ++ prefix)%string.
  induction a as [|c a IH]; [reflexivity|]. cbn. now rewrite IH.
Qed.

Lemma format_ends_with_GMT (dt : datetime) :
  ends_with "GMT" (Httputils._format_timetuple_and_zone dt "GMT").
Proof.
  unfold Httputils._format_timetuple_and_zone.
  repeat apply ends_with_append. now exists EmptyString.
Qed.

Section FormatTimestamp.

Variable float : Type.
Variable float_seconds : float -> result Z.
Variable now : float.

Lemma formatdate_ends_with_GMT (timeval : Httputils.number float)
      (text : string) :
  Httputils.formatdate float_seconds timeval = Ok text ->
  ends_with "GMT" text.
Proof.
  unfold Httputils.formatdate.
  destruct (Httputils._PyTime_ObjectToTimeval float_seconds timeval);
    cbn [rbind]; [|discriminate].
  destruct (datetime_from_timet a (Some 0)); cbn [rbind]; [|discriminate].
  intros [= <-]. apply format_ends_with_GMT.
Qed.

Lemma formatdate_int (secs : Z) :
  if representable secs then
    exists text,
      Httputils.formatdate float_seconds (Httputils.Int secs) = Ok text
  else if in_tm_range secs then
    Httputils.formatdate float_seconds (Httputils.Int secs)
    = Raise (ValueError ("year " ++ decimal (c_int (year_of secs))
                         ++ " is out of range"))
  else if in_time_t_range secs then
    Httputils.formatdate float_seconds (Httputils.Int secs)
    = Raise (OSError 75 "Value too large for defined data type")
  else
    Httputils.formatdate float_seconds (Httputils.Int secs)
    = Raise (OverflowError "timestamp out of range for platform time_t").
Proof.
  unfold Httputils.formatdate, Httputils._PyTime_ObjectToTimeval.
  rewrite AsTime_t_spec.
  pose proof (representable_in_tm_range secs) as H1.
  pose proof (in_tm_range_in_time_t_range secs) as H2.
  destruct (in_time_t_range secs); cbn [rbind].
  - rewrite datetime_from_timet_spec.
    destruct (representable secs) eqn:Hr.
    + destruct (@representable_utc secs (Some 0) Hr) as [utc Hutc].
      rewrite Z.add_0_r, Hutc. cbn [rbind]. eauto.
    + destruct (in_tm_range secs); reflexivity.
  - destruct (in_tm_range secs); [now discriminate H2|].
    destruct (representable secs); [now discriminate H1|]. reflexivity.
Qed.

Lemma formatdate_float (x : float) (secs : Z) :
  float_seconds x = Ok secs ->
  in_time_t_range secs = true ->
  Httputils.formatdate float_seconds (Httputils.Float x)
  = Httputils.formatdate float_seconds (Httputils.Int secs).
Proof.
  intros Hx Ht.
  unfold Httputils.formatdate, Httputils._PyTime_ObjectToTimeval.
  now rewrite Hx, AsTime_t_spec, Ht.
Qed.

Lemma formatdate_float_raises (x : float) (e : exception) :
  float_seconds x = Raise e ->
  Httputils.formatdate float_seconds (Httputils.Float x) = Raise e.
Proof.
  intros Hx.
  unfold Httputils.formatdate, Httputils._PyTime_ObjectToTimeval.
  now rewrite Hx.
Qed.

Lemma format_timestamp_same_instant (secs : Z) (tz : option Z)
      (tuple : list Z) (dt : datetime) :
  gmtime secs = Ok tuple ->
  fromtimestamp secs tz = Ok dt ->
  Httputils.format_timestamp float_seconds now (Httputils.PyTuple tuple)
  = Httputils.format_timestamp float_seconds now
                               (Httputils.PyNumber (Httputils.Int secs))
  /\ Httputils.format_timestamp float_seconds now (Httputils.PyDatetime dt)
     = Httputils.format_timestamp float_seconds now
                                  (Httputils.PyNumber (Httputils.Int secs)).
Proof.
  intros Hgm Hdt.
  destruct (@utctimetuple_fromtimestamp _ _ _ Hdt) as (utc & Hutc & Htuple).
  assert (tuple = struct_time_of utc) as ->.
  { apply fromtimestamp_ok in Hdt as [Hr _].
    destruct (@gmtime_representable secs Hr) as (utc' & Hutc' & Hgm').
    congruence. }
  unfold Httputils.format_timestamp.
  rewrite Htuple. cbn [rbind].
  rewrite (@timegm_struct_time _ _ _ Hutc). cbn [rbind]. now split.
Qed.

End FormatTimestamp.

End TimestampFacts.

(** ** Floats *)

Module PytimeFacts.

Import Datetime TimestampFacts.
Local Open Scope Z_scope.

Lemma as_time_t_in_range (n : Z) :
  in_time_t_range n = true -> Pytime.as_time_t n = Ok n.
Proof.
  unfold in_time_t_range, Pytime.as_time_t, LONG_MIN, LONG_MAX.
  intros H. apply andb_true_iff in H as [H1 H2].
  apply Z.leb_le in H1, H2.
  destruct (Z.leb_spec (-9223372036854775808) n); [|lia].
  destruct (Z.leb_spec n (9223372036854775807 + 1)); [|lia].
  destruct (Z.eqb_spec n (9223372036854775807 + 1)); [lia|]. reflexivity.
Qed.

Lemma as_time_t_ok (n secs : Z) :
  Pytime.as_time_t n = Ok secs -> in_time_t_range secs = true.
Proof.
  unfold in_time_t_range, Pytime.as_time_t, LONG_MIN, LONG_MAX.
  destruct (Z.leb_spec (-9223372036854775808) n); [|discriminate].
  destruct (Z.leb_spec n (9223372036854775807 + 1)); [|discriminate].
  cbn [andb].
  destruct (Z.eqb_spec n (9223372036854775807 + 1)); intros [= <-].
  - reflexivity.
  - apply andb_true_iff. rewrite !Z.leb_le. lia.
Qed.

(** The seconds of a float are in [time_t]. *)
Lemma seconds_in_time_t (d : Pytime.float) (secs : Z) :
  Pytime.seconds d = Ok secs -> in_time_t_range secs = true.
Proof.
  unfold Pytime.seconds, Pytime._PyTime_DoubleToDenominator.
  destruct d as [s|s| |s m e]; try discriminate.
  - intros [= <-]. reflexivity.
  - destruct (Pytime.modf s m e) as [intpart floatpart].
    set (r := Pytime._PyTime_RoundHalfEven _).
    destruct (1000000 <=? r); [|destruct (r <? 0)];
      match goal with
      | |- context [Pytime.as_time_t ?n] =>
        destruct (Pytime.as_time_t n) as [sec|] eqn:E;
          cbn [rbind fst]; [|discriminate];
          intros [= <-]; now apply as_time_t_ok in E
      end.
Qed.

(** The seconds of a finite float are its whole part or one of the two
    integers next to it. *)
Lemma seconds_near (d : Pytime.float) (whole : Z) :
  whole_part d = Some whole ->
  exists carry,
    -1 <= carry <= 1
    /\ Pytime.seconds d
       = (sec <- Pytime.as_time_t (whole + carry) ;; Ok sec)%py.
Proof.
  unfold whole_part, Pytime.seconds, Pytime._PyTime_DoubleToDenominator.
  destruct d as [s|s| |s m e]; try discriminate.
  - intros [= <-]. exists 0. split; [lia|]. reflexivity.
  - destruct (Pytime.modf s m e) as [intpart floatpart]. cbn [fst].
    intros [= <-].
    set (r := Pytime._PyTime_RoundHalfEven _).
    destruct (1000000 <=? r).
    + exists 1. split; [lia|].
      destruct (Pytime.as_time_t (intpart + 1)); reflexivity.
    + destruct (r <? 0).
      * exists (-1). split; [lia|].
        replace (intpart + -1) with (intpart - 1) by lia.
        destruct (Pytime.as_time_t (intpart - 1)); reflexivity.
      * exists 0. split; [lia|]. rewrite Z.add_0_r.
        destruct (Pytime.as_time_t intpart); reflexivity.
Qed.

Lemma representable_between (lo hi n : Z) :
  representable lo = true -> representable hi = true -> lo <= n <= hi ->
  representable n = true.
Proof.
  unfold representable. rewrite !andb_true_iff, !Z.leb_le. lia.
Qed.

Section FormatTimestamp.

Variable now : Pytime.float.

Lemma format_float (x : Pytime.float) (secs : Z) :
  Pytime.seconds x = Ok secs ->
  Httputils.format_timestamp
    Pytime.seconds now (Httputils.PyNumber (Httputils.Float x))
  = Httputils.format_timestamp
      Pytime.seconds now (Httputils.PyNumber (Httputils.Int secs)).
Proof.
  intros Hx. apply formatdate_float; [assumption|].
  now apply seconds_in_time_t in Hx.
Qed.

Lemma format_float_in_range (x : Pytime.float) (whole : Z) :
  whole_part x = Some whole ->
  representable (whole - 1) = true ->
  representable (whole + 1) = true ->
  exists secs text,
    Pytime.seconds x = Ok secs
    /\ whole - 1 <= secs <= whole + 1
    /\ Httputils.format_timestamp
         Pytime.seconds now (Httputils.PyNumber (Httputils.Float x))
       = Ok text.
Proof.
  intros Hw Hlo Hhi.
  destruct (@seconds_near x whole Hw) as (carry & Hc & Hs).
  assert (representable (whole + carry) = true) as Hr
      by (apply (@representable_between _ _ (whole + carry) Hlo Hhi); lia).
  rewrite as_time_t_in_range in Hs
    by (apply in_tm_range_in_time_t_range, representable_in_tm_range, Hr).
  cbn [rbind] in Hs.
  pose proof (formatdate_int Pytime.seconds (whole + carry)) as Hint.
  rewrite Hr in Hint. destruct Hint as [text Hint].
  exists (whole + carry), text. split; [assumption|]. split; [lia|].
  rewrite (@format_float x _ Hs). exact Hint.
Qed.

End FormatTimestamp.

End PytimeFacts.

(** ** Timestamps *)

(** C9, as amended: [format_timestamp] takes [None] for the current time,
    a float, and raises [TypeError] for an argument that is neither
    [None], a number, a tuple or struct_time, nor a datetime.  Every
    string it returns ends in GMT.  For an integer epoch second that
    [datetime] can hold (years 1 to 9999) it returns a string.  For any
    other integer it raises: [ValueError], naming the year as the C
    [int] holds it, while the C library breaks the second down;
    [OSError] beyond that, while [time_t] holds the integer;
    [OverflowError] otherwise.  A float gives what the integer of its
    seconds gives, or raises what its conversion raises; the seconds
    are the integral part of the float or an integer next to it, so
    that a float gives a string when [datetime] can hold these three
    seconds; NaN raises [ValueError], an infinity [OverflowError].  An
    epoch second, [time.gmtime] of it and every [datetime.fromtimestamp]
    of it, naive or in any zone, give the same result. *)
Theorem format_timestamp_spec (now : Pytime.float) :
  let format_timestamp := Httputils.format_timestamp Pytime.seconds now in
  format_timestamp Httputils.PyNone
  = format_timestamp (Httputils.PyNumber (Httputils.Float now))
  /\ (forall s,
         format_timestamp (Httputils.PyOther s)
         = Raise (TypeError ("unknown timestamp type: " ++ s)%string))
  /\ (forall ts text, format_timestamp ts = Ok text -> ends_with "GMT" text)
  /\ (forall secs,
         let result :=
           format_timestamp (Httputils.PyNumber (Httputils.Int secs)) in
         if representable secs then exists text, result = Ok text
         else if in_tm_range secs then
           result
           = Raise (ValueError
                      ("year "
                       ++ Datetime.decimal (Datetime.c_int (year_of secs))
                       ++ " is out of range"))
         else if in_time_t_range secs then
           result = Raise (OSError 75 "Value too large for defined data type")
         else
           result
           = Raise (OverflowError
                      "timestamp out of range for platform time_t"))
  /\ (forall x secs,
         Pytime.seconds x = Ok secs ->
         format_timestamp (Httputils.PyNumber (Httputils.Float x))
         = format_timestamp (Httputils.PyNumber (Httputils.Int secs)))
  /\ (forall x e,
         Pytime.seconds x = Raise e ->
         format_timestamp (Httputils.PyNumber (Httputils.Float x)) = Raise e)
  /\ (forall x whole,
         whole_part x = Some whole ->
         representable (whole - 1)%Z = true ->
         representable (whole + 1)%Z = true ->
         exists secs text,
           Pytime.seconds x = Ok secs
           /\ (whole - 1 <= secs <= whole + 1)%Z
           /\ format_timestamp (Httputils.PyNumber (Httputils.Float x))
              = Ok text)
  /\ format_timestamp (Httputils.PyNumber (Httputils.Float S754_nan))
     = Raise (ValueError "Invalid value NaN (not a number)")
  /\ (forall s,
         format_timestamp
           (Httputils.PyNumber (Httputils.Float (S754_infinity s)))
         = Raise (OverflowError "timestamp out of range for platform time_t"))
  /\ (forall secs tz tuple dt,
         Datetime.gmtime secs = Ok tuple ->
         Datetime.fromtimestamp secs tz = Ok dt ->
         format_timestamp (Httputils.PyTuple tuple)
         = format_timestamp (Httputils.PyNumber (Httputils.Int secs))
         /\ format_timestamp (Httputils.PyDatetime dt)
            = format_timestamp (Httputils.PyNumber (Httputils.Int secs))).
Proof.
  intros format_timestamp. unfold format_timestamp.
  split; [reflexivity|]. split; [reflexivity|].
  split; [|split; [|split; [|split; [|split; [|split; [|split]]]]]].
  - intros ts text Hok.
    unfold Httputils.format_timestamp in Hok.
    destruct ts as [|n|items|dt|s]; cbn [rbind] in Hok.
    + now apply TimestampFacts.formatdate_ends_with_GMT in Hok.
    + now apply TimestampFacts.formatdate_ends_with_GMT in Hok.
    + destruct (Datetime.timegm items); cbn [rbind] in Hok;
        [|discriminate].
      now apply TimestampFacts.formatdate_ends_with_GMT in Hok.
    + destruct (Datetime.utctimetuple dt); cbn [rbind] in Hok;
        [|discriminate].
      destruct (Datetime.timegm a); cbn [rbind] in Hok; [|discriminate].
      now apply TimestampFacts.formatdate_ends_with_GMT in Hok.
    + discriminate.
  - intros secs. apply TimestampFacts.formatdate_int.
  - intros x secs. apply PytimeFacts.format_float.
  - intros x e Hx. apply TimestampFacts.formatdate_float_raises, Hx.
  - intros x whole. apply PytimeFacts.format_float_in_range.
  - reflexivity.
  - intros s. reflexivity.
  - intros secs tz tuple dt.
    apply TimestampFacts.format_timestamp_same_instant.
Qed.

(** C9, counterexample: [None] is not refused with a [TypeError] but
    formatted as the current time (here 1700000000.25), and the integer
    epoch second of 1 January 10000 is accepted by the type test and yet
    gives no date string. *)
Lemma format_timestamp_counterexample :
  let now := S754_finite false 7130316801048576 (-22) in
  Httputils.format_timestamp Pytime.seconds now Httputils.PyNone
  = Ok "Tue, 14 Nov 2023 22:13:20 GMT"
  /\ Httputils.format_timestamp
       Pytime.seconds now
       (Httputils.PyNumber (Httputils.Int 253402300800%Z))
     = Raise (ValueError "year 10000 is out of range").
Proof. split; vm_compute; reflexivity. Qed.

(** C9, an instance: 1700000000, its [gmtime], its datetime in the
    zone UTC+01:00 and the float 1700000000.75 all give
    "Tue, 14 Nov 2023 22:13:20 GMT". *)
Lemma format_timestamp_spec_witness :
  let now := S754_zero false in
  let local :=
    {| Datetime.year := 2023%Z; Datetime.month := 11%Z;
       Datetime.day := 14%Z; Datetime.hour := 23%Z;
       Datetime.minute := 13%Z; Datetime.second := 20%Z;
       Datetime.microsecond := 0%Z;
       Datetime.utcoffset := Some 3600000000%Z |} in
  Httputils.format_timestamp
    Pytime.seconds now (Httputils.PyNumber (Httputils.Int 1700000000%Z))
  = Ok "Tue, 14 Nov 2023 22:13:20 GMT"
  /\ Httputils.format_timestamp
       Pytime.seconds now
       (Httputils.PyTuple [2023; 11; 14; 22; 13; 20; 1; 318; 0]%Z)
     = Httputils.format_timestamp
         Pytime.seconds now (Httputils.PyNumber (Httputils.Int 1700000000%Z))
  /\ Httputils.format_timestamp
       Pytime.seconds now (Httputils.PyDatetime local)
     = Httputils.format_timestamp
         Pytime.seconds now (Httputils.PyNumber (Httputils.Int 1700000000%Z))
  /\ Httputils.format_timestamp
       Pytime.seconds now
       (Httputils.PyNumber
          (Httputils.Float (S754_finite false 7130316803145728 (-22))))
     = Httputils.format_timestamp
         Pytime.seconds now (Httputils.PyNumber (Httputils.Int 1700000000%Z)).
Proof.
  intros now local. split; [vm_compute; reflexivity|].
  pose proof (format_timestamp_spec now) as P. cbv zeta in P.
  destruct P as (_ & _ & _ & _ & Pfloat & _ & _ & _ & _ & Psame).
  destruct (Psame 1700000000%Z (Some 3600000000%Z)
                  [2023; 11; 14; 22; 13; 20; 1; 318; 0]%Z local)
    as [Ptuple Pdt]; [vm_compute; reflexivity | vm_compute; reflexivity |].
  split; [exact Ptuple|]. split; [exact Pdt|].
  apply Pfloat. vm_compute. reflexivity.
Defined.

(** The three exceptions of an integer no date string exists for, at
    their first epoch seconds. *)
Example format_timestamp_year_in_int :
  Httputils.format_timestamp
    Pytime.seconds (S754_zero false)
    (Httputils.PyNumber (Httputils.Int 67768036191676799))
  = Raise (ValueError "year -2147481749 is out of range").
Proof. vm_compute. reflexivity. Qed.

Example format_timestamp_beyond_tm :
  Httputils.format_timestamp
    Pytime.seconds (S754_zero false)
    (Httputils.PyNumber (Httputils.Int 67768036191676800))
  = Raise (OSError 75 "Value too large for defined data type").
Proof. vm_compute. reflexivity. Qed.

Example format_timestamp_beyond_time_t :
  Httputils.format_timestamp
    Pytime.seconds (S754_zero false)
    (Httputils.PyNumber (Httputils.Int 9223372036854775808))
  = Raise (OverflowError "timestamp out of range for platform time_t").
Proof. vm_compute. reflexivity. Qed.

(** * Further properties *)

(** ** The life of a response *)

Lemma run_calls_state (calls : list response_call) :
  forall self : LambdaResponse.t,
    run_calls calls self
    = {| LambdaResponse._status_code := LambdaResponse._status_code self;
         LambdaResponse._headers := LambdaResponse._headers self;
         LambdaResponse._body_chunks :=
           LambdaResponse._body_chunks self
           ++ filter LambdaResponse.nonempty (written calls);
         LambdaResponse._finished :=
           LambdaResponse._finished self || has_finish calls |}.
Proof.
  induction calls as [|[data|] rest IH]; intros self.
  - cbn. rewrite app_nil_r, orb_false_r. now destruct self.
  - cbn [run_calls written has_finish filter]. rewrite IH.
    unfold LambdaResponse.write.
    destruct (LambdaResponse.nonempty data); cbn; [|reflexivity].
    now rewrite <- app_assoc.
  - cbn [run_calls written has_finish]. rewrite IH. cbn.
    now rewrite orb_true_r.
Qed.

(** X1: the state of a response is a function of its history: after any
    sequence of [write] and [finish] calls on a new response, the status
    code and the headers are those it was created with, the stored chunks
    are the non-empty fragments written, in call order (no empty chunk is
    ever stored), and it is finished exactly when [finish] was called at
    least once. *)
Theorem response_state_after_calls (status_code : HttpStatusCode)
        (headers : Magicdict.FrozenTolerantMagicDict)
        (calls : list response_call) :
  run_calls calls (LambdaResponse.init status_code headers)
  = {| LambdaResponse._status_code := status_code;
       LambdaResponse._headers := headers;
       LambdaResponse._body_chunks :=
         filter LambdaResponse.nonempty (written calls);
       LambdaResponse._finished := has_finish calls |}.
Proof. now rewrite run_calls_state. Qed.

Lemma concat_nonempty (fragments : list bytes) :
  List.concat (filter LambdaResponse.nonempty fragments)
  = List.concat fragments.
Proof.
  induction fragments as [|[|b data] rest IH]; cbn; [reflexivity|assumption|].
  now rewrite IH.
Qed.

(** X2: [translate] does not show where one fragment ended and the next
    began: two histories on responses created alike, both with a [finish],
    whose fragments concatenate to the same octets, translate to the same
    envelope. *)
Theorem translate_ignores_chunking (status_code : HttpStatusCode)
        (headers : Magicdict.FrozenTolerantMagicDict)
        (calls calls' : list response_call) :
  has_finish calls = true ->
  has_finish calls' = true ->
  List.concat (written calls) = List.concat (written calls') ->
  LambdaResponse.translate
    (run_calls calls (LambdaResponse.init status_code headers))
  = LambdaResponse.translate
      (run_calls calls' (LambdaResponse.init status_code headers)).
Proof.
  intros Hf Hf' Hsame.
  rewrite !ResponseFacts.translate_finished
    by (rewrite response_state_after_calls; assumption).
  f_equal. unfold output_of. rewrite !response_state_after_calls.
  cbn [LambdaResponse._body_chunks LambdaResponse._status_code
       LambdaResponse._headers].
  now rewrite !concat_nonempty, Hsame.
Qed.

(** X2, an instance: "ab" then "c", or "a", nothing, then "bc" after the
    finish. *)
Lemma translate_ignores_chunking_witness :
  LambdaResponse.translate
    (run_calls [CallWrite [x61; x62]; CallWrite [x63]; CallFinish]
               (LambdaResponse.init 200%Z (Magicdict.construct [])))
  = LambdaResponse.translate
      (run_calls [CallWrite [x61]; CallWrite []; CallFinish;
                  CallWrite [x62; x63]]
                 (LambdaResponse.init 200%Z (Magicdict.construct []))).
Proof.
  apply translate_ignores_chunking; reflexivity.
Defined.

(** ** What the envelope lists *)

Module OutputFacts.

Import GroupingFacts.

Lemma without_permutation (k : string) (names : list string) :
  NoDup names -> In k names -> Permutation names (k :: without k names).
Proof.
  induction names as [|a names IH]; intros Hnd Hin; [contradiction|].
  inversion Hnd as [|? ? Ha Hnd']; subst.
  unfold without. cbn [filter].
  destruct (String.eqb_spec a k) as [->|Hne]; cbn [negb].
  - fold (without k names). now rewrite without_absent.
  - destruct Hin as [->|Hin]; [contradiction|].
    fold (without k names).
    eapply Permutation_trans;
      [apply perm_skip, (IH Hnd' Hin) | apply perm_swap].
Qed.

Lemma values_of_cons_other (n k v : string) (pairs : list (string * string)) :
  n <> k -> values_of n ((k, v) :: pairs) = values_of n pairs.
Proof.
  intros Hne. unfold values_of. cbn.
  destruct (String.eqb_spec k n); [congruence | reflexivity].
Qed.

Lemma values_of_cons_same (k v : string) (pairs : list (string * string)) :
  values_of k ((k, v) :: pairs) = v :: values_of k pairs.
Proof. unfold values_of. cbn. now rewrite String.eqb_refl. Qed.

(** The pairs of a grouping, name by name. *)
Lemma grouped_pairs_permutation (pairs : list (string * string)) :
  Permutation (pairs_of (grouped pairs)) pairs.
Proof.
  unfold pairs_of, grouped. rewrite flat_map_concat_map, map_map, <- flat_map_concat_map.
  cbn [fst snd].
  induction pairs as [|[k v] pairs IH]; [constructor|].
  cbn [map fst first_seen flat_map].
  fold (without k (first_seen (map fst pairs))).
  rewrite values_of_cons_same. cbn [map app]. constructor.
  eapply Permutation_trans; [|exact IH].
  assert (flat_map (fun n => map (pair n) (values_of n ((k, v) :: pairs)))
                   (without k (first_seen (map fst pairs)))
          = flat_map (fun n => map (pair n) (values_of n pairs))
                     (without k (first_seen (map fst pairs)))) as ->.
  { rewrite !flat_map_concat_map. f_equal. apply map_ext_in.
    intros n Hn. apply in_without in Hn as [_ Hn].
    now rewrite values_of_cons_other. }
  destruct (existsb (String.eqb k) (first_seen (map fst pairs))) eqn:E.
  - apply existsb_eqb_In in E. apply Permutation_sym.
    change (map (pair k) (values_of k pairs)
            ++ flat_map (fun n => map (pair n) (values_of n pairs))
                        (without k (first_seen (map fst pairs))))
      with (flat_map (fun n => map (pair n) (values_of n pairs))
                     (k :: without k (first_seen (map fst pairs)))).
    apply Permutation_flat_map.
    apply without_permutation; [apply NoDup_first_seen | assumption].
  - assert (~ In k (first_seen (map fst pairs))) as Hout.
    { intros H. apply existsb_eqb_In in H. congruence. }
    rewrite without_absent by assumption.
    rewrite values_of_absent by now rewrite <- in_first_seen.
    reflexivity.
Qed.

Lemma translate_ok (self : LambdaResponse.t) (out : LambdaOutput.t) :
  LambdaResponse.translate self = Ok out ->
  LambdaResponse.finished self = true /\ out = output_of self.
Proof.
  intros H. destruct (LambdaResponse.finished self) eqn:Hf.
  - rewrite (ResponseFacts.translate_finished _ Hf) in H.
    now injection H as <-.
  - unfold LambdaResponse.translate in H. rewrite Hf in H. discriminate.
Qed.

End OutputFacts.

(** X3: the header map of an envelope is well formed: its names are
    pairwise distinct, none of them is content-length, and no name has an
    empty list of values. *)
Theorem translated_headers_are_well_formed (self : LambdaResponse.t)
        (out : LambdaOutput.t) :
  LambdaResponse.translate self = Ok out ->
  NoDup (Dict.keys (LambdaOutput.multiValueHeaders out))
  /\ forall key values,
      In (key, values) (Dict.items (LambdaOutput.multiValueHeaders out)) ->
      key <> "content-length" /\ values <> [].
Proof.
  intros H. apply OutputFacts.translate_ok in H as [_ ->].
  unfold output_of. cbn [LambdaOutput.multiValueHeaders]. split.
  - rewrite HeaderFacts.keys_grouped. apply GroupingFacts.NoDup_first_seen.
  - intros key values Hin. unfold grouped, Dict.items in Hin.
    apply in_map_iff in Hin as (n & [= <- <-] & Hn).
    apply (proj1 (GroupingFacts.in_first_seen _ _)) in Hn.
    apply in_map_iff in Hn as ([k v] & <- & Hkv). cbn [fst].
    split.
    + apply filter_In in Hkv as [_ Hkeep].
      unfold not_content_length in Hkeep. cbn [fst] in Hkeep.
      apply negb_true_iff in Hkeep. now apply String.eqb_neq.
    + intros Hnil. apply (proj2 (HeaderFacts.in_values_of k v _)) in Hkv.
      rewrite Hnil in Hkv. contradiction.
Qed.

(** X4: translation neither loses nor repeats a header: the pairs listed
    by the envelope's header map are, up to their order, the header pairs
    of the response other than content-length. *)
Theorem translated_headers_lose_nothing (self : LambdaResponse.t)
        (out : LambdaOutput.t) :
  LambdaResponse.translate self = Ok out ->
  Permutation
    (pairs_of (LambdaOutput.multiValueHeaders out))
    (filter not_content_length
            (Magicdict.items (LambdaResponse.headers self))).
Proof.
  intros H. apply OutputFacts.translate_ok in H as [_ ->].
  unfold output_of. cbn [LambdaOutput.multiValueHeaders].
  apply OutputFacts.grouped_pairs_permutation.
Qed.


Module FinalFacts.

Import LambdaRequest RequestFacts OnceFacts.

Section WithConstants.

Context {C : Constants}.

Lemma call_lookup_same {A : Type} (a : address)
      (m : stateful LambdaResponse.t A) (w : world) :
  nth_error (responses (snd (call a m w))) a
  = option_map (fun r => snd (m r)) (nth_error (responses w) a).
Proof.
  unfold call. destruct (nth_error (responses w) a) as [r|] eqn:E.
  - destruct (m r) as [res r'] eqn:Em. cbn [snd responses option_map].
    rewrite (@store_at_same _ a r' r E). now rewrite Em.
  - cbn. now rewrite E.
Qed.

Lemma call_lookup_other {A : Type} (a a' : address)
      (m : stateful LambdaResponse.t A) (w : world) :
  a <> a' ->
  nth_error (responses (snd (call a m w))) a' = nth_error (responses w) a'.
Proof.
  intros Hne. unfold call. destruct (nth_error (responses w) a) as [r|].
  - destruct (m r) as [res r']. cbn [snd responses].
    now apply store_at_other.
  - reflexivity.
Qed.

Lemma get_final_response_ready (w : world) (a : address) :
  _get_final_response w = Ready a
  <-> _res_fur (request w) = Asyncio.Done a /\ finished_at w a = true.
Proof.
  unfold _get_final_response, finished_at.
  destruct (_res_fur (request w)) as [|a0]; [split; [discriminate|]|].
  - intros [H _]. discriminate.
  - destruct (nth_error (responses w) a0) as [r|] eqn:E.
    + destruct (LambdaResponse.finished r) eqn:Hf; split.
      * intros [= ->]. rewrite E. auto.
      * intros [[= ->] _]. reflexivity.
      * discriminate.
      * intros [[= <-] H]. rewrite E in H. congruence.
    + split; [discriminate|]. intros [[= <-] H]. rewrite E in H. discriminate.
Qed.

Lemma step_finished_at (op : Schedule.operation) (w : world) (a : address) :
  finished_at w a = true ->
  finished_at (snd (Schedule.run [op] w)) a = true.
Proof.
  unfold finished_at. intros H.
  destruct op as [sc hs|a' data|a']; cbn [Schedule.run snd].
  - unfold write_response.
    destruct (Asyncio.done (_res_fur (request w))); cbn [snd]; [assumption|].
    cbn [responses].
    destruct (nth_error (responses w) a) as [r|] eqn:E; [|discriminate].
    rewrite nth_error_app1 by (apply nth_error_Some; congruence).
    now rewrite E.
  - destruct (Nat.eq_dec a' a) as [->|Hne].
    + rewrite call_lookup_same.
      destruct (nth_error (responses w) a) as [r|]; [|discriminate].
      cbn [option_map]. unfold LambdaResponse.write.
      now destruct (LambdaResponse.nonempty data).
    + now rewrite call_lookup_other.
  - destruct (Nat.eq_dec a' a) as [->|Hne].
    + rewrite call_lookup_same.
      destruct (nth_error (responses w) a) as [r|]; [|discriminate].
      reflexivity.
    + now rewrite call_lookup_other.
Qed.

Lemma run_cons (op : Schedule.operation) (rest : list Schedule.operation)
      (w : world) :
  snd (Schedule.run (op :: rest) w)
  = snd (Schedule.run rest (snd (Schedule.run [op] w))).
Proof.
  destruct op as [sc hs|a' data|a']; cbn [Schedule.run].
  - destruct (write_response sc hs w) as [r w1]. cbn [snd].
    destruct (Schedule.run rest w1) as [results w2]. reflexivity.
  - reflexivity.
  - reflexivity.
Qed.

Lemma step_done (op : Schedule.operation) (w : world) (a : address) :
  _res_fur (request w) = Asyncio.Done a ->
  _res_fur (request (snd (Schedule.run [op] w))) = Asyncio.Done a.
Proof.
  intros H. destruct op as [sc hs|a' data|a']; cbn [Schedule.run snd].
  - now rewrite (@write_response_done _ sc hs w a H).
  - now rewrite call_request.
  - now rewrite call_request.
Qed.

Lemma step_unfinished_at (op : Schedule.operation) (w : world) (a : address) :
  is_finish a op = false ->
  finished_at w a = false ->
  finished_at (snd (Schedule.run [op] w)) a = false.
Proof.
  unfold finished_at. intros Hop H.
  destruct op as [sc hs|a' data|a']; cbn [Schedule.run snd].
  - unfold write_response.
    destruct (Asyncio.done (_res_fur (request w))); cbn [snd]; [assumption|].
    cbn [responses].
    destruct (Nat.lt_ge_cases a (List.length (responses w))) as [Hlt|Hge].
    + now rewrite nth_error_app1.
    + rewrite nth_error_app2 by assumption.
      destruct (a - List.length (responses w))%nat as [|[|n]]; reflexivity.
  - destruct (Nat.eq_dec a' a) as [->|Hne].
    + rewrite call_lookup_same.
      destruct (nth_error (responses w) a) as [r|]; [|reflexivity].
      cbn [option_map]. unfold LambdaResponse.write.
      now destruct (LambdaResponse.nonempty data).
    + now rewrite call_lookup_other.
  - cbn [is_finish] in Hop. apply Nat.eqb_neq in Hop.
    now rewrite call_lookup_other.
Qed.

Lemma run_unfinished_at (schedule : list Schedule.operation) (a : address) :
  forall w : world,
    existsb (is_finish a) schedule = false ->
    finished_at w a = false ->
    finished_at (snd (Schedule.run schedule w)) a = false.
Proof.
  induction schedule as [|op rest IH]; intros w Hs H; [exact H|].
  cbn [existsb] in Hs. apply orb_false_iff in Hs as [Hop Hrest].
  rewrite run_cons. apply IH; [assumption|].
  now apply step_unfinished_at.
Qed.

Lemma run_ready (schedule : list Schedule.operation) :
  forall (w : world) (a : address),
    _get_final_response w = Ready a ->
    _get_final_response (snd (Schedule.run schedule w)) = Ready a.
Proof.
  induction schedule as [|op rest IH]; intros w a H; [exact H|].
  rewrite run_cons. apply IH.
  apply get_final_response_ready in H as [Hd Hf].
  apply get_final_response_ready. split.
  - now apply step_done.
  - now apply step_finished_at.
Qed.

End WithConstants.

End FinalFacts.

(** X5: once the final response is there it stays: after
    [_get_final_response] has returned a response, no further call on the
    request or on any response changes what it returns. *)
Theorem final_response_is_stable `{Constants} (w : LambdaRequest.world)
        (a : LambdaRequest.address) (schedule : list Schedule.operation) :
  LambdaRequest._get_final_response w = LambdaRequest.Ready a ->
  LambdaRequest._get_final_response (snd (Schedule.run schedule w))
  = LambdaRequest.Ready a.
Proof. intros Hready. now apply FinalFacts.run_ready. Qed.

(** X6: nothing is final before it is begun and finished: on a
    constructed request, if [_get_final_response] returns a response after
    a schedule, then the schedule contains a [write_response] and a
    [finish] of that very response. *)
Theorem final_response_needs_finish `{Constants} (event : LambdaEvent.t)
        (request : LambdaRequest.t) (schedule : list Schedule.operation)
        (a : LambdaRequest.address) :
  LambdaRequest.init event = Ok request ->
  LambdaRequest._get_final_response
    (snd (Schedule.run schedule (Schedule.fresh request)))
  = LambdaRequest.Ready a ->
  Schedule.first_call schedule <> None
  /\ In (Schedule.Finish a) schedule.
Proof.
  intros Hinit Hready.
  apply FinalFacts.get_final_response_ready in Hready as [Hdone Hfin].
  destruct (RequestFacts.init_fields _ Hinit) as (_ & Hpending & _).
  split.
  - intros Hnone.
    pose proof (@OnceFacts.run_pending _ schedule (Schedule.fresh request)
                                       Hpending) as Honce.
    unfold exactly_once in Honce. rewrite Hnone in Honce.
    destruct (fst (Schedule.run schedule (Schedule.fresh request)));
      [congruence | contradiction].
  - destruct (existsb (is_finish a) schedule) eqn:E.
    + apply existsb_exists in E as (op & Hin & Hop).
      destruct op as [| |a']; try discriminate.
      cbn in Hop. apply Nat.eqb_eq in Hop. now subst.
    + rewrite (FinalFacts.run_unfinished_at schedule a _ E) in Hfin;
        [discriminate|].
      unfold finished_at. cbn. now destruct a.
Qed.

(** X7: the envelope reports the first call: on a constructed request, if
    waiting for the final response and translating it gives a result after
    a schedule, the result is an envelope, not an exception; its status
    code is the one of the first [write_response] call of the schedule and
    its headers are the grouping of that call's headers. *)
Theorem final_envelope_reports_first_call `{Constants}
        (event : LambdaEvent.t) (request : LambdaRequest.t)
        (schedule : list Schedule.operation) (res : result LambdaOutput.t) :
  LambdaRequest.init event = Ok request ->
  final_envelope (snd (Schedule.run schedule (Schedule.fresh request)))
  = LambdaRequest.Ready res ->
  exists status_code headers out,
    Schedule.first_call schedule = Some (status_code, headers)
    /\ res = Ok out
    /\ LambdaOutput.statusCode out = status_code
    /\ LambdaOutput.multiValueHeaders out
       = grouped
           (filter not_content_length
                   (Magicdict.items
                      (Magicdict.construct
                         (Dict.items match headers with
                                     | Some h => h
                                     | None => Dict.empty
                                     end)))).
Proof.
  intros Hinit Hres.
  destruct (RequestFacts.init_fields _ Hinit) as (_ & Hpending & _).
  pose proof (@OnceFacts.run_pending _ schedule (Schedule.fresh request)
                                     Hpending) as Honce.
  unfold final_envelope in Hres.
  destruct (LambdaRequest._get_final_response _) as [a|] eqn:Hready;
    [|discriminate].
  apply FinalFacts.get_final_response_ready in Hready as [Hdone Hfin].
  unfold exactly_once in Honce.
  destruct (Schedule.first_call schedule) as [[sc hs]|];
    destruct (fst (Schedule.run schedule (Schedule.fresh request)))
      as [|first later]; try contradiction; [|congruence].
  destruct Honce as (a0 & _ & Hdone0 & (r & Hr & Hsc & Hhs) & _).
  assert (a0 = a) as -> by congruence.
  rewrite Hr in Hres. injection Hres as <-.
  unfold finished_at in Hfin. rewrite Hr in Hfin.
  exists sc, hs, (output_of r).
  split; [reflexivity|]. split; [now apply ResponseFacts.translate_finished|].
  unfold output_of. cbn [LambdaOutput.statusCode LambdaOutput.multiValueHeaders].
  now rewrite Hsc, Hhs.
Qed.

Module InitFacts.

Import LambdaRequest.

Section WithConstants.

Context {C : Constants}.

(** Everything a successful construction says about the event and the
    request. *)
Lemma init_inversion (event : LambdaEvent.t) (request : t) :
  init event = Ok request ->
  exists flag b spelling context protocol m,
    LambdaEvent.isBase64Encoded event = Some flag
    /\ LambdaEvent.body event = Some b
    /\ LambdaEvent.httpMethod event = Some spelling
    /\ LambdaEvent.requestContext event = Some context
    /\ LambdaEvent.protocol context = Some protocol
    /\ LambdaEvent.multiValueHeaders event = Some m
    /\ HttpVersion_by_value protocol = Some (_version request)
    /\ _uri request = match LambdaEvent.path event with
                      | Some p => p
                      | None => "/"
                      end
    /\ _authority request = match LambdaEvent.domainName context with
                            | Some (Some d) => Some d
                            | _ => None
                            end
    /\ _queries request
       = Magicdict.construct
           (flatten
              match LambdaEvent.multiValueQueryStringParameters event with
              | Some (Some q) => q
              | _ => Dict.empty
              end)
    /\ _headers request = Magicdict.construct (flatten m)
    /\ let scheme_str :=
         Text.lower (Magicdict.get_first (Magicdict.construct (flatten m))
                                         "x-forwarded-proto" "") in
       if Text.truthy scheme_str
       then HttpScheme_by_value scheme_str = _scheme request
            /\ _scheme request <> None
       else _scheme request = None.
Proof.
  intros H. unfold init, init_body in H.
  destruct (LambdaEvent.isBase64Encoded event) as [flag|];
    [|discriminate H].
  cbn [getitem rbind] in H.
  destruct (LambdaEvent.body event) as [b|];
    [|destruct flag; cbn [getitem rbind] in H; discriminate H].
  cbn [getitem rbind] in H.
  match type of H with
  | rbind ?x _ = Ok _ => destruct x; cbn [rbind] in H; [|discriminate H]
  end.
  destruct (LambdaEvent.httpMethod event) as [spelling|];
    [|discriminate H].
  cbn [getitem rbind] in H.
  exists flag, b, spelling.
  match type of H with
  | rbind ?x _ = Ok _ => destruct x; cbn [rbind] in H; [|discriminate H]
  end.
  destruct (LambdaEvent.requestContext event) as [context|];
    [|discriminate H].
  cbn [getitem rbind] in H.
  destruct (LambdaEvent.protocol context) as [protocol|] eqn:Ep;
    [|discriminate H].
  cbn [getitem rbind] in H. unfold enum_call at 1 in H.
  destruct (HttpVersion_by_value protocol) as [v|] eqn:Ev;
    [|discriminate H].
  cbn [rbind] in H.
  destruct (LambdaEvent.multiValueHeaders event) as [m|]; [|discriminate H].
  cbn [getitem rbind] in H.
  exists context, protocol, m.
  destruct (Text.truthy _) eqn:Et.
  - unfold enum_call in H.
    destruct (HttpScheme_by_value _) as [s|] eqn:Es; [|discriminate H].
    cbn [rbind] in H. injection H as <-.
    cbn [_version _uri _authority _queries _headers _scheme].
    rewrite Et, Es. repeat split; try assumption. discriminate.
  - cbn [rbind] in H. injection H as <-.
    cbn [_version _uri _authority _queries _headers _scheme].
    rewrite Et. repeat split; assumption.
Qed.

End WithConstants.

End InitFacts.

(** X8: construction succeeds only on an event that carries the keys
    isBase64Encoded, body, httpMethod, multiValueHeaders and
    requestContext with its protocol; the protocol string, taken as it
    is, is the value of the version the request reports. *)
Theorem construction_needs_required_fields `{Constants}
        (event : LambdaEvent.t) (request : LambdaRequest.t) :
  LambdaRequest.init event = Ok request ->
  LambdaEvent.isBase64Encoded event <> None
  /\ LambdaEvent.body event <> None
  /\ LambdaEvent.httpMethod event <> None
  /\ LambdaEvent.multiValueHeaders event <> None
  /\ exists context protocol,
      LambdaEvent.requestContext event = Some context
      /\ LambdaEvent.protocol context = Some protocol
      /\ HttpVersion_by_value protocol
         = Some (LambdaRequest.version request).
Proof.
  intros Hinit.
  destruct (InitFacts.init_inversion _ Hinit)
    as (flag & b & spelling & context & protocol & m
        & -> & -> & -> & Hc & Hp & -> & Hv & _).
  repeat split; try discriminate.
  exists context, protocol. auto.
Qed.

Lemma get_all_empty (name : string) :
  Magicdict.get_all (Magicdict.construct []) name = [].
Proof. reflexivity. Qed.

(** X9: the optional keys of the event.  The URI is the path, or "/"
    when the key is missing; the queries are those of the parameter map,
    and there is none when the key is missing or null; [authority]
    returns the domain name, and raises [AttributeError] when the key is
    missing or null. *)
Theorem optional_fields_default `{Constants}
        (event : LambdaEvent.t) (request : LambdaRequest.t) :
  LambdaRequest.init event = Ok request ->
  LambdaRequest.uri request
  = match LambdaEvent.path event with
    | Some p => p
    | None => "/"
    end
  /\ (forall name,
         Magicdict.get_all (LambdaRequest.queries request) name
         = match LambdaEvent.multiValueQueryStringParameters event with
           | Some (Some q) => values_ignoring_case q name
           | _ => []
           end)
  /\ exists context,
      LambdaEvent.requestContext event = Some context
      /\ LambdaRequest.authority request
         = match LambdaEvent.domainName context with
           | Some (Some d) => Ok d
           | _ => Raise (AttributeError "Authority is not available.")
           end.
Proof.
  intros Hinit.
  destruct (InitFacts.init_inversion _ Hinit)
    as (flag & b & spelling & context & protocol & m
        & _ & _ & _ & Hc & _ & _ & _ & Huri & Hauth & Hq & _).
  split; [exact Huri|]. split.
  - intros name. unfold LambdaRequest.queries. rewrite Hq.
    destruct (LambdaEvent.multiValueQueryStringParameters event)
      as [[q|]|]; try reflexivity.
    apply HeaderFacts.get_all_flatten.
  - exists context. split; [exact Hc|].
    unfold LambdaRequest.authority. rewrite Hauth.
    now destruct (LambdaEvent.domainName context) as [[d|]|].
Qed.

Lemma truthy_lower (s : string) : Text.truthy (Text.lower s) = Text.truthy s.
Proof. now destruct s. Qed.

(** X10: the scheme of a constructed request comes from the first
    value of the x-forwarded-proto header, whatever the casing of the
    header's name and of the value: the lower-cased value is the value of
    a member, which [scheme] returns.  Without the header, or with an
    empty first value, [scheme] raises [AttributeError]. *)
Theorem scheme_from_forwarded_proto `{Constants}
        (event : LambdaEvent.t) (request : LambdaRequest.t) :
  LambdaRequest.init event = Ok request ->
  exists m,
    LambdaEvent.multiValueHeaders event = Some m
    /\ match values_ignoring_case m "x-forwarded-proto" with
       | v :: _ =>
         if Text.truthy v
         then exists s,
             HttpScheme_by_value (Text.lower v) = Some s
             /\ LambdaRequest.scheme request = Ok s
         else LambdaRequest.scheme request
              = Raise (AttributeError "Scheme is not available.")
       | [] =>
         LambdaRequest.scheme request
         = Raise (AttributeError "Scheme is not available.")
       end.
Proof.
  intros Hinit.
  destruct (InitFacts.init_inversion _ Hinit)
    as (flag & b & spelling & context & protocol & m
        & _ & _ & _ & _ & _ & Hm & _ & _ & _ & _ & _ & Hs).
  exists m. split; [exact Hm|]. cbv zeta in Hs.
  unfold Magicdict.get_first in Hs.
  rewrite HeaderFacts.get_all_flatten in Hs.
  unfold LambdaRequest.scheme.
  destruct (values_ignoring_case m "x-forwarded-proto") as [|v rest].
  - cbn in Hs. now rewrite Hs.
  - rewrite truthy_lower in Hs. destruct (Text.truthy v).
    + destruct Hs as [Hs Hne].
      destruct (LambdaRequest._scheme request) as [s|]; [|congruence].
      exists s. auto.
    + now rewrite Hs.
Qed.

(** X11: a text body comes back as it went in: when the event's flag is
    false and its body is a text, a response that writes what [read]
    returns and finishes is translated to an envelope that is not base64
    and whose body is that text. *)
Theorem text_body_echo `{Constants} (event : LambdaEvent.t)
        (request : LambdaRequest.t) (text : str)
        (status_code : HttpStatusCode)
        (headers : Magicdict.FrozenTolerantMagicDict) :
  LambdaRequest.init event = Ok request ->
  LambdaEvent.isBase64Encoded event = Some false ->
  LambdaEvent.body event = Some (Some text) ->
  exists out,
    LambdaResponse.translate
      (run_calls [CallWrite (LambdaRequest.read request); CallFinish]
                 (LambdaResponse.init status_code headers))
    = Ok out
    /\ LambdaOutput.isBase64Encoded out = false
    /\ LambdaOutput.body out = text.
Proof.
  intros Hinit Hflag Hbody.
  destruct (RequestFacts.init_fields _ Hinit) as (Hb & _).
  unfold LambdaRequest.init_body in Hb. rewrite Hflag, Hbody in Hb.
  cbn [getitem rbind] in Hb.
  assert (Utf8.decode (LambdaRequest.read request) = Some text) as Hdec.
  { unfold LambdaRequest.read, LambdaRequest.body.
    destruct text as [|c text]; cbn [LambdaRequest.nonempty] in Hb.
    - now injection Hb as <-.
    - unfold str_encode in Hb.
      destruct (Utf8.encode (c :: text)) as [data|] eqn:E; [|discriminate].
      injection Hb as <-. now apply Utf8More.encode_decode. }
  eexists. split.
  - apply ResponseFacts.translate_finished.
    now rewrite response_state_after_calls.
  - unfold output_of. rewrite response_state_after_calls.
    cbn [LambdaResponse._body_chunks written LambdaOutput.isBase64Encoded
         LambdaOutput.body].
    rewrite concat_nonempty. cbn [List.concat]. rewrite app_nil_r.
    now rewrite Hdec.
Qed.

(** ** The date string *)

Module DateStringFacts.

Import Datetime CalendarFacts.
Local Open Scope Z_scope.

Lemma length_append (a b : string) :
  String.length (a ++ b) = (String.length a + String.length b)%nat.
Proof. induction a as [|c a IH]; cbn; [reflexivity | now rewrite IH]. Qed.

Lemma length_digit (n : Z) : String.length (Httputils.digit n) = 1%nat.
Proof. reflexivity. Qed.

Lemma length_day_name (n : nat) :
  (n < 7)%nat -> String.length (nth n Httputils.day_names "") = 3%nat.
Proof.
  intros Hn. do 7 (destruct n as [|n]; [reflexivity|]). lia.
Qed.

Lemma length_month_name (n : nat) :
  (n < 12)%nat -> String.length (nth n Httputils.month_names "") = 3%nat.
Proof.
  intros Hn. do 12 (destruct n as [|n]; [reflexivity|]). lia.
Qed.

Lemma length_format (dt : datetime) :
  1 <= month dt <= 12 ->
  String.length (Httputils._format_timetuple_and_zone dt "GMT") = 29%nat.
Proof.
  intros Hm. unfold Httputils._format_timetuple_and_zone,
             Httputils.pad2, Httputils.pad4.
  rewrite !length_append, !length_digit.
  rewrite length_day_name, length_month_name; [reflexivity | lia |].
  unfold weekday.
  pose proof (Z.mod_pos_bound (toordinal dt + 6) 7 ltac:(lia)). lia.
Qed.

End DateStringFacts.

(** X12: every string [format_timestamp] returns has 29 characters, the
    width of "Thu, 01 Jan 1970 00:00:00 GMT". *)
Theorem date_string_has_fixed_width (float : Type)
        (float_seconds : float -> result Z) (now : float)
        (ts : Httputils.object float) (text : string) :
  Httputils.format_timestamp float_seconds now ts = Ok text ->
  String.length text = 29%nat.
Proof.
  intros Hok.
  assert (exists timeval,
             Httputils.formatdate float_seconds timeval = Ok text)
    as [timeval Hfmt].
  { unfold Httputils.format_timestamp in Hok.
    destruct ts as [|n|items|dt|s]; cbn [rbind] in Hok; eauto.
    - destruct (Datetime.timegm items); cbn [rbind] in Hok;
        [eauto | discriminate].
    - destruct (Datetime.utctimetuple dt); cbn [rbind] in Hok;
        [|discriminate].
      destruct (Datetime.timegm a); cbn [rbind] in Hok;
        [eauto | discriminate].
    - discriminate. }
  unfold Httputils.formatdate in Hfmt.
  destruct (Httputils._PyTime_ObjectToTimeval float_seconds timeval)
    as [timet|]; cbn [rbind] in Hfmt; [|discriminate].
  destruct (Datetime.datetime_from_timet timet (Some 0%Z)) as [dt|] eqn:E;
    cbn [rbind] in Hfmt; [|discriminate].
  injection Hfmt as <-. apply DateStringFacts.length_format.
  now apply TimestampFacts.datetime_from_timet_month in E.
Qed.

(** X13: a UTC time that exists (year 1 to 9999, a day of the month,
    seconds below 60) is printed with its own date and time, and with the
    weekday of its date: given as a tuple, whatever follows its first six
    items, or as a datetime that is naive or in the zone UTC, whatever its
    microsecond. *)
Theorem valid_utc_time_is_printed_as_is (float : Type)
        (float_seconds : float -> result Z) (now : float)
        (y m d hh mm ss : Z) :
  (1 <= y <= 9999)%Z -> (1 <= m <= 12)%Z ->
  (1 <= d <= Datetime._days_in_month y m)%Z ->
  (0 <= hh < 24)%Z -> (0 <= mm < 60)%Z -> (0 <= ss < 60)%Z ->
  let text :=
    Httputils._format_timetuple_and_zone
      {| Datetime.year := y; Datetime.month := m; Datetime.day := d;
         Datetime.hour := hh; Datetime.minute := mm; Datetime.second := ss;
         Datetime.microsecond := 0%Z; Datetime.utcoffset := Some 0%Z |}
      "GMT" in
  (forall rest,
      Httputils.format_timestamp
        float_seconds now
        (Httputils.PyTuple (y :: m :: d :: hh :: mm :: ss :: rest))
      = Ok text)
  /\ (forall us tz,
         tz = None \/ tz = Some 0%Z ->
         Httputils.format_timestamp
           float_seconds now
           (Httputils.PyDatetime
              {| Datetime.year := y; Datetime.month := m; Datetime.day := d;
                 Datetime.hour := hh; Datetime.minute := mm;
                 Datetime.second := ss; Datetime.microsecond := us;
                 Datetime.utcoffset := tz |})
         = Ok text).
Proof.
  intros Hy Hm Hd Hh Hmi Hs text.
  assert (forall rest,
             Httputils.format_timestamp
               float_seconds now
               (Httputils.PyTuple (y :: m :: d :: hh :: mm :: ss :: rest))
             = Ok text) as Htuple.
  { intros rest.
    unfold Httputils.format_timestamp.
    rewrite TimestampFacts.timegm_in_range by assumption. cbn [rbind].
    set (secs := ((((Datetime._ymd2ord y m 1 - Datetime._EPOCH_ORD + d - 1)
                      * 24 + hh) * 60 + mm) * 60 + ss)%Z).
    pose (dt0 tz :=
            {| Datetime.year := y; Datetime.month := m; Datetime.day := d;
               Datetime.hour := hh; Datetime.minute := mm;
               Datetime.second := ss; Datetime.microsecond := 0%Z;
               Datetime.utcoffset := tz |}).
    assert (forall tz,
               Datetime.of_microseconds
                 ((Datetime._EPOCH_ORD * 86400 + secs) * 1000000)%Z tz
               = Some (dt0 tz)) as Hdt.
    { intros tz.
      replace ((Datetime._EPOCH_ORD * 86400 + secs) * 1000000)%Z
        with (Datetime.microseconds_of (dt0 tz)).
      - apply (@CalendarInverse.of_microseconds_microseconds_of (dt0 tz));
          unfold dt0;
          cbn [Datetime.year Datetime.month Datetime.day Datetime.hour
               Datetime.minute Datetime.second Datetime.microsecond];
          try assumption; try lia.
        repeat split; lia.
      - unfold Datetime.microseconds_of, Datetime.toordinal, secs,
          Datetime._ymd2ord, dt0, Datetime._EPOCH_ORD.
        cbn [Datetime.year Datetime.month Datetime.day Datetime.hour
             Datetime.minute Datetime.second Datetime.microsecond].
        lia. }
    assert (representable secs = true) as Hr.
    { destruct (representable secs) eqn:E; [reflexivity|].
      apply (CalendarFacts.of_microseconds_representable secs None) in E.
      rewrite (Hdt None) in E. discriminate. }
    unfold Httputils.formatdate, Httputils._PyTime_ObjectToTimeval.
    rewrite TimestampFacts.AsTime_t_spec.
    rewrite (TimestampFacts.in_tm_range_in_time_t_range
               _ (TimestampFacts.representable_in_tm_range _ Hr)).
    cbn [rbind].
    rewrite TimestampFacts.datetime_from_timet_spec, Hr.
    rewrite Z.add_0_r, (Hdt (Some 0%Z)). reflexivity. }
  split; [exact Htuple|].
  intros us tz Htz. unfold Httputils.format_timestamp.
  assert (Datetime.utctimetuple
            {| Datetime.year := y; Datetime.month := m; Datetime.day := d;
               Datetime.hour := hh; Datetime.minute := mm;
               Datetime.second := ss; Datetime.microsecond := us;
               Datetime.utcoffset := tz |}
          = Ok (Datetime._build_struct_time y m d hh mm ss)) as ->
      by (destruct Htz as [-> | ->]; reflexivity).
  cbn [rbind]. unfold Datetime._build_struct_time. exact (Htuple _).
Qed.

(** ** Lazy properties *)

Lemma get_set_same (V : Type) (d : Dict.t V) (key : string) (value : V) :
  Dict.get (Dict.set d key value) key = Some value.
Proof.
  induction d as [|[k v] d IH]; cbn.
  - now rewrite String.eqb_refl.
  - destruct (String.eqb_spec k key) as [->|Hne]; cbn.
    + now rewrite String.eqb_refl.
    + destruct (String.eqb_spec k key); [contradiction | assumption].
Qed.

(** X14: a lazy property bound under its function's name is computed
    once: the first access to an instance that does not hold the name
    yet returns what the function returns; every access after an access
    returns the value of the first one and leaves the instance as it is,
    whatever the function would return by then. *)
Theorem lazy_property_is_computed_once (Fields T : Type)
        (w w' : Utils._LazyPropertyWrapper Fields T)
        (o : Utils.instance Fields T) :
  Utils.__name__ w' = Utils.__name__ w ->
  (Dict.get (Utils.__dict__ o) (Utils.__name__ w) = None ->
   fst (Utils.getattr (Utils.__name__ w) w o) = Utils.func w o)
  /\ Utils.getattr (Utils.__name__ w') w'
                   (snd (Utils.getattr (Utils.__name__ w) w o))
     = Utils.getattr (Utils.__name__ w) w o.
Proof.
  intros ->. unfold Utils.getattr.
  destruct (Dict.get (Utils.__dict__ o) (Utils.__name__ w)) as [v|] eqn:E.
  - split; [discriminate|]. cbn [snd]. now rewrite E.
  - split; [reflexivity|]. cbn [Utils.__get__ snd Utils.__dict__].
    now rewrite get_set_same.
Qed.

Lemma get_set_other (V : Type) (d : Dict.t V) (key other : string)
      (value : V) :
  other <> key ->
  Dict.get (Dict.set d key value) other = Dict.get d other.
Proof.
  intros Hne. induction d as [|[k v] d IH]; cbn.
  - destruct (String.eqb_spec key other); [congruence | reflexivity].
  - destruct (String.eqb_spec k key) as [->|Hk]; cbn.
    + destruct (String.eqb_spec key other); [congruence | reflexivity].
    + destruct (String.eqb_spec k other); [reflexivity | assumption].
Qed.

(** X15: a lazy property bound under a name other than its function's
    name is never cached: after an access the instance still does not
    hold the attribute's name, so the next access computes again. *)
Theorem lazy_property_needs_its_own_name (Fields T : Type)
        (attr : string) (w : Utils._LazyPropertyWrapper Fields T)
        (o : Utils.instance Fields T) :
  attr <> Utils.__name__ w ->
  Dict.get (Utils.__dict__ o) attr = None ->
  fst (Utils.getattr attr w o) = Utils.func w o
  /\ Dict.get (Utils.__dict__ (snd (Utils.getattr attr w o))) attr = None.
Proof.
  intros Hne Hnone. unfold Utils.getattr. rewrite Hnone.
  cbn [Utils.__get__ fst snd Utils.__dict__]. split; [reflexivity|].
  now rewrite get_set_other.
Qed.

(** ** Instances *)

(** X3, an instance. *)
Lemma translated_headers_are_well_formed_witness :
  LambdaResponse.translate sample_response = Ok sample_output
  /\ NoDup (Dict.keys (LambdaOutput.multiValueHeaders sample_output)).
Proof.
  split; [reflexivity|].
  exact (proj1 (@translated_headers_are_well_formed
                  sample_response sample_output eq_refl)).
Defined.

(** X4, an instance. *)
Lemma translated_headers_lose_nothing_witness :
  Permutation
    (pairs_of (LambdaOutput.multiValueHeaders sample_output))
    (filter not_content_length
            (Magicdict.items (LambdaResponse.headers sample_response))).
Proof.
  exact (@translated_headers_lose_nothing
           sample_response sample_output eq_refl).
Defined.

(** X5, an instance: a write and a second [write_response] after the
    response of the example schedule was finished. *)
Lemma final_response_is_stable_witness :
  let w := snd (Schedule.run sample_schedule (Schedule.fresh sample_request)) in
  LambdaRequest._get_final_response w = LambdaRequest.Ready 0%nat
  /\ LambdaRequest._get_final_response
       (snd (Schedule.run [Schedule.Write 0%nat [x21];
                           Schedule.WriteResponse 500%Z None] w))
     = LambdaRequest.Ready 0%nat.
Proof.
  intros w. split; [reflexivity|].
  apply (@final_response_is_stable sample_constants). reflexivity.
Defined.

(** X6, an instance. *)
Lemma final_response_needs_finish_witness :
  Schedule.first_call sample_schedule <> None
  /\ In (Schedule.Finish 0%nat) sample_schedule.
Proof.
  apply (@final_response_needs_finish
           sample_constants (sample_event "GET" false (Some None))
           sample_request).
  - reflexivity.
  - reflexivity.
Defined.

(** X7, an instance. *)
Lemma final_envelope_reports_first_call_witness :
  exists status_code headers out,
    Schedule.first_call sample_schedule = Some (status_code, headers)
    /\ Ok {| LambdaOutput.isBase64Encoded := false;
             LambdaOutput.statusCode := 200%Z;
             LambdaOutput.multiValueHeaders := [];
             LambdaOutput.body := [104; 105]%N |} = Ok out
    /\ LambdaOutput.statusCode out = status_code
    /\ LambdaOutput.multiValueHeaders out
       = grouped
           (filter not_content_length
                   (Magicdict.items
                      (Magicdict.construct
                         (Dict.items match headers with
                                     | Some h => h
                                     | None => Dict.empty
                                     end)))).
Proof.
  apply (@final_envelope_reports_first_call
           sample_constants (sample_event "GET" false (Some None))
           sample_request sample_schedule).
  - reflexivity.
  - reflexivity.
Defined.

(** X8, an instance. *)
Lemma construction_needs_required_fields_witness :
  exists request,
    LambdaRequest.init (C := sample_constants) sample_forwarded_event
    = Ok request
    /\ LambdaEvent.isBase64Encoded sample_forwarded_event <> None
    /\ LambdaEvent.body sample_forwarded_event <> None.
Proof.
  eexists. split; [reflexivity|].
  pose proof (@construction_needs_required_fields
                sample_constants sample_forwarded_event _ eq_refl) as P.
  split; apply P.
Defined.

(** X9, an instance: no path, a query parameter, a domain name. *)
Lemma optional_fields_default_witness :
  exists request,
    LambdaRequest.init (C := sample_constants) sample_forwarded_event
    = Ok request
    /\ LambdaRequest.uri request = "/"
    /\ Magicdict.get_all (LambdaRequest.queries request) "tag" = ["a"; "b"].
Proof.
  eexists. split; [reflexivity|].
  pose proof (@optional_fields_default
                sample_constants sample_forwarded_event _ eq_refl) as P.
  split; [apply P|]. apply (proj1 (proj2 P) "tag").
Defined.

(** X10, an instance: "HTTPS" under "X-Forwarded-Proto". *)
Lemma scheme_from_forwarded_proto_witness :
  exists request,
    LambdaRequest.init (C := sample_constants) sample_forwarded_event
    = Ok request
    /\ LambdaRequest.scheme request = Ok HTTPS.
Proof.
  eexists. split; [reflexivity|].
  destruct (@scheme_from_forwarded_proto
              sample_constants sample_forwarded_event _ eq_refl)
    as (m & Hm & P).
  injection Hm as <-. cbn in P. destruct P as (s & Hs & P).
  injection Hs as <-. exact P.
Defined.

(** X11, an instance: the body "hi". *)
Lemma text_body_echo_witness :
  exists request out,
    LambdaRequest.init (C := sample_constants) sample_forwarded_event
    = Ok request
    /\ LambdaResponse.translate
         (run_calls [CallWrite (LambdaRequest.read request); CallFinish]
                    (LambdaResponse.init 200%Z (Magicdict.construct [])))
       = Ok out
    /\ LambdaOutput.isBase64Encoded out = false
    /\ LambdaOutput.body out = [104; 105]%N.
Proof.
  eexists.
  destruct (@text_body_echo
              sample_constants sample_forwarded_event _ [104; 105]%N
              200%Z (Magicdict.construct []) eq_refl eq_refl eq_refl)
    as (out & P).
  exists out. split; [reflexivity | exact P].
Defined.

(** X12, an instance. *)
Lemma date_string_has_fixed_width_witness :
  String.length "Tue, 14 Nov 2023 22:13:20 GMT" = 29%nat.
Proof.
  apply (@date_string_has_fixed_width
           Z whole_seconds 0%Z
           (Httputils.PyNumber (Httputils.Int 1700000000%Z))).
  vm_compute. reflexivity.
Defined.

(** X13, an instance: 14 November 2023, 22:13:20, with a wrong weekday
    in the tuple. *)
Lemma valid_utc_time_is_printed_as_is_witness :
  Httputils.format_timestamp
    whole_seconds 0%Z
    (Httputils.PyTuple [2023; 11; 14; 22; 13; 20; 6; 1; 0]%Z)
  = Ok (Httputils._format_timetuple_and_zone
          {| Datetime.year := 2023%Z; Datetime.month := 11%Z;
             Datetime.day := 14%Z; Datetime.hour := 22%Z;
             Datetime.minute := 13%Z; Datetime.second := 20%Z;
             Datetime.microsecond := 0%Z;
             Datetime.utcoffset := Some 0%Z |} "GMT").
Proof.
  refine (proj1 (@valid_utc_time_is_printed_as_is
                   Z whole_seconds 0%Z 2023%Z 11%Z 14%Z 22%Z 13%Z 20%Z
                   _ _ _ _ _ _) _); try lia.
  vm_compute. split; discriminate.
Defined.

(** X14, an instance: a property that counts the entries of the
    instance's [__dict__]. *)
Lemma lazy_property_is_computed_once_witness :
  let w := Utils.lazy_property
             (fun o : Utils.instance unit nat =>
                List.length (Utils.__dict__ o)) "queries" in
  let o := {| Utils.fields := tt; Utils.__dict__ := [] |} in
  Utils.getattr "queries" w (snd (Utils.getattr "queries" w o))
  = Utils.getattr "queries" w o.
Proof.
  intros w o.
  exact (proj2 (@lazy_property_is_computed_once unit nat w w o eq_refl)).
Defined.

(** X15, an instance: the same property bound as "params". *)
Lemma lazy_property_needs_its_own_name_witness :
  let w := Utils.lazy_property
             (fun o : Utils.instance unit nat =>
                List.length (Utils.__dict__ o)) "queries" in
  let o := {| Utils.fields := tt; Utils.__dict__ := [] |} in
  fst (Utils.getattr "params" w o) = 0%nat
  /\ fst (Utils.getattr "params" w (snd (Utils.getattr "params" w o)))
     = 1%nat.
Proof.
  intros w o.
  destruct (@lazy_property_needs_its_own_name
              unit nat "params" w o ltac:(discriminate) eq_refl)
    as [P1 P2].
  split; [exact P1 | reflexivity].
Defined.
